(** * anomalib: MVTec dataset indexing and callback assembly

    A shallow embedding of
    - [anomalib/data/mvtec.py]: [split_normal_images_in_train_set],
      [make_mvtec_dataset] and [_MvtecDataset.__getitem__];
    - [anomalib/utils/callbacks/__init__.py]: [get_callbacks] and
      [add_visualizer_callback];
    together with the properties the specification states about them. *)

From Stdlib Require Import ZArith String Ascii List Bool Lia Permutation.
From Stdlib Require Import DecimalString Sorted.
From Stdlib Require Import Floats.SpecFloat.
Import ListNotations.
Open Scope string_scope.
Set Warnings "-register-all".

(* ===================================================================== *)
(** * Python exceptions and the state-and-exception monad                 *)
(* ===================================================================== *)

(** The exception classes the two modules can raise, each with its message. *)
Inductive exn : Type :=
| RuntimeError (msg : string)
| ValueError (msg : string)
| OverflowError (msg : string)
| NotImplementedError (msg : string)
| AttributeError (msg : string)
| TypeError (msg : string)
| KeyError (msg : string)
| AssertionError (msg : string)
| MissingMandatoryValue (msg : string)
| MisconfigurationException (msg : string).

Inductive result (A : Type) : Type :=
| Ok (a : A)
| Raise (e : exn).
Arguments Ok {A} a.
Arguments Raise {A} e.

(** A computation over a mutable store [S] that may raise.  The store
    survives an exception: what was written before the [raise] stays
    written, as for a Python object mutated in place. *)
Definition M (S A : Type) : Type := S -> result A * S.

Definition ret {S A} (a : A) : M S A := fun s => (Ok a, s).
Definition raise {S A} (e : exn) : M S A := fun s => (Raise e, s).
Definition bind {S A B} (m : M S A) (k : A -> M S B) : M S B :=
  fun s => match m s with
           | (Ok a, s') => k a s'
           | (Raise e, s') => (Raise e, s')
           end.
Definition get {S} : M S S := fun s => (Ok s, s).
Definition put {S} (s : S) : M S unit := fun _ => (Ok tt, s).
Definition lift {S A} (r : result A) : M S A := fun s => (r, s).

Declare Scope py_scope.
Delimit Scope py_scope with py.
Notation "x <- m ;; k" := (bind m (fun x => k))
  (at level 61, m at next level, right associativity) : py_scope.
Notation "m ;;; k" := (bind m (fun _ => k))
  (at level 61, right associativity) : py_scope.

(** Python's [str.rstrip(chars)]: drop the longest suffix made of
    characters of [chars]. *)
Fixpoint mem_ascii (c : ascii) (chars : string) : bool :=
  match chars with
  | EmptyString => false
  | String d rest => Ascii.eqb c d || mem_ascii c rest
  end.

Fixpoint rstrip (chars s : string) : string :=
  match s with
  | EmptyString => EmptyString
  | String c rest =>
      match rstrip chars rest with
      | EmptyString => if mem_ascii c chars then EmptyString else String c EmptyString
      | kept => String c kept
      end
  end.

(* ===================================================================== *)
(** * [anomalib/data/mvtec.py]                                            *)
(* ===================================================================== *)

Module Mvtec.

(** ** Binary64 arithmetic of [int(num_normal_train_images * split_ratio)] *)

Definition prec : Z := 53.
Definition emax : Z := 1024.

(** A Python [float] is an IEEE 754 binary64 value. *)
Definition float : Type := spec_float.

(** [float(n)] for a Python [int]: rounded to nearest-even; an [int] too
    large for a binary64 raises [OverflowError]. *)
Definition float_of_int (n : Z) : result float :=
  match binary_normalize prec emax n 0 false with
  | S754_infinity _ => Raise (OverflowError "int too large to convert to float")
  | f => Ok f
  end.

(** [x * y] on floats. *)
Definition float_mul (x y : float) : float := SFmul prec emax x y.

(** [int(x)] for a float: truncation toward zero; NaN and the infinities raise. *)
Definition int_of_float (x : float) : result Z :=
  match x with
  | S754_zero _ => Ok 0%Z
  | S754_nan => Raise (ValueError "cannot convert float NaN to integer")
  | S754_infinity _ => Raise (OverflowError "cannot convert float infinity to integer")
  | S754_finite s m e =>
      let magnitude :=
        match e with
        | Z0 => Zpos m
        | Zpos p => (Zpos m * Z.pow_pos 2 p)%Z
        | Zneg p => (Zpos m / Z.pow_pos 2 p)%Z
        end in
      Ok (if s then (- magnitude)%Z else magnitude)
  end.

(** [int(num_normal_train_images * split_ratio)] (line 73): the [int] is
    converted to a float, the product is rounded, the result truncated. *)
Definition num_normal_valid_images (num_normal_train_images : nat) (split_ratio : float)
  : result Z :=
  match float_of_int (Z.of_nat num_normal_train_images) with
  | Raise e => Raise e
  | Ok n => int_of_float (float_mul n split_ratio)
  end.

(** The binary64 values of the literals [0.1] (the default ratio), [0.5]
    and [1.0]. *)
Definition ratio_0_1 : float := S754_finite false 7205759403792794 (-56).
Definition ratio_0_5 : float := S754_finite false 4503599627370496 (-53).
Definition ratio_1_0 : float := S754_finite false 4503599627370496 (-52).

(** ** The global random generator *)

(** Python's [random] module keeps one hidden generator state.  Its
    algorithm is outside the repository, so it is an interface:
    [rng_seed] is the state [random.seed(seed)] installs, and
    [rng_sample_positions g n k] gives the [k] positions that
    [random.sample] picks in a population of length [n] from state [g],
    with the state it leaves behind. *)
Class PyRandom : Type := {
  rng_state : Type;
  rng_seed : Z -> rng_state;
  rng_sample_positions : rng_state -> nat -> nat -> list nat * rng_state
}.

(** What [random.sample] guarantees: [k] distinct positions of the
    population (sampling without replacement). *)
Definition sample_without_replacement (R : PyRandom) : Prop :=
  forall g n k, k <= n ->
    let js := fst (rng_sample_positions g n k) in
    length js = k /\ NoDup js /\ Forall (fun j => j < n) js.

(** ** The samples table *)

(** One row of the samples DataFrame.  [label_index] is a float column
    while it is being filled: [None] is NaN, a cell not assigned yet. *)
Record Sample : Type := mkSample {
  path : string;
  split : string;
  label : string;
  image_path : string;
  mask_path : string;
  label_index : option Z
}.

(** A DataFrame: rows in order, each with its index label. *)
Definition DataFrame : Type := list (nat * Sample).

(** One file found by [path.glob("**/*.png")], as its last three path
    components [filename.parts[-3:]]: split directory, label directory,
    file name. *)
Record PngFile : Type := mkPng {
  png_split : string;
  png_label : string;
  png_name : string
}.

Definition is_normal_train (r : Sample) : bool :=
  (split r =? "train") && (label r =? "good").
Definition is_normal_test (r : Sample) : bool :=
  (split r =? "test") && (label r =? "good").

(** [sum(mask)] / [len(df[mask])]: the number of rows a boolean mask selects. *)
Definition count_rows (mask : Sample -> bool) (samples : DataFrame) : nat :=
  length (filter (fun ir => mask (snd ir)) samples).

(** [samples.index[mask].to_list()] *)
Definition index_where (mask : Sample -> bool) (samples : DataFrame) : list nat :=
  map fst (filter (fun ir => mask (snd ir)) samples).

Definition set_split (v : string) (r : Sample) : Sample :=
  mkSample (path r) v (label r) (image_path r) (mask_path r) (label_index r).
Definition set_mask_path (v : string) (r : Sample) : Sample :=
  mkSample (path r) (split r) (label r) (image_path r) v (label_index r).
Definition set_label_index (v : Z) (r : Sample) : Sample :=
  mkSample (path r) (split r) (label r) (image_path r) (mask_path r) (Some v).

Definition mem_index (i : nat) (indices : list nat) : bool :=
  existsb (Nat.eqb i) indices.

(** [samples.loc[indices, column] = value]: assignment to the rows whose
    index label is listed. *)
Definition loc_indices (indices : list nat) (update : Sample -> Sample)
    (samples : DataFrame) : DataFrame :=
  map (fun ir => if mem_index (fst ir) indices then (fst ir, update (snd ir)) else ir) samples.

(** [samples.loc[mask, column] = value]: assignment to the rows a boolean
    mask selects. *)
Definition loc_mask (mask : Sample -> bool) (update : Sample -> Sample)
    (samples : DataFrame) : DataFrame :=
  map (fun ir => if mask (snd ir) then (fst ir, update (snd ir)) else ir) samples.

Section WithRandom.
Context {R : PyRandom}.

(** [random.sample(population, k)]: [ValueError] when [k] is negative or
    exceeds the population, otherwise the elements at the drawn positions. *)
Definition random_sample (population : list nat) (k : Z) : M rng_state (list nat) :=
  fun g =>
    if ((k <? 0) || (Z.of_nat (length population) <? k))%Z
    then (Raise (ValueError "Sample larger than population or is negative"), g)
    else
      let (js, g') := rng_sample_positions g (length population) (Z.to_nat k) in
      (Ok (map (fun j => nth j population 0) js), g').

(** [split_normal_images_in_train_set] (lines 54-78), run against the
    global generator state.  The Python function writes the new split
    into the table it is given and returns that table; here the table
    is a value, and the updated table is the result. *)
Definition split_normal_images_in_train_set
    (samples : DataFrame) (split_ratio : float) (seed : Z) : M rng_state DataFrame :=
  (put (rng_seed seed) ;;;
   let normal_train_image_indices := index_where is_normal_train samples in
   let num_normal_train_images := length normal_train_image_indices in
   num_normal_valid_images <- lift (num_normal_valid_images num_normal_train_images split_ratio) ;;
   indices_to_split_from_train_set <-
     random_sample normal_train_image_indices num_normal_valid_images ;;
   ret (loc_indices indices_to_split_from_train_set (set_split "test") samples))%py.

(** Lines 124-142: the scanned files as a table with index labels
    [0 .. n-1], the rows under [ground_truth] dropped (their labels go
    with them), and the [mask_path] and [image_path] columns built. *)
Definition samples_of_scan (path : string) (files : list PngFile) : DataFrame :=
  let samples_list := combine (seq 0 (length files)) files in
  let samples := filter (fun ir => negb (png_split (snd ir) =? "ground_truth")) samples_list in
  map (fun ir =>
         let f := snd ir in
         (fst ir,
          mkSample path (png_split f) (png_label f)
            (path ++ "/" ++ png_split f ++ "/" ++ png_label f ++ "/" ++ png_name f)
            (path ++ "/ground_truth/" ++ png_label f ++ "/"
                  ++ rstrip "." (rstrip "png" (png_name f)) ++ "_mask.png")
            None))
      samples.

(** [samples.label_index.astype(int)]: a NaN cell cannot be cast. *)
Fixpoint astype_int (samples : DataFrame) : result DataFrame :=
  match samples with
  | [] => Ok []
  | (i, r) :: rest =>
      match label_index r, astype_int rest with
      | None, _ => Raise (ValueError "Cannot convert non-finite values (NA or inf) to integer")
      | Some _, Ok rest' => Ok ((i, r) :: rest')
      | Some _, Raise e => Raise e
      end
  end.

(** [samples.loc[mask, "label_index"] = value] at line 154, where the
    table has no [label_index] column yet: pandas adds the column, and
    refuses to do so with a scalar on a table that has no row. *)
Definition loc_mask_new_column (mask : Sample -> bool) (update : Sample -> Sample)
    (samples : DataFrame) : result DataFrame :=
  match samples with
  | [] => Raise (ValueError "cannot set a frame with no defined index and a scalar")
  | _ => Ok (loc_mask mask update samples)
  end.

(** Lines 124-156 of [make_mvtec_dataset]: the full samples table, before
    the requested split is cut out.  The guard of line 125 is on the raw
    scan; a scan whose files are all under [ground_truth] passes it and
    leaves an empty table at line 129. *)
Definition make_mvtec_samples (path : string) (files : list PngFile)
    (split_ratio : float) (seed : Z) : M rng_state DataFrame :=
  (if Nat.eqb (length files) 0
   then raise (RuntimeError ("Found 0 images in " ++ path))
   else
     let samples := samples_of_scan path files in
     samples <- (if Nat.eqb (count_rows is_normal_test samples) 0
                 then split_normal_images_in_train_set samples split_ratio seed
                 else ret samples) ;;
     let samples := loc_mask is_normal_test (set_mask_path "") samples in
     samples <- lift (loc_mask_new_column (fun r => label r =? "good")
                        (set_label_index 0) samples) ;;
     let samples := loc_mask (fun r => negb (label r =? "good")) (set_label_index 1) samples in
     lift (astype_int samples))%py.

(** [samples.reset_index(drop=True)] *)
Definition reset_index (samples : DataFrame) : DataFrame :=
  combine (seq 0 (length samples)) (map snd samples).

(** [make_mvtec_dataset] (lines 81-162).  [files] is what the directory
    scan of [path] finds. *)
Definition make_mvtec_dataset (path : string) (files : list PngFile) (split : string)
    (split_ratio : float) (seed : Z) : M rng_state DataFrame :=
  (samples <- make_mvtec_samples path files split_ratio seed ;;
   let samples := filter (fun ir => Mvtec.split (snd ir) =? split) samples in
   ret (reset_index samples))%py.

End WithRandom.

(** A small generator for concrete runs: the state is a counter, and a
    sample of [k] out of [n] is the window of [k] consecutive positions
    starting at [state mod (n - k + 1)]. *)
#[local] Instance window_random : PyRandom := {|
  rng_state := Z;
  rng_seed := fun seed => seed;
  rng_sample_positions := fun g n k =>
    (seq (Nat.modulo (Z.to_nat (Z.abs g)) (n - k + 1)) k, (g + 1)%Z)
|}.

(** ** The sample accessor *)

Definition rbind {A B} (r : result A) (k : A -> result B) : result B :=
  match r with
  | Ok a => k a
  | Raise e => Raise e
  end.
Notation "x <~ r ;; k" := (rbind r (fun x => k))
  (at level 61, r at next level, right associativity) : py_scope.

Section Accessor.

(** Image decoding and the preprocessing transform are external: decoded
    images, masks and tensors are abstract, reading a file may raise. *)
Variables Image Mask Tensor : Type.
(** [read_image(image_path)] *)
Variable read_image : string -> result Image.
(** [cv2.imread(mask_path, flags=0) / 255.0] *)
Variable imread_mask : string -> result Mask.
(** [np.zeros(shape=image.shape[:2])] *)
Variable zeros_mask : Image -> Mask.
(** [self.pre_process(image=image)["image"]] *)
Variable pre_process_image : Image -> Tensor.
(** [self.pre_process(image=image, mask=mask)], as the pair of its
    ["image"] and ["mask"] entries. *)
Variable pre_process_image_mask : Image -> Mask -> Tensor * Tensor.

Inductive ItemValue : Type :=
| IStr (s : string)
| IInt (z : Z)
| INaN
| ITensor (t : Tensor).

(** A Python dict with string keys, in insertion order. *)
Definition Item : Type := list (string * ItemValue).

(** [item[key] = value] *)
Fixpoint dict_set (key : string) (value : ItemValue) (item : Item) : Item :=
  match item with
  | [] => [(key, value)]
  | (k, v) :: rest =>
      if k =? key then (k, value) :: rest else (k, v) :: dict_set key value rest
  end.

Definition dict_keys (item : Item) : list string := map fst item.

(** The fields of [_MvtecDataset] the accessor reads. *)
Record MvtecDataset : Type := mkDataset {
  self_split : string;
  self_task : string;
  self_samples : DataFrame
}.

(** [self.samples.<column>[index]]: the row with index label [index];
    [KeyError] when there is none. *)
Fixpoint samples_at (samples : DataFrame) (index : nat) : result Sample :=
  match samples with
  | [] => Raise (KeyError "index")
  | (i, r) :: rest => if Nat.eqb i index then Ok r else samples_at rest index
  end.

(** [_MvtecDataset.__getitem__] (lines 265-306). *)
Definition getitem (self : MvtecDataset) (index : nat) : result Item :=
  (row <~ samples_at (self_samples self) index ;;
   let image_path := image_path row in
   image <~ read_image image_path ;;
   let item : Item :=
     if (self_split self =? "train") || (self_task self =? "classification")
     then [("image", ITensor (pre_process_image image))]
     else [] in
   if self_split self =? "test" then
     let label_index := label_index row in
     let item := dict_set "image_path" (IStr image_path) item in
     let item := dict_set "label"
                   (match label_index with Some z => IInt z | None => INaN end) item in
     if self_task self =? "segmentation" then
       let mask_path := mask_path row in
       mask <~ (match label_index with
                | Some 0%Z => Ok (zeros_mask image)
                | _ => imread_mask mask_path
                end) ;;
       let pre_processed := pre_process_image_mask image mask in
       let item := dict_set "mask_path" (IStr mask_path) item in
       let item := dict_set "image" (ITensor (fst pre_processed)) item in
       let item := dict_set "mask" (ITensor (snd pre_processed)) item in
       Ok item
     else Ok item
   else Ok item)%py.

End Accessor.

Arguments IStr {Tensor} s.
Arguments IInt {Tensor} z.
Arguments INaN {Tensor}.
Arguments ITensor {Tensor} t.
Arguments dict_keys {Tensor} item.
Arguments getitem {Image Mask Tensor}.

(** ** Derived notions used to state the properties *)

(** The net effect of lines 150-156 on one row: the mask path of a normal
    test row is cleared, then [label_index] is filled in. *)
Definition finalize (r : Sample) : Sample :=
  let r := if is_normal_test r then set_mask_path "" r else r in
  let r := if label r =? "good" then set_label_index 0 r else r in
  if negb (label r =? "good") then set_label_index 1 r else r.

Definition finalize_rows (samples : DataFrame) : DataFrame :=
  map (fun ir => (fst ir, finalize (snd ir))) samples.

Definition in_split (name : string) (r : Sample) : bool := split r =? name.

(** A row of the normal class in the test split, by its [label_index]. *)
Definition is_test_label_index_0 (r : Sample) : bool :=
  (split r =? "test") && match label_index r with Some 0%Z => true | _ => false end.

(** How many rows of a table a list of index labels selects. *)
Definition selected (indices : list nat) (samples : DataFrame) : nat :=
  length (filter (fun ir => mem_index (fst ir) indices) samples).

(** The spec's count: the ceiling of the exact product
    [split_ratio * count], for a finite [split_ratio]. *)
Definition ceil_ratio_times (split_ratio : float) (count : nat) : option Z :=
  match split_ratio with
  | S754_zero _ => Some 0%Z
  | S754_finite s m e =>
      let numerator := ((if s then Zneg m else Zpos m) * Z.of_nat count)%Z in
      Some (match e with
            | Z0 => numerator
            | Zpos p => (numerator * Z.pow_pos 2 p)%Z
            | Zneg p => (- ((- numerator) / Z.pow_pos 2 p))%Z
            end)
  | _ => None
  end.

(** ** Concrete inputs used in the examples below *)

(** A category with three normal training images and one defective test image. *)
Definition scan_three_train : list PngFile :=
  [ mkPng "train" "good" "000.png";
    mkPng "train" "good" "001.png";
    mkPng "train" "good" "002.png";
    mkPng "test" "broken" "000.png";
    mkPng "ground_truth" "broken" "000_mask.png" ].

(** A category holding a single normal training image. *)
Definition scan_one_train : list PngFile := [ mkPng "train" "good" "000.png" ].

(** A category that ships normal test images. *)
Definition scan_with_normal_test : list PngFile :=
  [ mkPng "train" "good" "000.png";
    mkPng "test" "good" "000.png";
    mkPng "test" "crack" "000.png";
    mkPng "ground_truth" "crack" "000_mask.png" ].

(** The normal training row that the reassignment of [scan_three_train]
    (ratio 0.5) moves to the test split, and the defective test row. *)
Definition reassigned_row : Sample :=
  mkSample "MVTec/bottle" "test" "good" "MVTec/bottle/train/good/000.png" "" (Some 0%Z).
Definition broken_row : Sample :=
  mkSample "MVTec/bottle" "test" "broken" "MVTec/bottle/test/broken/000.png"
    "MVTec/bottle/ground_truth/broken/000_mask.png" (Some 1%Z).

(** A dataset object over these two rows, and a file system on which
    every read succeeds, with images, masks and tensors left opaque. *)
Definition example_dataset (split task : string) : MvtecDataset :=
  mkDataset split task [(0, reassigned_row); (1, broken_row)].

Definition example_getitem (self : MvtecDataset) (index : nat) : result (Item unit) :=
  getitem (fun _ => Ok tt) (fun _ => Ok tt) (fun _ => tt) (fun _ => tt)
    (fun _ _ => (tt, tt)) self index.

(** ** The dataset object and the data module *)

(** [_MvtecDataset.__len__] (lines 261-263) *)
Definition len_dataset (self : MvtecDataset) : nat := length (self_samples self).

(** A [DataLoader], as the arguments its constructor receives. *)
Record DataLoader : Type := mkLoader {
  loader_dataset : MvtecDataset;
  loader_shuffle : bool;
  loader_batch_size : Z;
  loader_num_workers : Z
}.

(** The fields of the [Mvtec] data module that [setup] and the loaders
    use.  [train_data] and [val_data] are declared without a value in
    [__init__] (lines 372-373): until [setup] assigns them the object
    has no such attribute, which is [None] here.  [dataset_path] is
    [str(self.root / self.category)]. *)
Record MvtecModule : Type := mkModule {
  dataset_path : string;
  train_batch_size : Z;
  test_batch_size : Z;
  num_workers : Z;
  train_data : option MvtecDataset;
  val_data : option MvtecDataset
}.

Definition set_train_data (d : MvtecDataset) (self : MvtecModule) : MvtecModule :=
  mkModule (dataset_path self) (train_batch_size self) (test_batch_size self)
    (num_workers self) (Some d) (val_data self).
Definition set_val_data (d : MvtecDataset) (self : MvtecModule) : MvtecModule :=
  mkModule (dataset_path self) (train_batch_size self) (test_batch_size self)
    (num_workers self) (train_data self) (Some d).

(** [stage in (None, "fit")] *)
Definition stage_is_fit (stage : option string) : bool :=
  match stage with
  | None => true
  | Some s => s =? "fit"
  end.

Section DataModule.
Context {R : PyRandom}.

(** [_MvtecDataset.__init__] (lines 168-228) with [download=False]:
    [path] is [str(self.root / category)] and [files] what the scan of
    that directory finds; [make_mvtec_dataset] is called with its
    default ratio 0.1 and seed 0. *)
Definition init_dataset (path : string) (files : list PngFile) (task : string)
    (is_train : bool) : M rng_state MvtecDataset :=
  (let split := if is_train then "train" else "test" in
   samples <- make_mvtec_dataset path files split ratio_0_1 0%Z ;;
   ret (mkDataset split task samples))%py.

(** A call that uses the global generator, made from a method of the
    data module: the store is the generator and the module object. *)
Definition with_generator {A} (m : M rng_state A) : M (rng_state * MvtecModule) A :=
  fun w => let (r, g') := m (fst w) in (r, (g', snd w)).

Definition this : M (rng_state * MvtecModule) MvtecModule :=
  fun w => (Ok (snd w), w).

Definition assign (update : MvtecModule -> MvtecModule) : M (rng_state * MvtecModule) unit :=
  fun w => (Ok tt, (fst w, update (snd w))).

(** [Mvtec.setup] (lines 395-413).  Both dataset objects scan the same
    directory, [files]; the task is the constructor's default. *)
Definition setup (files : list PngFile) (stage : option string)
  : M (rng_state * MvtecModule) unit :=
  (self <- this ;;
   val_data <- with_generator (init_dataset (dataset_path self) files "segmentation" false) ;;
   assign (set_val_data val_data) ;;;
   if stage_is_fit stage then
     self <- this ;;
     train_data <- with_generator (init_dataset (dataset_path self) files "segmentation" true) ;;
     assign (set_train_data train_data)
   else ret tt)%py.

(** [Mvtec.train_dataloader] (lines 415-419) *)
Definition train_dataloader : M (rng_state * MvtecModule) DataLoader :=
  (self <- this ;;
   match train_data self with
   | Some data => ret (mkLoader data false (train_batch_size self) (num_workers self))
   | None => raise (AttributeError "'Mvtec' object has no attribute 'train_data'")
   end)%py.

(** [Mvtec.val_dataloader] (lines 421-423) *)
Definition val_dataloader : M (rng_state * MvtecModule) DataLoader :=
  (self <- this ;;
   match val_data self with
   | Some data => ret (mkLoader data false (test_batch_size self) (num_workers self))
   | None => raise (AttributeError "'Mvtec' object has no attribute 'val_data'")
   end)%py.

(** [Mvtec.test_dataloader] (lines 425-427) *)
Definition test_dataloader : M (rng_state * MvtecModule) DataLoader :=
  (self <- this ;;
   match val_data self with
   | Some data => ret (mkLoader data false (test_batch_size self) (num_workers self))
   | None => raise (AttributeError "'Mvtec' object has no attribute 'val_data'")
   end)%py.

End DataModule.

(** The rows of a table, without their index labels. *)
Definition rows (samples : DataFrame) : list Sample := map snd samples.

(** The scanned files that are not under [ground_truth], in scan order. *)
Definition image_files (files : list PngFile) : list PngFile :=
  filter (fun f => negb (png_split f =? "ground_truth")) files.

(** The [image_path] the indexer builds for a file (line 142). *)
Definition image_path_of (path : string) (f : PngFile) : string :=
  path ++ "/" ++ png_split f ++ "/" ++ png_label f ++ "/" ++ png_name f.

(** A row keeps the split of its file, or is a normal training image
    moved to the test split. *)
Definition split_of_file (r : Sample) (f : PngFile) : Prop :=
  split r = png_split f \/
  (png_split f = "train" /\ png_label f = "good" /\ split r = "test").

(** The binary64 value of the literal [1.5]. *)
Definition ratio_1_5 : float := S754_finite false 6755399441055744 (-52).

(** A fresh data module for the category directory [path]. *)
Definition fresh_module (path : string) : MvtecModule :=
  mkModule path 32 32 8 None None.

(** A category directory that holds mask files only. *)
Definition scan_only_ground_truth : list PngFile :=
  [ mkPng "ground_truth" "broken" "000_mask.png" ].

End Mvtec.

(* ===================================================================== *)
(** * [anomalib/utils/callbacks/__init__.py]                              *)
(* ===================================================================== *)

Module Callbacks.

(** ** The configuration tree *)

(** An OmegaConf configuration: a [DictConfig] is [NDict], with its keys
    in order, a [ListConfig] is [NList], the leaves are Python values.
    A leaf is the value the configuration resolves to: interpolations
    are not represented.  The string "???" is OmegaConf's marker of a
    mandatory value that was not given. *)
Inductive node : Type :=
| NNone
| NBool (b : bool)
| NInt (z : Z)
| NStr (s : string)
| NList (items : list node)
| NDict (entries : list (string * node)).

(** What reading a key that is not there does.  OmegaConf up to 2.0
    returns [None]; from 2.1 on it raises (a [ConfigAttributeError], which
    is an [AttributeError]).  The embedding covers both. *)
Inductive missing_key : Type :=
| MissingIsNone
| MissingRaises.

Fixpoint assoc (key : string) (entries : list (string * node)) : option node :=
  match entries with
  | [] => None
  | (k, v) :: rest => if k =? key then Some v else assoc key rest
  end.

Fixpoint assoc_set (key : string) (value : node) (entries : list (string * node))
  : list (string * node) :=
  match entries with
  | [] => [(key, value)]
  | (k, v) :: rest =>
      if k =? key then (k, value) :: rest else (k, v) :: assoc_set key value rest
  end.

Definition mem_string (key : string) (keys : list string) : bool :=
  existsb (String.eqb key) keys.

(** [node.keys()] *)
Definition keys (n : node) : result (list string) :=
  match n with
  | NDict entries => Ok (map fst entries)
  | _ => Raise (AttributeError "keys")
  end.

(** [node[key] = value] *)
Definition setitem (n : node) (key : string) (value : node) : result node :=
  match n with
  | NDict entries => Ok (NDict (assoc_set key value entries))
  | _ => Raise (TypeError "object does not support item assignment")
  end.

(** [node == "literal"] *)
Definition eq_str (n : node) (literal : string) : bool :=
  match n with
  | NStr s => s =? literal
  | _ => false
  end.

(** A value that is the marker "???". *)
Definition is_missing (n : node) : bool := eq_str n "???".

(** [literal in node]: a key of a dict whose value is not the marker
    "???", an element of a list, a substring of a string; anything else
    is not a container. *)
Definition contains (literal : string) (n : node) : result bool :=
  match n with
  | NDict entries =>
      Ok (match assoc literal entries with
          | Some v => negb (is_missing v)
          | None => false
          end)
  | NList items => Ok (existsb (fun item => eq_str item literal) items)
  | NStr s => Ok (match index 0 literal s with Some _ => true | None => false end)
  | _ => Raise (TypeError "argument is not iterable")
  end.

(** [len(node)] *)
Definition len (n : node) : result nat :=
  match n with
  | NDict entries => Ok (List.length entries)
  | NList items => Ok (List.length items)
  | NStr s => Ok (String.length s)
  | _ => Raise (TypeError "object has no len()")
  end.

(** Truth value of a node in a condition. *)
Definition truthy (n : node) : bool :=
  match n with
  | NNone => false
  | NBool b => b
  | NInt z => negb (z =? 0)%Z
  | NStr s => negb (s =? "")
  | NList items => negb (Nat.eqb (List.length items) 0)
  | NDict entries => negb (Nat.eqb (List.length entries) 0)
  end.

(** [node in [None, False]]; Python's [0 == False] holds. *)
Definition in_none_false (n : node) : bool :=
  match n with
  | NNone => true
  | NBool b => negb b
  | NInt z => (z =? 0)%Z
  | _ => false
  end.

Definition string_of_Z (z : Z) : string := NilZero.string_of_int (Z.to_int z).

(** [repr(node)] and [str(node)], as an f-string prints a node. *)
Fixpoint py_repr (n : node) : string :=
  match n with
  | NNone => "None"
  | NBool b => if b then "True" else "False"
  | NInt z => string_of_Z z
  | NStr s => "'" ++ s ++ "'"
  | NList items =>
      "[" ++ (fix go (l : list node) : string :=
                match l with
                | [] => ""
                | x :: rest =>
                    py_repr x ++ match rest with [] => "" | _ => ", " ++ go rest end
                end) items ++ "]"
  | NDict entries =>
      "{" ++ (fix go (l : list (string * node)) : string :=
                match l with
                | [] => ""
                | (k, v) :: rest =>
                    "'" ++ k ++ "': " ++ py_repr v
                        ++ match rest with [] => "" | _ => ", " ++ go rest end
                end) entries ++ "}"
  end.

Definition py_str (n : node) : string :=
  match n with
  | NStr s => s
  | _ => py_repr n
  end.

(** [os.path.join(a, b)] on POSIX. *)
Definition ends_with_slash (s : string) : bool :=
  match String.get (String.length s - 1) s with
  | Some c => Ascii.eqb c "/"
  | None => false
  end.

Definition path_join (a : node) (b : node) : result string :=
  match a, b with
  | NStr a, NStr b =>
      if prefix "/" b then Ok b
      else if (a =? "") || ends_with_slash a then Ok (a ++ b)
      else Ok (a ++ "/" ++ b)
  | _, _ => Raise (TypeError "expected str, bytes or os.PathLike object")
  end.

(** [node + "literal"] *)
Definition str_add (a : node) (literal : string) : result string :=
  match a with
  | NStr a => Ok (a ++ literal)
  | _ => Raise (TypeError "unsupported operand type(s) for +")
  end.

(** ** The callbacks *)

(** The hooks [get_callbacks] instantiates, each with the arguments its
    constructor receives.  The classes themselves are outside this module. *)
Inductive Callback : Type :=
| ModelCheckpoint (dirpath filename : string) (monitor mode : node)
    (auto_insert_metric_name : bool)
| TimerCallback
| MetricsConfigurationCallback
    (adaptive image_threshold pixel_threshold image_metric_names pixel_metric_names : node)
| LoadModelCallback (weights_path : string)
| CdfNormalizationCallback
| MinMaxNormalizationCallback
| VisualizerCallback (task mode image_save_path : node) (inputs_are_normalized : bool)
    (show_images log_images save_images : node)
| NNCFCallback (config : node) (export_dir : string)
| OpenVINOCallback (input_size : node) (dirpath filename : string)
| GraphLogger.

Definition is_normalization_callback (c : Callback) : bool :=
  match c with
  | CdfNormalizationCallback | MinMaxNormalizationCallback => true
  | _ => false
  end.

Definition is_cdf_callback (c : Callback) : bool :=
  match c with
  | CdfNormalizationCallback => true
  | _ => false
  end.

(** ** Reading and writing the configuration object *)

Section WithMissingKey.
Variable missing : missing_key.

(** The error of reading a key whose value is the marker "???". *)
Definition missing_value (key : string) : exn :=
  MissingMandatoryValue ("Missing mandatory value: " ++ key).

(** [node.key]: attribute access on a [DictConfig].  A key whose value
    is the marker "???" raises [MissingMandatoryValue]. *)
Definition getattr (n : node) (key : string) : result node :=
  match n with
  | NDict entries =>
      match assoc key entries with
      | Some v => if is_missing v then Raise (missing_value key) else Ok v
      | None =>
          match missing with
          | MissingIsNone => Ok NNone
          | MissingRaises => Raise (AttributeError ("Missing key " ++ key))
          end
      end
  | _ => Raise (AttributeError ("object has no attribute " ++ key))
  end.

Fixpoint getattrs (n : node) (keys : list string) : result node :=
  match keys with
  | [] => Ok n
  | key :: rest =>
      match getattr n key with
      | Ok child => getattrs child rest
      | Raise e => Raise e
      end
  end.

(** [config.k1.k2...]: a read of the shared configuration object. *)
Definition attr (keys : list string) : M node node :=
  (config <- get ;; lift (getattrs config keys))%py.

(** [config.k1.k2....keys()] *)
Definition keys_of (path : list string) : M node (list string) :=
  (n <- attr path ;; lift (keys n))%py.

(** [key in config.k1.k2....keys()] *)
Definition has_key (key : string) (path : list string) : M node bool :=
  (ks <- keys_of path ;; ret (mem_string key ks))%py.

(** [config.visualization[key] = value]: a write through to the shared
    configuration object. *)
Definition set_visualization (key : string) (value : node) : M node unit :=
  (visualization <- attr ["visualization"] ;;
   visualization <- lift (setitem visualization key value) ;;
   config <- get ;;
   config <- lift (setitem config "visualization" visualization) ;;
   put config)%py.

(** ** [add_visualizer_callback] (lines 146-187) *)

(** The deprecated-key test of lines 155-160:
    [A and len(a) > 0 or B and len(b) > 0]. *)
Definition log_images_to_is_set : M node bool :=
  (in_project <- has_key "log_images_to" ["project"] ;;
   project_set <- (if in_project
                   then (v <- attr ["project"; "log_images_to"] ;;
                         n <- lift (len v) ;;
                         ret (Nat.ltb 0 n))
                   else ret false) ;;
   if project_set then ret true
   else
     (in_logging <- has_key "log_images_to" ["logging"] ;;
      if in_logging
      then (v <- attr ["logging"; "log_images_to"] ;;
            n <- lift (len v) ;;
            ret (Nat.ltb 0 n))
      else ret false))%py.

(** Lines 165-166: the [visualization] section is created when the
    configuration has none. *)
Definition create_visualization_section : M node unit :=
  (in_config <- has_key "visualization" [] ;;
   if negb in_config
   then (config <- get ;;
         config <- lift (setitem config "visualization"
                           (NDict [("log_images", NBool false);
                                   ("save_images", NBool false);
                                   ("show_image", NBool false);
                                   ("image_save_path", NNone)])) ;;
         put config)
   else ret tt)%py.

(** Lines 167-170: the deprecated value is turned into the two flags. *)
Definition set_visualization_flags : M node unit :=
  (v <- attr ["project"; "log_images_to"] ;;
   has_local <- lift (contains "local" v) ;;
   (if has_local then set_visualization "save_images" (NBool true) else ret tt) ;;;
   v <- attr ["project"; "log_images_to"] ;;
   has_local <- lift (contains "local" v) ;;
   more <- (if negb has_local then ret true
            else (v <- attr ["project"; "log_images_to"] ;;
                  n <- lift (len v) ;;
                  ret (Nat.ltb 1 n))) ;;
   if more then set_visualization "log_images" (NBool true) else ret tt)%py.

(** Lines 171-187: the visualizer hook, when one of the flags asks for it. *)
Definition visualizer_callback (callbacks : list Callback) : M node (list Callback) :=
  (log_images <- attr ["visualization"; "log_images"] ;;
   enabled <- (if truthy log_images then ret true
               else (save_images <- attr ["visualization"; "save_images"] ;;
                     if truthy save_images then ret true
                     else (show_images <- attr ["visualization"; "show_images"] ;;
                           ret (truthy show_images)))) ;;
   if enabled then
     image_save_path <- attr ["visualization"; "image_save_path"] ;;
     image_save_path <- (if truthy image_save_path
                         then attr ["visualization"; "image_save_path"]
                         else (project_path <- attr ["project"; "path"] ;;
                               joined <- lift (str_add project_path "/images") ;;
                               ret (NStr joined))) ;;
     task <- attr ["dataset"; "task"] ;;
     mode <- attr ["visualization"; "mode"] ;;
     normalization_method <- attr ["model"; "normalization_method"] ;;
     show_images <- attr ["visualization"; "show_images"] ;;
     log_images <- attr ["visualization"; "log_images"] ;;
     save_images <- attr ["visualization"; "save_images"] ;;
     ret (callbacks ++ [VisualizerCallback task mode image_save_path
                          (negb (eq_str normalization_method "none"))
                          show_images log_images save_images])%list
   else ret callbacks)%py.

Definition add_visualizer_callback (callbacks : list Callback) : M node (list Callback) :=
  (config <- get ;;
   (match config with
    | NDict _ => ret tt
    | _ => raise (AssertionError "")
    end) ;;;
   deprecated <- log_images_to_is_set ;;
   (if deprecated
    then (create_visualization_section ;;; set_visualization_flags)
    else ret tt) ;;;
   visualizer_callback callbacks)%py.

(** ** [get_callbacks] (lines 50-143), block by block *)

(** [key in config.optimization and config.optimization.<key>.apply] *)
Definition optimization_applies (key : string) : M node bool :=
  (optimization <- attr ["optimization"] ;;
   present <- lift (contains key optimization) ;;
   if present
   then (apply <- attr ["optimization"; key; "apply"] ;; ret (truthy apply))
   else ret false)%py.

(** The one argument that the constructor of Lightning's
    [ModelCheckpoint] validates here: [mode] must be "min" or "max". *)
Definition model_checkpoint_mode (mode : node) : result unit :=
  if eq_str mode "min" || eq_str mode "max" then Ok tt
  else Raise (MisconfigurationException
                ("`mode` can be min, max but got " ++ py_str mode)).

(** Lines 61-96: checkpoint, timer, metrics configuration and the
    optional weight loader. *)
Definition base_callbacks : M node (list Callback) :=
  (no_early_stopping <- (b <- has_key "early_stopping" ["model"] ;; ret (negb b)) ;;
   monitor_metric <- (if no_early_stopping then ret NNone
                      else attr ["model"; "early_stopping"; "metric"]) ;;
   no_early_stopping <- (b <- has_key "early_stopping" ["model"] ;; ret (negb b)) ;;
   monitor_mode <- (if no_early_stopping then ret (NStr "max")
                    else attr ["model"; "early_stopping"; "mode"]) ;;
   project_path <- attr ["project"; "path"] ;;
   dirpath <- lift (path_join project_path (NStr "weights")) ;;
   lift (model_checkpoint_mode monitor_mode) ;;;
   let checkpoint := ModelCheckpoint dirpath "model" monitor_metric monitor_mode false in
   let callbacks := [checkpoint; TimerCallback] in
   has_image <- has_key "image" ["metrics"] ;;
   image_metric_names <- (if has_image then attr ["metrics"; "image"] else ret NNone) ;;
   has_pixel <- has_key "pixel" ["metrics"] ;;
   pixel_metric_names <- (if has_pixel then attr ["metrics"; "pixel"] else ret NNone) ;;
   has_image_default <- has_key "image_default" ["metrics"; "threshold"] ;;
   image_threshold <- (if has_image_default
                       then attr ["metrics"; "threshold"; "image_default"] else ret NNone) ;;
   has_pixel_default <- has_key "pixel_default" ["metrics"; "threshold"] ;;
   pixel_threshold <- (if has_pixel_default
                       then attr ["metrics"; "threshold"; "pixel_default"] else ret NNone) ;;
   adaptive <- attr ["metrics"; "threshold"; "adaptive"] ;;
   let metrics_callback :=
     MetricsConfigurationCallback adaptive image_threshold pixel_threshold
       image_metric_names pixel_metric_names in
   let callbacks := (callbacks ++ [metrics_callback])%list in
   has_weight_file <- has_key "weight_file" ["model"] ;;
   if has_weight_file then
     project_path <- attr ["project"; "path"] ;;
     weight_file <- attr ["model"; "weight_file"] ;;
     weights_path <- lift (path_join project_path weight_file) ;;
     ret (callbacks ++ [LoadModelCallback weights_path])%list
   else ret callbacks)%py.

(** Lines 100-105: the CDF branch of the score-normalization hook. *)
Definition cdf_normalization_callback (callbacks : list Callback) : M node (list Callback) :=
  (name <- attr ["model"; "name"] ;;
   if eq_str name "padim" || eq_str name "stfpm" then
     nncf <- optimization_applies "nncf" ;;
     if nncf
     then raise (NotImplementedError
                   "CDF Score Normalization is currently not compatible with NNCF.")
     else ret (callbacks ++ [CdfNormalizationCallback])%list
   else raise (NotImplementedError
                 "Score Normalization is currently supported for PADIM and STFPM only."))%py.

(** Lines 98-109: the score-normalization hook. *)
Definition normalization_callback (callbacks : list Callback) : M node (list Callback) :=
  (present <- has_key "normalization_method" ["model"] ;;
   requested <- (if present
                 then (method <- attr ["model"; "normalization_method"] ;;
                       ret (negb (eq_str method "none")))
                 else ret false) ;;
   if requested then
     method <- attr ["model"; "normalization_method"] ;;
     if eq_str method "cdf" then cdf_normalization_callback callbacks
     else
       method <- attr ["model"; "normalization_method"] ;;
       if eq_str method "min_max" then
         ret (callbacks ++ [MinMaxNormalizationCallback])%list
       else
         method <- attr ["model"; "normalization_method"] ;;
         raise (ValueError ("Normalization method not recognized: " ++ py_str method))
   else ret callbacks)%py.

(** Lines 113-137: the NNCF and OpenVINO hooks. *)
Definition optimization_callbacks (callbacks : list Callback) : M node (list Callback) :=
  (has_optimization <- has_key "optimization" [] ;;
   if has_optimization then
     nncf <- optimization_applies "nncf" ;;
     callbacks <- (if nncf then
                     nncf_config <- attr ["optimization"; "nncf"] ;;
                     project_path <- attr ["project"; "path"] ;;
                     export_dir <- lift (path_join project_path (NStr "compressed")) ;;
                     ret (callbacks ++ [NNCFCallback nncf_config export_dir])%list
                   else ret callbacks) ;;
     openvino <- optimization_applies "openvino" ;;
     if openvino then
       input_size <- attr ["model"; "input_size"] ;;
       project_path <- attr ["project"; "path"] ;;
       dirpath <- lift (path_join project_path (NStr "openvino")) ;;
       ret (callbacks ++ [OpenVINOCallback input_size dirpath "openvino_model"])%list
     else ret callbacks
   else ret callbacks)%py.

(** Lines 139-141: the graph logger. *)
Definition graph_logger_callback (callbacks : list Callback) : M node (list Callback) :=
  (log_graph <- attr ["logging"; "log_graph"] ;;
   if negb (in_none_false log_graph)
   then ret (callbacks ++ [GraphLogger])%list
   else ret callbacks)%py.

(** Lines 111-143: what follows the normalization block. *)
Definition remaining_callbacks (callbacks : list Callback) : M node (list Callback) :=
  (callbacks <- add_visualizer_callback callbacks ;;
   callbacks <- optimization_callbacks callbacks ;;
   graph_logger_callback callbacks)%py.

(** [get_callbacks(config)]: run on the configuration object, it gives
    the list (or the exception) and the object as the call leaves it. *)
Definition get_callbacks : M node (list Callback) :=
  (callbacks <- base_callbacks ;;
   callbacks <- normalization_callback callbacks ;;
   remaining_callbacks callbacks)%py.

End WithMissingKey.

(** ** Derived notions used to state the properties *)

(** [config.model.<key>] when the key is there: the value that
    [key in config.model.keys()] tests for and the attribute read returns. *)
Definition model_key (config : node) (key : string) : option node :=
  match config with
  | NDict top =>
      match assoc "model" top with
      | Some (NDict entries) => assoc key entries
      | _ => None
      end
  | _ => None
  end.

(** The errors of a malformed configuration: a read of a missing key
    or of a mandatory value that was not given, a value of the wrong
    type, or one that a hook's constructor rejects. *)
Definition config_error (e : exn) : Prop :=
  match e with
  | AttributeError _ | TypeError _ | AssertionError _
  | MissingMandatoryValue _ | MisconfigurationException _ => True
  | _ => False
  end.

(** A computation that leaves the configuration object as it found it. *)
Definition read_only {A} (m : M node A) : Prop :=
  forall config, snd (m config) = config.

(** A computation whose exceptions all satisfy [E]. *)
Definition raises_only {A} (E : exn -> Prop) (m : M node A) : Prop :=
  forall config e, fst (m config) = Raise e -> E e.

(** A computation whose results all satisfy [Q]. *)
Definition returns {A} (Q : A -> Prop) (m : M node A) : Prop :=
  forall config a, fst (m config) = Ok a -> Q a.

Definition no_normalization_callback (callbacks : list Callback) : Prop :=
  forallb (fun c => negb (is_normalization_callback c)) callbacks = true.

(** ** Concrete configurations used in the examples below *)

Definition metrics_section : node :=
  NDict [("image", NList [NStr "F1Score"; NStr "AUROC"]);
         ("pixel", NList [NStr "F1Score"; NStr "AUROC"]);
         ("threshold", NDict [("image_default", NInt 3);
                              ("pixel_default", NInt 3);
                              ("adaptive", NBool true)])].

Definition visualization_section : node :=
  NDict [("show_images", NBool false);
         ("save_images", NBool false);
         ("log_images", NBool false);
         ("image_save_path", NNone);
         ("mode", NStr "full")].

(** A configuration with the [dataset] and [metrics] sections filled in,
    the given [model], [project] and [logging] sections, and the given
    further top-level sections. *)
Definition example_config (model project logging more : list (string * node)) : node :=
  NDict ([("dataset", NDict [("task", NStr "segmentation")]);
          ("model", NDict model);
          ("metrics", metrics_section);
          ("project", NDict project);
          ("logging", NDict logging)] ++ more)%list.

Definition plain_project : list (string * node) := [("path", NStr "results")].
Definition plain_logging : list (string * node) := [("log_graph", NBool false)].

(** [normalization_method: cdf] for the given model, with the given
    further top-level sections. *)
Definition cdf_config (name : string) (more : list (string * node)) : node :=
  example_config [("name", NStr name); ("normalization_method", NStr "cdf")]
    plain_project plain_logging more.

(** PADIM with CDF normalization, no [optimization] section at all. *)
Definition cdf_padim_without_optimization : node :=
  cdf_config "padim" [("visualization", visualization_section)].

(** The same with an [optimization] section that does not mention NNCF. *)
Definition cdf_padim_with_optimization : node :=
  cdf_config "padim" [("visualization", visualization_section);
                      ("optimization", NDict [("openvino", NDict [("apply", NBool false)])])].

Definition cdf_padim_with_nncf : node :=
  cdf_config "padim" [("visualization", visualization_section);
                      ("optimization", NDict [("nncf", NDict [("apply", NBool true)])])].

Definition cdf_resnet : node :=
  cdf_config "resnet" [("visualization", visualization_section);
                       ("optimization", NDict [])].

(** A configuration whose [model] section is the given one, everything
    else in place. *)
Definition model_config (model : list (string * node)) : node :=
  example_config model plain_project plain_logging
    [("visualization", visualization_section); ("optimization", NDict [])].

(** No [normalization_method], and the visualizer asked to log images. *)
Definition visualizer_without_normalization_method : node :=
  example_config [("name", NStr "padim")] plain_project plain_logging
    [("visualization",
      NDict [("show_images", NBool false);
             ("save_images", NBool false);
             ("log_images", NBool true);
             ("image_save_path", NNone);
             ("mode", NStr "full")]);
     ("optimization", NDict [])].

(** The deprecated [log_images_to] key under [logging] only. *)
Definition log_images_to_under_logging : node :=
  example_config [("name", NStr "padim"); ("normalization_method", NStr "min_max")]
    plain_project
    [("log_images_to", NList [NStr "local"]); ("log_graph", NBool false)]
    [("visualization", visualization_section)].

(** The deprecated key under [project], no [visualization] section. *)
Definition log_images_to_under_project : node :=
  example_config [("name", NStr "padim"); ("normalization_method", NStr "min_max")]
    [("path", NStr "results"); ("log_images_to", NList [NStr "local"; NStr "wandb"])]
    plain_logging
    [].

(** ** Further notions used to state the properties *)

(** Two configurations that differ at most in their [visualization]
    section. *)
Definition same_but_visualization (before after : node) : Prop :=
  before = after \/
  exists top top',
    before = NDict top /\ after = NDict top' /\
    forall key, key <> "visualization" -> assoc key top' = assoc key top.

(** A computation that writes at most the [visualization] section. *)
Definition writes_visualization_only {A} (m : M node A) : Prop :=
  forall config, same_but_visualization config (snd (m config)).

(** The place of a hook in the order of assembly. *)
Definition stage_of (c : Callback) : nat :=
  match c with
  | ModelCheckpoint _ _ _ _ _ => 0
  | TimerCallback => 1
  | MetricsConfigurationCallback _ _ _ _ _ => 2
  | LoadModelCallback _ => 3
  | CdfNormalizationCallback => 4
  | MinMaxNormalizationCallback => 4
  | VisualizerCallback _ _ _ _ _ _ _ => 5
  | NNCFCallback _ _ => 6
  | OpenVINOCallback _ _ _ => 7
  | GraphLogger => 8
  end.

(** Hooks in the order of assembly, each stage at most once, all of
    them from stage [lo] on and before stage [hi]. *)
Definition in_order_between (lo hi : nat) (more : list Callback) : Prop :=
  StronglySorted lt (map stage_of more) /\
  Forall (fun c => lo <= stage_of c /\ stage_of c < hi) more.

(** A list that is [callbacks] followed by such hooks. *)
Definition appends (lo hi : nat) (callbacks result : list Callback) : Prop :=
  exists more, result = (callbacks ++ more)%list /\ in_order_between lo hi more.

Definition is_nncf_callback (c : Callback) : bool :=
  match c with
  | NNCFCallback _ _ => true
  | _ => false
  end.



(** Every optional hook asked for. *)
Definition full_config : node :=
  example_config [("name", NStr "padim");
                  ("normalization_method", NStr "min_max");
                  ("weight_file", NStr "weights/model.ckpt");
                  ("input_size", NList [NInt 256; NInt 256]);
                  ("early_stopping", NDict [("metric", NStr "image_AUROC");
                                            ("mode", NStr "max")])]
    plain_project
    [("log_graph", NBool true)]
    [("visualization",
      NDict [("show_images", NBool false);
             ("save_images", NBool true);
             ("log_images", NBool false);
             ("image_save_path", NNone);
             ("mode", NStr "full")]);
     ("optimization", NDict [("nncf", NDict [("apply", NBool true)]);
                             ("openvino", NDict [("apply", NBool true)])])].

(** The section that line 166 creates. *)
Definition default_visualization : list (string * node) :=
  [("log_images", NBool false);
   ("save_images", NBool false);
   ("show_image", NBool false);
   ("image_save_path", NNone)].

(** The [visualization] section the migration starts from: the one in
    the configuration, or the one line 166 creates. *)
Definition visualization_before (top : list (string * node)) : list (string * node) :=
  match assoc "visualization" top with
  | Some (NDict section) => section
  | _ => default_visualization
  end.

(** The flags of lines 167-170, for the deprecated value [items]:
    [save_images] when "local" is listed, [log_images] when "local" is
    not listed or is not the only entry. *)
Definition migrated_section (items : list node) (section : list (string * node))
  : list (string * node) :=
  let has_local := existsb (fun item => eq_str item "local") items in
  let section := if has_local
                 then assoc_set "save_images" (NBool true) section else section in
  if negb has_local || Nat.ltb 1 (List.length items)
  then assoc_set "log_images" (NBool true) section else section.

(** The top-level entries of a configuration. *)
Definition top_of (config : node) : list (string * node) :=
  match config with
  | NDict top => top
  | _ => []
  end.

(** The hooks of the first block for the configurations above. *)
Definition example_base_callbacks : list Callback :=
  [ModelCheckpoint "results/weights" "model" NNone (NStr "max") false;
   TimerCallback;
   MetricsConfigurationCallback (NBool true) (NInt 3) (NInt 3)
     (NList [NStr "F1Score"; NStr "AUROC"])
     (NList [NStr "F1Score"; NStr "AUROC"])].

Definition is_load_model_callback (c : Callback) : bool :=
  match c with
  | LoadModelCallback _ => true
  | _ => false
  end.

Definition is_visualizer_callback (c : Callback) : bool :=
  match c with
  | VisualizerCallback _ _ _ _ _ _ _ => true
  | _ => false
  end.

Definition is_openvino_callback (c : Callback) : bool :=
  match c with
  | OpenVINOCallback _ _ _ => true
  | _ => false
  end.

Definition is_graph_logger (c : Callback) : bool :=
  match c with
  | GraphLogger => true
  | _ => false
  end.

(** A computation whose result on [config], when it returns, satisfies [Q]. *)
Definition returns_at {A} (config : node) (Q : A -> Prop) (m : M node A) : Prop :=
  forall a, fst (m config) = Ok a -> Q a.

(** The test of line 171 on its own:
    [log_images or save_images or show_images]. *)
Definition visualization_enabled (missing : missing_key) : M node bool :=
  (log_images <- attr missing ["visualization"; "log_images"] ;;
   if truthy log_images then ret true
   else (save_images <- attr missing ["visualization"; "save_images"] ;;
         if truthy save_images then ret true
         else (show_images <- attr missing ["visualization"; "show_images"] ;;
               ret (truthy show_images))))%py.

(** A visualizer hook whose arguments are what lines 172-186 read from
    [config]; any other hook passes. *)
Definition visualizer_built_from (missing : missing_key) (config : node) (c : Callback)
  : Prop :=
  match c with
  | VisualizerCallback task mode image_save_path inputs_are_normalized show log save =>
      getattrs missing config ["dataset"; "task"] = Ok task /\
      getattrs missing config ["visualization"; "mode"] = Ok mode /\
      (exists configured,
         getattrs missing config ["visualization"; "image_save_path"] = Ok configured /\
         if truthy configured then image_save_path = configured
         else exists project_path,
                getattrs missing config ["project"; "path"] = Ok (NStr project_path) /\
                image_save_path = NStr (project_path ++ "/images")) /\
      (exists method,
         getattrs missing config ["model"; "normalization_method"] = Ok method /\
         inputs_are_normalized = negb (eq_str method "none")) /\
      getattrs missing config ["visualization"; "show_images"] = Ok show /\
      getattrs missing config ["visualization"; "log_images"] = Ok log /\
      getattrs missing config ["visualization"; "save_images"] = Ok save
  | _ => True
  end.

(** An optional setting: [value] is what [config.<path>] reads when
    [key] is among the keys of [config.<section>], and [default]
    otherwise. *)
Definition read_or_default (missing : missing_key) (config : node) (key : string)
    (section path : list string) (default value : node) : Prop :=
  exists present,
    fst (has_key missing key section config) = Ok present /\
    if present then getattrs missing config path = Ok value else value = default.

End Callbacks.

(* ===================================================================== *)
(** * Properties of the dataset indexer and the sample accessor          *)
(* ===================================================================== *)

Module MvtecSpec.
Import Mvtec.

(** ** The count [int(n * split_ratio)] on some inputs *)

Example ten_images_default_ratio : num_normal_valid_images 10 ratio_0_1 = Ok 1%Z.
Proof. reflexivity. Qed.

Example bottle_images_default_ratio : num_normal_valid_images 209 ratio_0_1 = Ok 20%Z.
Proof. reflexivity. Qed.

Example three_images_half_ratio : num_normal_valid_images 3 ratio_0_5 = Ok 1%Z.
Proof. reflexivity. Qed.

Example one_image_default_ratio : num_normal_valid_images 1 ratio_0_1 = Ok 0%Z.
Proof. reflexivity. Qed.

Example nan_ratio_raises :
  num_normal_valid_images 3 S754_nan
  = Raise (ValueError "cannot convert float NaN to integer").
Proof. reflexivity. Qed.

Example mask_path_stem : rstrip "." (rstrip "png" "000.png") = "000".
Proof. reflexivity. Qed.

(** ** Properties of the table operations *)

Lemma window_random_without_replacement : sample_without_replacement window_random.
Proof.
  intros g n k Hk; cbn.
  split; [apply length_seq|].
  split; [apply seq_NoDup|].
  apply Forall_forall; intros j Hj.
  apply in_seq in Hj.
  assert (Nat.modulo (Z.to_nat (Z.abs g)) (n - k + 1) < n - k + 1)
    by (apply Nat.mod_upper_bound; lia).
  lia.
Qed.

Lemma index_combine_seq {A} (l : list A) (start : nat) :
  map fst (combine (seq start (length l)) l) = seq start (length l).
Proof.
  revert start; induction l as [|a l IH]; intros start; cbn; [reflexivity|].
  now rewrite IH.
Qed.

Lemma NoDup_index_filter {A} (keep : nat * A -> bool) (l : list (nat * A)) :
  NoDup (map fst l) -> NoDup (map fst (filter keep l)).
Proof.
  induction l as [|x l IH]; cbn; intros H; [constructor|].
  inversion H as [|? ? Hnotin Hnd]; subst.
  destruct (keep x); cbn; auto.
  constructor; auto.
  intros Hin; apply Hnotin.
  apply in_map_iff in Hin as [y [Hy Hin]].
  apply filter_In in Hin as [Hin _].
  apply in_map_iff; eauto.
Qed.

Lemma samples_of_scan_index path files :
  NoDup (map fst (samples_of_scan path files)).
Proof.
  unfold samples_of_scan.
  rewrite map_map; cbn.
  apply NoDup_index_filter.
  rewrite index_combine_seq.
  apply seq_NoDup.
Qed.

Lemma mem_index_In i indices : mem_index i indices = true <-> In i indices.
Proof.
  unfold mem_index; rewrite existsb_exists; split.
  - intros [j [Hin Heq]]. apply Nat.eqb_eq in Heq; now subst.
  - intros Hin; exists i; split; [assumption | apply Nat.eqb_refl].
Qed.

(** A duplicate-free list of labels that all occur in a table with unique
    labels selects exactly as many rows as it has entries. *)
Lemma selected_rows_length (indices : list nat) (samples : DataFrame) :
  NoDup (map fst samples) -> NoDup indices -> incl indices (map fst samples) ->
  length (filter (fun ir => mem_index (fst ir) indices) samples) = length indices.
Proof.
  intros Hs Hi Hincl.
  rewrite <- (length_map fst).
  apply Permutation_length, NoDup_Permutation; auto.
  - now apply NoDup_index_filter.
  - intros i; split.
    + intros Hin. apply in_map_iff in Hin as [[j r] [Heq Hin]]; cbn in Heq; subst.
      apply filter_In in Hin as [_ Hm]; now apply mem_index_In in Hm.
    + intros Hin. destruct (proj1 (in_map_iff _ _ _) (Hincl _ Hin)) as [[j r] [Heq Hr]].
      cbn in Heq; subst.
      apply in_map_iff; exists (i, r); split; [reflexivity|].
      apply filter_In; split; [assumption | now apply mem_index_In].
Qed.


Lemma index_unique (samples : DataFrame) i r r' :
  NoDup (map fst samples) -> In (i, r) samples -> In (i, r') samples -> r = r'.
Proof.
  induction samples as [|[j q] rest IH]; cbn; intros Hnd H1 H2; [contradiction|].
  inversion Hnd as [|? ? Hnotin Hnd']; subst.
  destruct H1 as [H1|H1], H2 as [H2|H2].
  - congruence.
  - inversion H1; subst. exfalso; apply Hnotin.
    apply in_map_iff; exists (i, r'); auto.
  - inversion H2; subst. exfalso; apply Hnotin.
    apply in_map_iff; exists (i, r); auto.
  - auto.
Qed.

Lemma index_where_In mask (samples : DataFrame) i :
  In i (index_where mask samples) <-> exists r, In (i, r) samples /\ mask r = true.
Proof.
  unfold index_where; rewrite in_map_iff; split.
  - intros [[j r] [Heq Hin]]; cbn in Heq; subst.
    apply filter_In in Hin as [Hin Hm]; eauto.
  - intros [r [Hin Hm]]; exists (i, r); split; [reflexivity|].
    apply filter_In; auto.
Qed.

(** ** Reassignment of rows by index label *)

Lemma loc_indices_index indices update (samples : DataFrame) :
  map fst (loc_indices indices update samples) = map fst samples.
Proof.
  unfold loc_indices; rewrite map_map; apply map_ext.
  intros [i r]; cbn; now destruct (mem_index i indices).
Qed.

(** Moving normal training rows to the test split adds them to the normal
    test rows and takes them from the training rows. *)
Lemma loc_indices_counts indices (samples : DataFrame) :
  (forall i r, In (i, r) samples -> In i indices -> is_normal_train r = true) ->
  let moved := loc_indices indices (set_split "test") samples in
  count_rows is_normal_test moved = count_rows is_normal_test samples + selected indices samples
  /\ count_rows (in_split "train") moved + selected indices samples
     = count_rows (in_split "train") samples
  /\ count_rows (in_split "test") moved
     = count_rows (in_split "test") samples + selected indices samples.
Proof.
  unfold count_rows, selected, loc_indices.
  induction samples as [|[i r] rest IH]; intros Hsel; [cbn; auto|].
  assert (Hrest : forall j q, In (j, q) rest -> In j indices -> is_normal_train q = true)
    by (intros j q Hin; apply Hsel; now right).
  specialize (IH Hrest). cbn in IH. destruct IH as [IH1 [IH2 IH3]].
  cbn [map filter fst snd].
  destruct (mem_index i indices) eqn:Hm.
  - assert (Hr : is_normal_train r = true)
      by (apply (Hsel i r); [now left | now apply mem_index_In]).
    unfold is_normal_train in Hr. apply andb_true_iff in Hr as [Hsp Hlb].
    apply String.eqb_eq in Hsp.
    unfold is_normal_test, in_split in *. cbn [snd set_split split label].
    rewrite Hsp, Hlb. cbn [String.eqb Ascii.eqb Bool.eqb andb length].
    rewrite IH1, <- IH2, IH3. cbn. lia.
  - cbn [snd].
    destruct (is_normal_test r), (in_split "train" r), (in_split "test" r);
      cbn [length]; rewrite ?IH1, <- ?IH2, ?IH3; lia.
Qed.

Lemma loc_indices_In indices update (samples : DataFrame) i r :
  In (i, r) (loc_indices indices update samples) ->
  exists r0, In (i, r0) samples /\ (r = r0 \/ r = update r0).
Proof.
  unfold loc_indices; intros Hin.
  apply in_map_iff in Hin as [[j q] [Heq Hin]]; cbn in Heq.
  destruct (mem_index j indices); inversion Heq; subst; eauto.
Qed.

(** ** The final columns *)

Ltac finalize_cases r :=
  unfold finalize;
  let Hl := fresh "Hl" in
  destruct (is_normal_test r); destruct (label r =? "good") eqn:Hl;
  cbn; rewrite ?Hl; cbn; rewrite ?Hl; reflexivity.

Lemma finalize_split r : split (finalize r) = split r.
Proof.
  finalize_cases r.
Qed.

Lemma finalize_label r : label (finalize r) = label r.
Proof.
  finalize_cases r.
Qed.

Lemma finalize_label_index r :
  label_index (finalize r) = Some (if label r =? "good" then 0%Z else 1%Z).
Proof.
  finalize_cases r.
Qed.

Lemma finalize_mask_path r :
  mask_path (finalize r) = if is_normal_test r then "" else mask_path r.
Proof.
  finalize_cases r.
Qed.

Lemma final_columns (samples : DataFrame) :
  loc_mask (fun r => negb (label r =? "good")) (set_label_index 1)
    (loc_mask (fun r => label r =? "good") (set_label_index 0)
       (loc_mask is_normal_test (set_mask_path "") samples))
  = finalize_rows samples.
Proof.
  unfold loc_mask, finalize_rows. rewrite !map_map. apply map_ext.
  intros [i r]; cbn [fst snd]. finalize_cases r.
Qed.

Lemma astype_int_finalize (samples : DataFrame) :
  astype_int (finalize_rows samples) = Ok (finalize_rows samples).
Proof.
  induction samples as [|[i r] rest IH]; [reflexivity|].
  unfold finalize_rows in *; cbn [map fst snd astype_int].
  rewrite finalize_label_index, IH. reflexivity.
Qed.

Lemma count_rows_finalize mask (samples : DataFrame) :
  (forall r, mask (finalize r) = mask r) ->
  count_rows mask (finalize_rows samples) = count_rows mask samples.
Proof.
  intros Hm. unfold count_rows, finalize_rows.
  induction samples as [|[i r] rest IH]; [reflexivity|].
  cbn [map filter fst snd]. rewrite Hm.
  destruct (mask r); cbn [length]; now rewrite IH.
Qed.

Lemma is_normal_test_finalize r : is_normal_test (finalize r) = is_normal_test r.
Proof. unfold is_normal_test. now rewrite finalize_split, finalize_label. Qed.

Lemma in_split_finalize name r : in_split name (finalize r) = in_split name r.
Proof. unfold in_split. now rewrite finalize_split. Qed.

Section WithGenerator.
Context {R : PyRandom}.

(** What a successful [random.sample] over distinct labels returns. *)
Lemma random_sample_ok (population : list nat) (k : Z) (g : rng_state) :
  sample_without_replacement R -> NoDup population ->
  (0 <= k <= Z.of_nat (length population))%Z ->
  exists indices g',
    random_sample population k g = (Ok indices, g') /\
    length indices = Z.to_nat k /\ NoDup indices /\ incl indices population.
Proof.
  intros Hc Hnd Hk. unfold random_sample.
  destruct ((k <? 0)%Z || (Z.of_nat (length population) <? k)%Z) eqn:Hguard.
  - apply orb_true_iff in Hguard as [H|H]; apply Z.ltb_lt in H; lia.
  - destruct (Hc g (length population) (Z.to_nat k) ltac:(lia)) as [Hlen [Hjs Hlt]].
    destruct (rng_sample_positions g (length population) (Z.to_nat k)) as [js g'] eqn:Hs.
    cbn in Hlen, Hjs, Hlt.
    exists (map (fun j => nth j population 0) js), g'.
    split; [reflexivity|]. split; [now rewrite length_map|]. split.
    + apply NoDup_map_NoDup_ForallPairs; [|assumption].
      intros a b Ha Hb Heq.
      rewrite Forall_forall in Hlt.
      apply (proj1 (NoDup_nth population 0) Hnd); auto.
    + intros i Hi. apply in_map_iff in Hi as [j [Heq Hj]]; subst.
      rewrite Forall_forall in Hlt. apply nth_In; auto.
Qed.

(** ** The reassignment procedure *)

Lemma index_where_length mask (samples : DataFrame) :
  length (index_where mask samples) = count_rows mask samples.
Proof. unfold index_where, count_rows. apply length_map. Qed.

Lemma index_where_NoDup mask (samples : DataFrame) :
  NoDup (map fst samples) -> NoDup (index_where mask samples).
Proof. apply NoDup_index_filter. Qed.

Lemma index_where_incl mask (samples : DataFrame) :
  incl (index_where mask samples) (map fst samples).
Proof.
  intros i Hi. apply index_where_In in Hi as [r [Hin _]].
  apply in_map_iff; exists (i, r); auto.
Qed.

(** With [k = int(n * split_ratio)] between [0] and the number [n] of
    normal training rows, the procedure returns: it moves [k] rows, all
    of them normal training rows, to the test split. *)
Lemma split_normal_images_moves (samples : DataFrame) split_ratio seed g k :
  sample_without_replacement R -> NoDup (map fst samples) ->
  num_normal_valid_images (count_rows is_normal_train samples) split_ratio = Ok k ->
  (0 <= k <= Z.of_nat (count_rows is_normal_train samples))%Z ->
  exists indices g',
    split_normal_images_in_train_set samples split_ratio seed g
      = (Ok (loc_indices indices (set_split "test") samples), g') /\
    selected indices samples = Z.to_nat k /\
    (forall i r, In (i, r) samples -> In i indices -> is_normal_train r = true).
Proof.
  intros Hc Hnd Hk Hrange.
  destruct (random_sample_ok (index_where is_normal_train samples) k (rng_seed seed) Hc)
    as [indices [g' [Hs [Hlen [Hndi Hincl]]]]].
  - now apply index_where_NoDup.
  - now rewrite index_where_length.
  - exists indices, g'. split; [|split].
    + unfold split_normal_images_in_train_set, bind, put, lift, ret.
      rewrite index_where_length, Hk, Hs. reflexivity.
    + unfold selected. rewrite selected_rows_length; auto.
      intros i Hi. apply index_where_incl with (mask := is_normal_train). auto.
    + intros i r Hin Hi.
      apply Hincl, index_where_In in Hi as [r' [Hin' Hm]].
      now rewrite (index_unique samples i r r' Hnd Hin Hin').
Qed.

Lemma filter_combine_length {A} (keep : A -> bool) (l : list A) start :
  length (filter (fun ir => keep (snd ir)) (combine (seq start (length l)) l))
  = length (filter keep l).
Proof.
  revert start. induction l as [|a l IH]; intros start; [reflexivity|].
  cbn. destruct (keep a); cbn; now rewrite IH.
Qed.

(** The table of line 129 has one row per scanned file outside
    [ground_truth]. *)
Lemma samples_of_scan_length path files :
  length (samples_of_scan path files) = length (image_files files).
Proof.
  unfold samples_of_scan, image_files. rewrite length_map.
  apply (filter_combine_length (fun f => negb (png_split f =? "ground_truth"))).
Qed.

Lemma samples_of_scan_nonempty path files :
  image_files files <> [] <-> samples_of_scan path files <> [].
Proof.
  pose proof (samples_of_scan_length path files) as Hlen.
  destruct (samples_of_scan path files), (image_files files);
    cbn in Hlen; split; intros H; try discriminate; try lia; congruence.
Qed.

Lemma samples_of_scan_files path files :
  samples_of_scan path files <> [] -> files <> [].
Proof. intros H ->. now apply H. Qed.

Lemma count_rows_nonempty mask (samples : DataFrame) :
  0 < count_rows mask samples -> samples <> [].
Proof. intros H ->. cbn in H. lia. Qed.

Lemma loc_indices_length indices update (samples : DataFrame) :
  length (loc_indices indices update samples) = length samples.
Proof. apply length_map. Qed.

(** The step of lines 147-148 keeps the number of rows. *)
Lemma reassignment_length (samples : DataFrame) split_ratio seed g moved g' :
  (if Nat.eqb (count_rows is_normal_test samples) 0
   then split_normal_images_in_train_set samples split_ratio seed
   else ret samples) g = (Ok moved, g') ->
  length moved = length samples.
Proof.
  destruct (Nat.eqb (count_rows is_normal_test samples) 0).
  - unfold split_normal_images_in_train_set, bind, put, lift, ret.
    destruct (num_normal_valid_images _ split_ratio) as [k|e]; [|discriminate].
    destruct (random_sample _ k (rng_seed seed)) as [[indices|e] g'']; [|discriminate].
    intros H; inversion H; subst. apply loc_indices_length.
  - intros H; inversion H; subst. reflexivity.
Qed.

(** [make_mvtec_samples] on a non-empty scan: the reassignment step (when
    the scan has no normal test row), the refusal of line 154 when the
    table has no row, then the final columns. *)
Lemma make_mvtec_samples_step path files split_ratio seed g :
  files <> [] ->
  make_mvtec_samples path files split_ratio seed g =
  match (if Nat.eqb (count_rows is_normal_test (samples_of_scan path files)) 0
         then split_normal_images_in_train_set (samples_of_scan path files) split_ratio seed
         else ret (samples_of_scan path files)) g with
  | (Ok samples, g') =>
      match samples with
      | [] => (Raise (ValueError "cannot set a frame with no defined index and a scalar"),
               g')
      | _ => (Ok (finalize_rows samples), g')
      end
  | (Raise e, g') => (Raise e, g')
  end.
Proof.
  intros Hne. unfold make_mvtec_samples.
  destruct files as [|f files]; [contradiction|]. cbn [length Nat.eqb].
  unfold bind at 1.
  destruct ((if Nat.eqb (count_rows is_normal_test (samples_of_scan path (f :: files))) 0
             then split_normal_images_in_train_set (samples_of_scan path (f :: files))
                    split_ratio seed
             else ret (samples_of_scan path (f :: files))) g) as [[samples|e] g'];
    [|reflexivity].
  destruct samples as [|row rest]; [reflexivity|].
  set (table := row :: rest).
  assert (Hcolumn : loc_mask_new_column (fun r => label r =? "good") (set_label_index 0)
                      (loc_mask is_normal_test (set_mask_path "") table)
                    = Ok (loc_mask (fun r => label r =? "good") (set_label_index 0)
                            (loc_mask is_normal_test (set_mask_path "") table)))
    by reflexivity.
  unfold bind, lift. rewrite Hcolumn. now rewrite final_columns, astype_int_finalize.
Qed.

(** When the table of line 129 has a row. *)
Lemma make_mvtec_samples_eq path files split_ratio seed g :
  samples_of_scan path files <> [] ->
  make_mvtec_samples path files split_ratio seed g =
  match (if Nat.eqb (count_rows is_normal_test (samples_of_scan path files)) 0
         then split_normal_images_in_train_set (samples_of_scan path files) split_ratio seed
         else ret (samples_of_scan path files)) g with
  | (Ok samples, g') => (Ok (finalize_rows samples), g')
  | (Raise e, g') => (Raise e, g')
  end.
Proof.
  intros Hscan.
  rewrite make_mvtec_samples_step by now apply (samples_of_scan_files path).
  destruct ((if Nat.eqb (count_rows is_normal_test (samples_of_scan path files)) 0
             then split_normal_images_in_train_set (samples_of_scan path files)
                    split_ratio seed
             else ret (samples_of_scan path files)) g) as [[moved|e] g'] eqn:Hstep;
    [|reflexivity].
  apply reassignment_length in Hstep.
  destruct moved; [|reflexivity].
  destruct (samples_of_scan path files); [contradiction | discriminate].
Qed.

(** A run that returns the full table had a row at line 129. *)
Lemma make_mvtec_samples_scan path files split_ratio seed g samples g' :
  make_mvtec_samples path files split_ratio seed g = (Ok samples, g') ->
  samples_of_scan path files <> [].
Proof.
  intros Hrun Hscan.
  destruct files as [|f files]; [discriminate|].
  rewrite make_mvtec_samples_step in Hrun by discriminate.
  destruct ((if Nat.eqb (count_rows is_normal_test (samples_of_scan path (f :: files))) 0
             then split_normal_images_in_train_set (samples_of_scan path (f :: files))
                    split_ratio seed
             else ret (samples_of_scan path (f :: files))) g) as [[moved|e] g''] eqn:Hstep;
    [|discriminate].
  apply reassignment_length in Hstep. rewrite Hscan in Hstep.
  destruct moved; [discriminate | discriminate].
Qed.

(** The table of a scan with no normal test row, when [k] rows can be
    sampled: shared by the statements on the reassigned rows. *)
Lemma make_mvtec_samples_reassigned path files split_ratio seed g k :
  sample_without_replacement R -> samples_of_scan path files <> [] ->
  count_rows is_normal_test (samples_of_scan path files) = 0 ->
  num_normal_valid_images (count_rows is_normal_train (samples_of_scan path files)) split_ratio
    = Ok k ->
  (0 <= k <= Z.of_nat (count_rows is_normal_train (samples_of_scan path files)))%Z ->
  exists samples g',
    make_mvtec_samples path files split_ratio seed g = (Ok samples, g') /\
    count_rows is_normal_test samples = Z.to_nat k /\
    count_rows (in_split "train") samples + Z.to_nat k
      = count_rows (in_split "train") (samples_of_scan path files) /\
    count_rows (in_split "test") samples
      = count_rows (in_split "test") (samples_of_scan path files) + Z.to_nat k.
Proof.
  intros Hc Hne Hzero Hk Hrange.
  destruct (split_normal_images_moves (samples_of_scan path files) split_ratio seed g k
              Hc (samples_of_scan_index path files) Hk Hrange)
    as [indices [g' [Hrun [Hsel Htrain]]]].
  exists (finalize_rows (loc_indices indices (set_split "test") (samples_of_scan path files))), g'.
  split.
  - rewrite make_mvtec_samples_eq by assumption. rewrite Hzero. cbn [Nat.eqb].
    now rewrite Hrun.
  - destruct (loc_indices_counts indices (samples_of_scan path files) Htrain)
      as [H1 [H2 H3]].
    rewrite !count_rows_finalize
      by (intros; first [apply is_normal_test_finalize | apply in_split_finalize]).
    rewrite H1, <- H2, H3, Hzero, Hsel. repeat split; lia.
Qed.

(** ** Rows of the constructed table *)

Lemma append_nonempty (a b : string) : b <> "" -> (a ++ b) <> "".
Proof.
  intros Hb. destruct a; cbn; [assumption | discriminate].
Qed.

Lemma samples_of_scan_mask_path path files i r :
  In (i, r) (samples_of_scan path files) -> mask_path r <> "".
Proof.
  unfold samples_of_scan. intros Hin.
  apply in_map_iff in Hin as [[j f] [Heq _]]. inversion Heq; subst; cbn.
  apply append_nonempty. discriminate.
Qed.

Lemma num_normal_valid_images_raises n split_ratio e :
  num_normal_valid_images n split_ratio = Raise e ->
  (exists msg, e = ValueError msg) \/ (exists msg, e = OverflowError msg).
Proof.
  unfold num_normal_valid_images, float_of_int.
  destruct (binary_normalize prec emax (Z.of_nat n) 0 false) as [s|s| |s m x];
    try (intros H; inversion H; eauto; fail);
    match goal with
    | |- int_of_float ?x = _ -> _ =>
        destruct x; cbn; intros H; inversion H; eauto
    end.
Qed.

Lemma split_normal_images_raises (samples : DataFrame) split_ratio seed g e :
  fst (split_normal_images_in_train_set samples split_ratio seed g) = Raise e ->
  (exists msg, e = ValueError msg) \/ (exists msg, e = OverflowError msg).
Proof.
  unfold split_normal_images_in_train_set, bind, put, lift, ret.
  destruct (num_normal_valid_images _ split_ratio) as [k|e0] eqn:Hk.
  - unfold random_sample.
    destruct ((k <? 0)%Z || (Z.of_nat (length (index_where is_normal_train samples)) <? k)%Z).
    + cbn. intros H; inversion H; eauto.
    + destruct (rng_sample_positions _ _ _); cbn; discriminate.
  - cbn. intros H; inversion H; subst.
    now apply num_normal_valid_images_raises in Hk.
Qed.

Lemma split_normal_images_rows (samples : DataFrame) split_ratio seed g moved g' :
  split_normal_images_in_train_set samples split_ratio seed g = (Ok moved, g') ->
  forall i r, In (i, r) moved -> exists r0, In (i, r0) samples /\ mask_path r = mask_path r0.
Proof.
  unfold split_normal_images_in_train_set, bind, put, lift, ret.
  destruct (num_normal_valid_images _ split_ratio) as [k|e]; [|discriminate].
  destruct (random_sample _ k (rng_seed seed)) as [[indices|e] g'']; [|discriminate].
  intros H; inversion H; subst. intros i r Hin.
  apply loc_indices_In in Hin as [r0 [Hin [Heq|Heq]]]; subst; eauto.
Qed.

(** Every row of the full table has its [label_index] given by its label,
    and an empty mask path exactly when it is a normal test row. *)
Lemma make_mvtec_samples_rows path files split_ratio seed g samples g' :
  make_mvtec_samples path files split_ratio seed g = (Ok samples, g') ->
  forall i r, In (i, r) samples ->
    label_index r = Some (if label r =? "good" then 0%Z else 1%Z) /\
    (mask_path r = "" <-> is_normal_test r = true).
Proof.
  intros Hrun i r Hin.
  pose proof (make_mvtec_samples_scan _ _ _ _ _ _ _ Hrun) as Hscan.
  destruct files as [|f files]; [discriminate|].
  rewrite make_mvtec_samples_eq in Hrun by assumption.
  set (scan := samples_of_scan path (f :: files)) in *.
  destruct ((if Nat.eqb (count_rows is_normal_test scan) 0
             then split_normal_images_in_train_set scan split_ratio seed
             else ret scan) g) as [[moved|e] g''] eqn:Hstep; [|discriminate].
  inversion Hrun; subst; clear Hrun.
  apply in_map_iff in Hin as [[j r0] [Heq Hin]]; cbn in Heq; inversion Heq; subst.
  assert (Hmask : mask_path r0 <> "").
  { destruct (Nat.eqb (count_rows is_normal_test scan) 0).
    - destruct (split_normal_images_rows _ _ _ _ _ _ Hstep i r0 Hin) as [r1 [Hin1 Hm]].
      rewrite Hm. now apply (samples_of_scan_mask_path path (f :: files) i r1).
    - inversion Hstep; subst. now apply (samples_of_scan_mask_path path (f :: files) i r0). }
  rewrite finalize_label_index, finalize_label, finalize_mask_path,
    is_normal_test_finalize.
  split; [reflexivity|].
  destruct (is_normal_test r0); split; intros H; congruence.
Qed.

(** The rows [make_mvtec_dataset] returns are rows of the full table, in
    the requested split. *)
Lemma make_mvtec_dataset_eq path files name split_ratio seed g :
  make_mvtec_dataset path files name split_ratio seed g =
  match make_mvtec_samples path files split_ratio seed g with
  | (Ok samples, g') =>
      (Ok (reset_index (filter (fun ir => in_split name (snd ir)) samples)), g')
  | (Raise e, g') => (Raise e, g')
  end.
Proof. reflexivity. Qed.

Lemma reset_index_In (samples : DataFrame) i r :
  In (i, r) (reset_index samples) -> exists j, In (j, r) samples.
Proof.
  unfold reset_index. intros Hin. apply in_combine_r in Hin.
  apply in_map_iff in Hin as [[j q] [Heq Hin]]; cbn in Heq; subst; eauto.
Qed.

Lemma make_mvtec_dataset_rows path files name split_ratio seed g samples g' :
  make_mvtec_dataset path files name split_ratio seed g = (Ok samples, g') ->
  forall i r, In (i, r) samples ->
    split r = name /\
    label_index r = Some (if label r =? "good" then 0%Z else 1%Z) /\
    (mask_path r = "" <-> is_normal_test r = true).
Proof.
  rewrite make_mvtec_dataset_eq.
  destruct (make_mvtec_samples path files split_ratio seed g) as [[full|e] g''] eqn:Hfull;
    [|discriminate].
  intros H; inversion H; subst; clear H. intros i r Hin.
  apply reset_index_In in Hin as [j Hin].
  apply filter_In in Hin as [Hin Hsplit]. cbn in Hsplit.
  split; [now apply String.eqb_eq|].
  exact (make_mvtec_samples_rows _ _ _ _ _ _ _ Hfull j r Hin).
Qed.

Lemma reset_index_rows (samples : DataFrame) :
  map snd (reset_index samples) = map snd samples.
Proof.
  unfold reset_index. rewrite <- (length_map snd samples).
  generalize (map snd samples) 0.
  induction l as [|r l IH]; intros start; cbn; [reflexivity|]. now rewrite IH.
Qed.

Lemma reset_index_length (samples : DataFrame) :
  length (reset_index samples) = length samples.
Proof.
  unfold reset_index. rewrite length_combine, length_seq, length_map. lia.
Qed.

Lemma count_rows_rows mask (samples : DataFrame) :
  count_rows mask samples = length (filter mask (map snd samples)).
Proof.
  unfold count_rows. induction samples as [|[i r] rest IH]; [reflexivity|].
  cbn. destruct (mask r); cbn; now rewrite IH.
Qed.

(** Counting in the table returned for one split is counting, in the
    full table, the rows of that split. *)
Lemma count_rows_split name mask (samples : DataFrame) :
  count_rows mask (reset_index (filter (fun ir => in_split name (snd ir)) samples))
  = count_rows (fun r => in_split name r && mask r) samples.
Proof.
  rewrite count_rows_rows, reset_index_rows, <- count_rows_rows.
  unfold count_rows. induction samples as [|[i r] rest IH]; [reflexivity|].
  cbn. destruct (in_split name r); cbn; [|exact IH].
  destruct (mask r); cbn; now rewrite IH.
Qed.

Lemma count_rows_positive mask (samples : DataFrame) :
  0 < count_rows mask samples -> exists i r, In (i, r) samples /\ mask r = true.
Proof.
  unfold count_rows. intros Hpos.
  destruct (filter (fun ir => mask (snd ir)) samples) as [|[i r] rest] eqn:Hf;
    [cbn in Hpos; lia|].
  assert (Hin : In (i, r) (filter (fun ir => mask (snd ir)) samples))
    by (rewrite Hf; now left).
  apply filter_In in Hin as [Hin Hm]. eauto.
Qed.

(** ** The stated properties of the indexer *)

(** C1 (as amended).  When the scan has an image outside
    [ground_truth] and no normal test row, and [k = int(n * split_ratio)]
    (the binary64 product of the number [n] of normal training rows and
    the ratio, truncated toward zero) lies between [0] and [n], index
    construction returns: the test split it produces holds exactly [k]
    normal rows, and the training split it produces has exactly [k] rows
    fewer than the scan has training rows. *)
Theorem reassignment_moves_truncated_count path files split_ratio seed g k :
  sample_without_replacement R -> image_files files <> [] ->
  count_rows is_normal_test (samples_of_scan path files) = 0 ->
  num_normal_valid_images (count_rows is_normal_train (samples_of_scan path files)) split_ratio
    = Ok k ->
  (0 <= k <= Z.of_nat (count_rows is_normal_train (samples_of_scan path files)))%Z ->
  exists test_split train_split g',
    make_mvtec_dataset path files "test" split_ratio seed g = (Ok test_split, g') /\
    make_mvtec_dataset path files "train" split_ratio seed g = (Ok train_split, g') /\
    Z.of_nat (count_rows (fun r => label r =? "good") test_split) = k /\
    (Z.of_nat (length train_split)
     = Z.of_nat (count_rows (in_split "train") (samples_of_scan path files)) - k)%Z.
Proof.
  intros Hc Hne Hzero Hk Hrange.
  apply (samples_of_scan_nonempty path) in Hne.
  destruct (make_mvtec_samples_reassigned path files split_ratio seed g k
              Hc Hne Hzero Hk Hrange) as [samples [g' [Hrun [Htest [Htrain _]]]]].
  exists (reset_index (filter (fun ir => in_split "test" (snd ir)) samples)),
         (reset_index (filter (fun ir => in_split "train" (snd ir)) samples)), g'.
  rewrite !make_mvtec_dataset_eq, Hrun.
  split; [reflexivity|]. split; [reflexivity|]. split.
  - rewrite count_rows_split.
    change (count_rows (fun r => in_split "test" r && (label r =? "good")) samples)
      with (count_rows is_normal_test samples).
    lia.
  - rewrite reset_index_length.
    change (length (filter (fun ir => in_split "train" (snd ir)) samples))
      with (count_rows (in_split "train") samples).
    lia.
Qed.

(** C2 (as amended).  When the raw scan has a normal test row, or
    [int(n * split_ratio)] lies between [1] and the number [n] of normal
    training rows, the full table has a row with [split == "test"] and
    [label_index == 0]. *)
Theorem test_split_has_normal_row path files split_ratio seed g :
  sample_without_replacement R -> files <> [] ->
  (0 < count_rows is_normal_test (samples_of_scan path files) \/
   exists k,
     num_normal_valid_images (count_rows is_normal_train (samples_of_scan path files))
       split_ratio = Ok k /\
     (1 <= k <= Z.of_nat (count_rows is_normal_train (samples_of_scan path files)))%Z) ->
  exists samples g',
    make_mvtec_samples path files split_ratio seed g = (Ok samples, g') /\
    exists i r, In (i, r) samples /\ split r = "test" /\ label_index r = Some 0%Z.
Proof.
  intros Hc Hne Hcase.
  assert (Hscan : samples_of_scan path files <> []).
  { destruct Hcase as [Hlt | [k [Hk Hrange]]];
      [now apply (count_rows_nonempty is_normal_test)|].
    apply (count_rows_nonempty is_normal_train). lia. }
  assert (Hpos : exists samples g',
             make_mvtec_samples path files split_ratio seed g = (Ok samples, g') /\
             0 < count_rows is_normal_test samples).
  { destruct (count_rows is_normal_test (samples_of_scan path files)) as [|c] eqn:Hcount.
    - destruct Hcase as [Hlt | [k [Hk Hrange]]]; [lia|].
      destruct (make_mvtec_samples_reassigned path files split_ratio seed g k
                  Hc Hscan Hcount Hk ltac:(lia)) as [samples [g' [Hrun [Htest _]]]].
      exists samples, g'. split; [assumption | lia].
    - exists (finalize_rows (samples_of_scan path files)), g. split.
      + rewrite make_mvtec_samples_eq by assumption. now rewrite Hcount.
      + rewrite count_rows_finalize by apply is_normal_test_finalize. lia. }
  destruct Hpos as [samples [g' [Hrun Hpos]]].
  exists samples, g'. split; [assumption|].
  apply count_rows_positive in Hpos as [i [r [Hin Hm]]].
  exists i, r. split; [assumption|].
  destruct (make_mvtec_samples_rows _ _ _ _ _ _ _ Hrun i r Hin) as [Hli _].
  unfold is_normal_test in Hm. apply andb_true_iff in Hm as [Hs Hl].
  rewrite Hl in Hli. apply String.eqb_eq in Hs. auto.
Qed.

(** C3 (as amended).  [make_mvtec_dataset] raises the "Found 0 images"
    [RuntimeError] exactly when the scan is empty.  When the full table
    is built, it returns the rows of that table whose split is the
    requested one, reindexed: a table that is empty when no row has that
    split. *)
Theorem make_mvtec_dataset_outcome path files name split_ratio seed g :
  ((exists msg, fst (make_mvtec_dataset path files name split_ratio seed g)
                = Raise (RuntimeError msg)) <-> files = []) /\
  (files = [] ->
   fst (make_mvtec_dataset path files name split_ratio seed g)
   = Raise (RuntimeError ("Found 0 images in " ++ path))) /\
  (forall full, fst (make_mvtec_samples path files split_ratio seed g) = Ok full ->
     exists samples,
       fst (make_mvtec_dataset path files name split_ratio seed g) = Ok samples /\
       map snd samples = map snd (filter (fun ir => in_split name (snd ir)) full) /\
       map fst samples = seq 0 (length samples) /\
       (samples <> [] <-> exists i r, In (i, r) full /\ split r = name)).
Proof.
  split; [split|split].
  - intros [msg Hraise]. destruct files as [|f files]; [reflexivity|exfalso].
    rewrite make_mvtec_dataset_eq, make_mvtec_samples_step in Hraise by discriminate.
    set (scan := samples_of_scan path (f :: files)) in *.
    destruct (Nat.eqb (count_rows is_normal_test scan) 0).
    + destruct (split_normal_images_in_train_set scan split_ratio seed g)
        as [[moved|e] g'] eqn:Hstep;
        [destruct moved; discriminate|].
      cbn in Hraise. inversion Hraise; subst.
      destruct (split_normal_images_raises scan split_ratio seed g (RuntimeError msg))
        as [[m Hm]|[m Hm]]; [now rewrite Hstep | discriminate | discriminate].
    + unfold ret in Hraise. destruct scan; discriminate.
  - intros ->. eexists. reflexivity.
  - intros ->. reflexivity.
  - intros full Hfull. rewrite make_mvtec_dataset_eq.
    destruct (make_mvtec_samples path files split_ratio seed g) as [[full'|e] g'];
      cbn in Hfull; inversion Hfull; subst.
    set (kept := filter (fun ir => in_split name (snd ir)) full).
    exists (reset_index kept). cbn [fst]. split; [reflexivity|].
    assert (Hlen : length (reset_index kept) = length kept).
    { unfold reset_index. rewrite length_combine, length_seq, length_map. lia. }
    split; [|split].
    + unfold reset_index.
      rewrite <- (length_map snd kept) at 1.
      generalize (map snd kept) 0. clear.
      induction l as [|r l IH]; intros start; cbn; [reflexivity|]. now rewrite IH.
    + rewrite Hlen. unfold reset_index. rewrite <- (length_map snd kept).
      apply index_combine_seq.
    + split.
      * intros Hne. destruct kept as [|[i r] rest] eqn:Hkept; [now cbn in Hne|].
        assert (Hin : In (i, r) kept) by (rewrite Hkept; now left).
        apply filter_In in Hin as [Hin Hs]. apply String.eqb_eq in Hs. eauto.
      * intros [i [r [Hin Hs]]] Hempty.
        assert (Hk : In (i, r) kept)
          by (apply filter_In; split; [assumption | now apply String.eqb_eq]).
        destruct kept; [contradiction|]. cbn in Hempty. discriminate.
Qed.

(** C4.  In every row of the table [make_mvtec_dataset] returns,
    [label_index] is 0 exactly when the label is "good", and it is 0 or 1. *)
Theorem label_index_zero_iff_good path files name split_ratio seed g samples g' :
  make_mvtec_dataset path files name split_ratio seed g = (Ok samples, g') ->
  forall i r, In (i, r) samples ->
    (label_index r = Some 0%Z <-> label r = "good") /\
    (label_index r = Some 0%Z \/ label_index r = Some 1%Z).
Proof.
  intros Hrun i r Hin.
  destruct (make_mvtec_dataset_rows _ _ _ _ _ _ _ _ Hrun i r Hin) as [_ [Hli _]].
  rewrite Hli. destruct (String.eqb_spec (label r) "good") as [Hl|Hl].
  - split; [tauto | now left].
  - split; [split; [discriminate | contradiction] | now right].
Qed.

(** C5.  In every row of the table [make_mvtec_dataset] returns,
    [mask_path] is the empty string exactly when [label_index] is 0 and
    the split is "test"; so it is empty on every normal test row (the
    reassigned ones included) and non-empty on every anomalous test row. *)
Theorem mask_path_empty_iff_normal_test path files name split_ratio seed g samples g' :
  make_mvtec_dataset path files name split_ratio seed g = (Ok samples, g') ->
  forall i r, In (i, r) samples ->
    (mask_path r = "" <-> label_index r = Some 0%Z /\ split r = "test") /\
    (split r = "test" -> label r = "good" -> mask_path r = "") /\
    (split r = "test" -> label r <> "good" -> mask_path r <> "").
Proof.
  intros Hrun i r Hin.
  destruct (make_mvtec_dataset_rows _ _ _ _ _ _ _ _ Hrun i r Hin) as [_ [Hli Hmask]].
  assert (Hnt : is_normal_test r = true <-> split r = "test" /\ label r = "good").
  { unfold is_normal_test. rewrite andb_true_iff, !String.eqb_eq. tauto. }
  assert (Hzero : label_index r = Some 0%Z <-> label r = "good").
  { rewrite Hli. destruct (String.eqb_spec (label r) "good"); split; congruence. }
  split; [|split].
  - rewrite Hmask, Hnt, Hzero. tauto.
  - intros Hs Hl. apply Hmask, Hnt. auto.
  - intros Hs Hl Hm. apply Hmask, Hnt in Hm. tauto.
Qed.

(** C6.  [split_normal_images_in_train_set] is deterministic: whatever
    state the global generator was in before the call, the same table,
    ratio and seed give the same output table (so the same rows are
    reassigned) and leave the generator in the same state; in
    particular a second call made right after the first, on a table with
    the same content, returns what the first returned. *)
Theorem split_normal_images_deterministic (samples : DataFrame) split_ratio seed
    (g1 g2 : rng_state) :
  split_normal_images_in_train_set samples split_ratio seed g1
  = split_normal_images_in_train_set samples split_ratio seed g2 /\
  fst (split_normal_images_in_train_set samples split_ratio seed
         (snd (split_normal_images_in_train_set samples split_ratio seed g1)))
  = fst (split_normal_images_in_train_set samples split_ratio seed g1).
Proof.
  assert (Hstate : forall g g',
             split_normal_images_in_train_set samples split_ratio seed g
             = split_normal_images_in_train_set samples split_ratio seed g').
  { intros g g'. unfold split_normal_images_in_train_set, bind, put. reflexivity. }
  split; [apply Hstate|].
  now rewrite (Hstate (snd (split_normal_images_in_train_set samples split_ratio seed g1)) g1).
Qed.

End WithGenerator.


(** ** The sample accessor *)

Section AccessorSpec.
Variables Image Mask Tensor : Type.
Variable read_image : string -> result Image.
Variable imread_mask : string -> result Mask.
Variable zeros_mask : Image -> Mask.
Variable pre_process_image : Image -> Tensor.
Variable pre_process_image_mask : Image -> Mask -> Tensor * Tensor.

(** C9 (as amended).  For a valid row index whose image can be read,
    the accessor returns a mapping whose keys are exactly: [image] on
    the train split; [image], [image_path], [label] on the test split
    with the classification task; [image_path], [label], [mask_path],
    [image], [mask] on the test split with the segmentation task.  A
    mask is read only in the last case, for an anomalous row: only there
    must the mask file be readable. *)
Theorem getitem_keys (self : MvtecDataset) (index : nat) (row : Sample) (image : Image) :
  samples_at (self_samples self) index = Ok row ->
  read_image (image_path row) = Ok image ->
  (self_split self = "test" -> self_task self = "segmentation" ->
   label_index row <> Some 0%Z -> exists mask, imread_mask (mask_path row) = Ok mask) ->
  exists item,
    getitem read_image imread_mask zeros_mask pre_process_image
      pre_process_image_mask self index = Ok item /\
    (self_split self = "train" -> dict_keys item = ["image"]) /\
    (self_split self = "test" -> self_task self = "classification" ->
     dict_keys item = ["image"; "image_path"; "label"]) /\
    (self_split self = "test" -> self_task self = "segmentation" ->
     dict_keys item = ["image_path"; "label"; "mask_path"; "image"; "mask"]).
Proof.
  intros Hrow Himage Hmask.
  unfold getitem, rbind. rewrite Hrow, Himage.
  destruct (String.eqb_spec (self_split self) "test") as [Htest|Htest].
  - rewrite Htest. cbn [String.eqb Ascii.eqb Bool.eqb orb andb].
    destruct (String.eqb_spec (self_task self) "classification") as [Hc|Hc].
    + rewrite Hc. cbn [String.eqb Ascii.eqb Bool.eqb orb andb].
      eexists; split; [reflexivity|].
      repeat split; intros; try discriminate; reflexivity.
    + destruct (String.eqb_spec (self_task self) "segmentation") as [Hs|Hs].
      * assert (Hread : exists mask,
                   match label_index row with
                   | Some 0%Z => Ok (zeros_mask image)
                   | _ => imread_mask (mask_path row)
                   end = Ok mask).
        { destruct (label_index row) as [[|p|p]|]; eauto; apply Hmask;
            first [assumption | discriminate]. }
        destruct Hread as [mask Hread]. rewrite Hread.
        eexists; split; [reflexivity|].
        repeat split; intros; try congruence; reflexivity.
      * eexists; split; [reflexivity|].
        repeat split; intros; congruence.
  - destruct (String.eqb_spec (self_split self) "train") as [Htrain|Htrain].
    + cbn [orb]. eexists; split; [reflexivity|].
      repeat split; intros; try congruence; reflexivity.
    + eexists; split; [reflexivity|].
      repeat split; intros; congruence.
Qed.

End AccessorSpec.

(** ** Concrete runs *)

Lemma reassignment_moves_truncated_count_witness :
  exists test_split train_split g',
    make_mvtec_dataset (R := window_random) "MVTec/bottle" scan_three_train "test"
      ratio_0_5 0%Z 7%Z = (Ok test_split, g') /\
    make_mvtec_dataset (R := window_random) "MVTec/bottle" scan_three_train "train"
      ratio_0_5 0%Z 7%Z = (Ok train_split, g') /\
    Z.of_nat (count_rows (fun r => label r =? "good") test_split) = 1%Z /\
    (Z.of_nat (length train_split)
     = Z.of_nat (count_rows (in_split "train")
                   (samples_of_scan "MVTec/bottle" scan_three_train)) - 1)%Z.
Proof.
  apply (@reassignment_moves_truncated_count window_random
           "MVTec/bottle" scan_three_train ratio_0_5 0%Z 7%Z 1%Z).
  - exact window_random_without_replacement.
  - vm_compute; discriminate.
  - reflexivity.
  - reflexivity.
  - vm_compute. split; discriminate.
Defined.

(** C1 as stated fails: three normal training rows and ratio 0.5 give
    [int(1.5) = 1] reassigned row, not the ceiling 2; the test split has
    one normal row and the training split loses one row. *)
Lemma reassigned_count_is_not_the_ceiling :
  count_rows is_normal_test (samples_of_scan "MVTec/bottle" scan_three_train) = 0 /\
  count_rows is_normal_train (samples_of_scan "MVTec/bottle" scan_three_train) = 3 /\
  ceil_ratio_times ratio_0_5 3 = Some 2%Z /\
  exists test_split train_split g',
    make_mvtec_dataset (R := window_random) "MVTec/bottle" scan_three_train "test"
      ratio_0_5 0%Z 7%Z = (Ok test_split, g') /\
    make_mvtec_dataset (R := window_random) "MVTec/bottle" scan_three_train "train"
      ratio_0_5 0%Z 7%Z = (Ok train_split, g') /\
    count_rows (fun r => label r =? "good") test_split = 1 /\
    Some (Z.of_nat (count_rows (fun r => label r =? "good") test_split))
      <> ceil_ratio_times ratio_0_5 3 /\
    length train_split = 2.
Proof.
  split; [reflexivity|]. split; [reflexivity|]. split; [reflexivity|].
  eexists; eexists; eexists.
  split; [vm_compute; reflexivity|]. split; [vm_compute; reflexivity|].
  split; [reflexivity|]. split; [vm_compute; discriminate | reflexivity].
Qed.

Lemma test_split_has_normal_row_witness :
  exists samples g',
    make_mvtec_samples (R := window_random) "MVTec/bottle" scan_three_train ratio_0_5 0%Z 7%Z
      = (Ok samples, g') /\
    exists i r, In (i, r) samples /\ split r = "test" /\ label_index r = Some 0%Z.
Proof.
  apply (@test_split_has_normal_row window_random
           "MVTec/bottle" scan_three_train ratio_0_5 0%Z 7%Z).
  - exact window_random_without_replacement.
  - discriminate.
  - right. exists 1%Z. split; [reflexivity|]. vm_compute. split; discriminate.
Defined.

(** C2 as stated fails: a category with a single normal training image
    and the default ratio 0.1 moves [int(0.1) = 0] rows, and the table
    has no test row at all. *)
Lemma single_train_image_gives_no_normal_test_row :
  scan_one_train <> [] /\
  exists samples g',
    make_mvtec_samples (R := window_random) "MVTec/bottle" scan_one_train ratio_0_1 0%Z 7%Z
      = (Ok samples, g') /\
    existsb (fun ir => is_test_label_index_0 (snd ir)) samples = false /\
    count_rows (in_split "test") samples = 0.
Proof.
  split; [discriminate|].
  eexists; eexists. split; [vm_compute; reflexivity|]. split; reflexivity.
Qed.

(** C3 as stated fails: the same category has an image, yet asking for
    its test split returns an empty table and raises nothing. *)
Lemma requested_split_can_be_empty :
  scan_one_train <> [] /\
  exists g',
    make_mvtec_dataset (R := window_random) "MVTec/bottle" scan_one_train "test" ratio_0_1
      0%Z 7%Z = (Ok [], g').
Proof.
  split; [discriminate|]. eexists. vm_compute. reflexivity.
Qed.

Lemma label_index_zero_iff_good_witness :
  ((label_index reassigned_row = Some 0%Z <-> label reassigned_row = "good") /\
   (label_index reassigned_row = Some 0%Z \/ label_index reassigned_row = Some 1%Z)) /\
  ((label_index broken_row = Some 0%Z <-> label broken_row = "good") /\
   (label_index broken_row = Some 0%Z \/ label_index broken_row = Some 1%Z)).
Proof.
  split.
  - apply (@label_index_zero_iff_good window_random
             "MVTec/bottle" scan_three_train "test" ratio_0_5 0%Z 7%Z
             [(0, reassigned_row); (1, broken_row)] 1%Z eq_refl 0).
    left. reflexivity.
  - apply (@label_index_zero_iff_good window_random
             "MVTec/bottle" scan_three_train "test" ratio_0_5 0%Z 7%Z
             [(0, reassigned_row); (1, broken_row)] 1%Z eq_refl 1).
    right. left. reflexivity.
Defined.

Lemma mask_path_empty_iff_normal_test_witness :
  (mask_path reassigned_row = ""
   <-> label_index reassigned_row = Some 0%Z /\ split reassigned_row = "test") /\
  (split reassigned_row = "test" -> label reassigned_row = "good" ->
   mask_path reassigned_row = "") /\
  (split reassigned_row = "test" -> label reassigned_row <> "good" ->
   mask_path reassigned_row <> "").
Proof.
  apply (@mask_path_empty_iff_normal_test window_random
           "MVTec/bottle" scan_three_train "test" ratio_0_5 0%Z 7%Z
           [(0, reassigned_row); (1, broken_row)] 1%Z eq_refl 0).
  left. reflexivity.
Defined.

Lemma getitem_keys_witness :
  exists item,
    example_getitem (example_dataset "test" "segmentation") 1 = Ok item /\
    (self_split (example_dataset "test" "segmentation") = "train" ->
     dict_keys item = ["image"]) /\
    (self_split (example_dataset "test" "segmentation") = "test" ->
     self_task (example_dataset "test" "segmentation") = "classification" ->
     dict_keys item = ["image"; "image_path"; "label"]) /\
    (self_split (example_dataset "test" "segmentation") = "test" ->
     self_task (example_dataset "test" "segmentation") = "segmentation" ->
     dict_keys item = ["image_path"; "label"; "mask_path"; "image"; "mask"]).
Proof.
  apply (getitem_keys unit unit unit (fun _ => Ok tt) (fun _ => Ok tt) (fun _ => tt)
           (fun _ => tt) (fun _ _ => (tt, tt))
           (example_dataset "test" "segmentation") 1 broken_row tt).
  - reflexivity.
  - reflexivity.
  - intros _ _ _. exists tt. reflexivity.
Defined.

(** C9 as stated fails: on the test split with the classification task
    the mapping has three keys, not only [image]. *)
Lemma test_classification_item_has_three_keys :
  self_task (example_dataset "test" "classification") = "classification" /\
  samples_at (self_samples (example_dataset "test" "classification")) 0 = Ok reassigned_row /\
  exists item,
    example_getitem (example_dataset "test" "classification") 0 = Ok item /\
    dict_keys item = ["image"; "image_path"; "label"] /\
    dict_keys item <> ["image"].
Proof.
  split; [reflexivity|]. split; [reflexivity|].
  eexists. split; [reflexivity|]. split; [reflexivity | discriminate].
Qed.

End MvtecSpec.

(* ===================================================================== *)
(** * Properties of the callback assembler                                *)
(* ===================================================================== *)

Module CallbacksSpec.
Import Callbacks.

(** ** Reading the configuration *)

Lemma mem_string_assoc key (entries : list (string * node)) :
  mem_string key (map fst entries) = true <-> exists v, assoc key entries = Some v.
Proof.
  unfold mem_string.
  induction entries as [|[k v] rest IH]; cbn.
  - split; [discriminate | intros [v H]; discriminate].
  - rewrite (String.eqb_sym key k). destruct (k =? key); cbn; [|exact IH].
    split; eauto.
Qed.

Lemma mem_string_assoc_none key (entries : list (string * node)) :
  mem_string key (map fst entries) = false <-> assoc key entries = None.
Proof.
  destruct (mem_string key (map fst entries)) eqn:Hm.
  - apply mem_string_assoc in Hm as [v Hv]. rewrite Hv. split; discriminate.
  - split; [intros _|reflexivity].
    destruct (assoc key entries) as [v|] eqn:Hv; [|reflexivity].
    assert (Ht : mem_string key (map fst entries) = true)
      by (apply mem_string_assoc; eauto).
    congruence.
Qed.

Section Runs.
Variable missing : missing_key.

Lemma attr_run path config :
  attr missing path config = (getattrs missing config path, config).
Proof. reflexivity. Qed.

Lemma has_key_run key path config :
  has_key missing key path config =
  (match getattrs missing config path with
   | Ok n => match keys n with
             | Ok ks => Ok (mem_string key ks)
             | Raise e => Raise e
             end
   | Raise e => Raise e
   end, config).
Proof.
  unfold has_key, keys_of, attr, bind, get, lift, ret.
  destruct (getattrs missing config path) as [n|e]; [|reflexivity].
  destruct (keys n); reflexivity.
Qed.

(** A key of the [model] section is found by the membership test and
    read back by the attribute access, whatever missing keys do. *)
Lemma model_key_present config key v :
  model_key config key = Some v ->
  has_key missing key ["model"] config = (Ok true, config) /\
  attr missing ["model"; key] config
  = (if is_missing v then Raise (missing_value key) else Ok v, config).
Proof.
  unfold model_key. intros H.
  destruct config as [| | | | |top]; try discriminate.
  destruct (assoc "model" top) as [[| | | | |entries]|] eqn:Hmodel; try discriminate.
  rewrite has_key_run, attr_run. cbn [getattrs getattr]. rewrite Hmodel.
  cbn [is_missing eq_str getattrs getattr keys]. rewrite H.
  split; [|now destruct (is_missing v)].
  assert (Hm : mem_string key (map fst entries) = true)
    by (apply mem_string_assoc; eauto).
  now rewrite Hm.
Qed.

Lemma model_key_absent config key b :
  fst (has_key missing key ["model"] config) = Ok b ->
  model_key config key = None ->
  b = false.
Proof.
  rewrite has_key_run. unfold model_key.
  destruct config as [| | | | |top]; try (cbn; discriminate).
  cbn [getattrs getattr].
  destruct (assoc "model" top) as [[| | |str| |entries]|] eqn:Hmodel;
    cbn [is_missing eq_str]; try destruct (str =? "???"); try destruct missing;
    cbn [keys fst]; try discriminate.
  all: intros Hb Hnone; inversion Hb; apply mem_string_assoc_none in Hnone; congruence.
Qed.

Lemma model_key_of_has_key config key :
  fst (has_key missing key ["model"] config) = Ok true ->
  exists v, model_key config key = Some v.
Proof.
  rewrite has_key_run. unfold model_key.
  destruct config as [| | | | |top]; try (cbn; discriminate).
  cbn [getattrs getattr].
  destruct (assoc "model" top) as [[| | |str| |entries]|] eqn:Hmodel;
    cbn [is_missing eq_str]; try destruct (str =? "???"); try destruct missing;
    cbn [keys fst]; try discriminate.
  all: intros Hb; inversion Hb; apply mem_string_assoc; congruence.
Qed.

End Runs.

(** ** Rules for the three kinds of statement *)

Lemma read_only_ret {A} (a : A) : read_only (ret a).
Proof. intros s; reflexivity. Qed.
Lemma read_only_raise {A} e : read_only (@raise node A e).
Proof. intros s; reflexivity. Qed.
Lemma read_only_lift {A} (r : result A) : read_only (lift r).
Proof. intros s; reflexivity. Qed.
Lemma read_only_get : read_only (@get node).
Proof. intros s; reflexivity. Qed.
Lemma read_only_bind {A B} (m : M node A) (k : A -> M node B) :
  read_only m -> (forall a, read_only (k a)) -> read_only (bind m k).
Proof.
  intros Hm Hk s. unfold bind. specialize (Hm s).
  destruct (m s) as [[a|e] s']; cbn in Hm; subst; [apply Hk | reflexivity].
Qed.

Lemma raises_only_ret {A} E (a : A) : raises_only E (ret a).
Proof. intros s e H; discriminate. Qed.
Lemma raises_only_raise {A} (E : exn -> Prop) e : E e -> raises_only E (@raise node A e).
Proof. intros He s e' H; inversion H; now subst. Qed.
Lemma raises_only_lift {A} (E : exn -> Prop) (r : result A) :
  (forall e, r = Raise e -> E e) -> raises_only E (lift r).
Proof. intros Hr s e H; now apply Hr. Qed.
Lemma raises_only_get E : raises_only E (@get node).
Proof. intros s e H; discriminate. Qed.
Lemma raises_only_put E s : raises_only E (@put node s).
Proof. intros s' e H; discriminate. Qed.
Lemma raises_only_bind {A B} E (m : M node A) (k : A -> M node B) :
  raises_only E m -> (forall a, raises_only E (k a)) -> raises_only E (bind m k).
Proof.
  intros Hm Hk s e. unfold bind. specialize (Hm s).
  destruct (m s) as [[a|e'] s'] eqn:Hrun; cbn in *.
  - apply Hk.
  - intros H; inversion H; subst. now apply Hm.
Qed.
Lemma raises_only_weaken {A} (E E' : exn -> Prop) (m : M node A) :
  (forall e, E e -> E' e) -> raises_only E m -> raises_only E' m.
Proof. intros HE Hm s e H. eauto. Qed.

Lemma returns_ret {A} (Q : A -> Prop) a : Q a -> returns Q (ret a).
Proof. intros Ha s a' H; inversion H; now subst. Qed.
Lemma returns_raise {A} (Q : A -> Prop) e : returns Q (raise e).
Proof. intros s a H; discriminate. Qed.
Lemma returns_bind {A B} (Q : B -> Prop) (m : M node A) (k : A -> M node B) :
  (forall a, returns Q (k a)) -> returns Q (bind m k).
Proof.
  intros Hk s b. unfold bind.
  destruct (m s) as [[a|e] s']; [apply Hk | discriminate].
Qed.

Lemma returns_bind_value {A B} (P : A -> Prop) (Q : B -> Prop)
    (m : M node A) (k : A -> M node B) :
  returns P m -> (forall a, P a -> returns Q (k a)) -> returns Q (bind m k).
Proof.
  intros Hm Hk s b. unfold bind. specialize (Hm s).
  destruct (m s) as [[a|e] s']; [|discriminate].
  apply Hk. now apply Hm.
Qed.

(** The primitives raise configuration errors only. *)
Lemma getattrs_raises missing n path e :
  getattrs missing n path = Raise e -> config_error e.
Proof.
  revert n; induction path as [|key rest IH]; intros n; cbn; [discriminate|].
  destruct (getattr missing n key) as [child|e'] eqn:Hg; [apply IH|].
  intros H; inversion H; subst.
  unfold getattr in Hg.
  destruct n; try (inversion Hg; exact I).
  destruct (assoc key entries) as [v|].
  - destruct (is_missing v); inversion Hg; exact I.
  - destruct missing; inversion Hg; exact I.
Qed.

Lemma keys_raises n e : keys n = Raise e -> config_error e.
Proof. destruct n; cbn; intros H; inversion H; exact I. Qed.
Lemma contains_raises s n e : contains s n = Raise e -> config_error e.
Proof. destruct n; cbn; intros H; inversion H; exact I. Qed.
Lemma len_raises n e : len n = Raise e -> config_error e.
Proof. destruct n; cbn; intros H; inversion H; exact I. Qed.
Lemma setitem_raises n k v e : setitem n k v = Raise e -> config_error e.
Proof. destruct n; cbn; intros H; inversion H; exact I. Qed.
Lemma str_add_raises n s e : str_add n s = Raise e -> config_error e.
Proof. destruct n; cbn; intros H; inversion H; exact I. Qed.
Lemma path_join_raises a b e : path_join a b = Raise e -> config_error e.
Proof.
  destruct a, b; cbn; intros H; try (inversion H; exact I).
  destruct (prefix "/" s0); [discriminate|].
  destruct ((s =? "") || ends_with_slash s); discriminate.
Qed.

Lemma model_checkpoint_mode_raises mode e :
  model_checkpoint_mode mode = Raise e -> config_error e.
Proof.
  unfold model_checkpoint_mode.
  destruct (eq_str mode "min" || eq_str mode "max"); intros H; inversion H; exact I.
Qed.

Create HintDb config.
#[local] Hint Resolve getattrs_raises keys_raises contains_raises len_raises
  setitem_raises str_add_raises path_join_raises model_checkpoint_mode_raises : config.

(** One step of a proof by the rules: split a bind, close a leaf, or
    case on the test of a conditional. *)
Ltac monad_rules :=
  cbv zeta;
  repeat first
    [ apply read_only_bind; [|intros ?]
    | apply read_only_ret | apply read_only_raise | apply read_only_lift
    | apply read_only_get
    | apply raises_only_bind; [|intros ?]
    | apply raises_only_ret | apply raises_only_get | apply raises_only_put
    | apply raises_only_raise; exact I
    | apply raises_only_lift; intros ? ?; eauto with config
    | apply returns_bind; intros ?
    | apply returns_raise
    | match goal with
      | |- read_only (if ?b then _ else _) => destruct b
      | |- raises_only _ (if ?b then _ else _) => destruct b
      | |- returns _ (if ?b then _ else _) => destruct b
      | |- read_only (match ?x with _ => _ end) => destruct x
      | |- raises_only _ (match ?x with _ => _ end) => destruct x
      | |- returns _ (match ?x with _ => _ end) => destruct x
      end ].

Section Blocks.
Variable missing : missing_key.

Lemma attr_read_only path : read_only (attr missing path).
Proof. unfold attr. monad_rules. Qed.
Lemma has_key_read_only key path : read_only (has_key missing key path).
Proof. unfold has_key, keys_of, attr. monad_rules. Qed.
Lemma optimization_applies_read_only key : read_only (optimization_applies missing key).
Proof. unfold optimization_applies, attr. monad_rules. Qed.

Lemma attr_raises path : raises_only config_error (attr missing path).
Proof. unfold attr. monad_rules. Qed.
Lemma has_key_raises key path : raises_only config_error (has_key missing key path).
Proof. unfold has_key, keys_of, attr. monad_rules. Qed.
Lemma optimization_applies_raises key :
  raises_only config_error (optimization_applies missing key).
Proof. unfold optimization_applies, attr. monad_rules. Qed.
Lemma set_visualization_raises key value :
  raises_only config_error (set_visualization missing key value).
Proof. unfold set_visualization, attr. monad_rules. Qed.

End Blocks.

Section BlockSpecs.
Variable missing : missing_key.

#[local] Hint Resolve attr_read_only has_key_read_only optimization_applies_read_only
  attr_raises has_key_raises optimization_applies_raises set_visualization_raises : config.

Ltac block_rules := repeat (monad_rules; auto with config).

(** All blocks but the visualizer only read the configuration. *)
Lemma base_callbacks_read_only : read_only (base_callbacks missing).
Proof. unfold base_callbacks. block_rules. Qed.

Lemma normalization_callback_read_only callbacks :
  read_only (normalization_callback missing callbacks).
Proof. unfold normalization_callback, cdf_normalization_callback. block_rules. Qed.

Lemma optimization_callbacks_read_only callbacks :
  read_only (optimization_callbacks missing callbacks).
Proof. unfold optimization_callbacks. block_rules. Qed.

Lemma graph_logger_callback_read_only callbacks :
  read_only (graph_logger_callback missing callbacks).
Proof. unfold graph_logger_callback. block_rules. Qed.

Lemma log_images_to_is_set_read_only : read_only (log_images_to_is_set missing).
Proof. unfold log_images_to_is_set. block_rules. Qed.

(** All blocks but the normalization one raise configuration errors only. *)
Lemma base_callbacks_raises : raises_only config_error (base_callbacks missing).
Proof. unfold base_callbacks. block_rules. Qed.

Lemma log_images_to_is_set_raises : raises_only config_error (log_images_to_is_set missing).
Proof. unfold log_images_to_is_set. block_rules. Qed.

Lemma visualizer_callback_read_only callbacks :
  read_only (visualizer_callback missing callbacks).
Proof. unfold visualizer_callback. block_rules. Qed.

Lemma add_visualizer_callback_raises callbacks :
  raises_only config_error (add_visualizer_callback missing callbacks).
Proof.
  pose proof log_images_to_is_set_raises.
  unfold add_visualizer_callback, create_visualization_section, set_visualization_flags,
    visualizer_callback.
  block_rules.
Qed.

Lemma optimization_callbacks_raises callbacks :
  raises_only config_error (optimization_callbacks missing callbacks).
Proof. unfold optimization_callbacks. block_rules. Qed.

Lemma graph_logger_callback_raises callbacks :
  raises_only config_error (graph_logger_callback missing callbacks).
Proof. unfold graph_logger_callback. block_rules. Qed.

(** No block but the normalization one adds a normalization hook. *)
Lemma no_normalization_callback_app callbacks c :
  no_normalization_callback callbacks -> is_normalization_callback c = false ->
  no_normalization_callback (callbacks ++ [c]).
Proof.
  unfold no_normalization_callback. intros Hl Hc.
  rewrite forallb_app, Hl. cbn. now rewrite Hc.
Qed.

Ltac returns_rules :=
  repeat (monad_rules;
          try (apply returns_ret;
               repeat (apply no_normalization_callback_app; [|reflexivity]);
               first [assumption | reflexivity])).

Lemma base_callbacks_returns : returns no_normalization_callback (base_callbacks missing).
Proof. unfold base_callbacks. returns_rules. Qed.

Lemma add_visualizer_callback_returns callbacks :
  no_normalization_callback callbacks ->
  returns no_normalization_callback (add_visualizer_callback missing callbacks).
Proof. intros H. unfold add_visualizer_callback, visualizer_callback. returns_rules. Qed.

Lemma optimization_callbacks_returns callbacks :
  no_normalization_callback callbacks ->
  returns no_normalization_callback (optimization_callbacks missing callbacks).
Proof.
  intros H. unfold optimization_callbacks.
  apply returns_bind; intros has_optimization.
  destruct has_optimization; [|now apply returns_ret].
  apply returns_bind; intros nncf.
  apply returns_bind_value with (P := no_normalization_callback).
  - destruct nncf; returns_rules.
  - intros cbs Hcbs. returns_rules.
Qed.

Lemma graph_logger_callback_returns callbacks :
  no_normalization_callback callbacks ->
  returns no_normalization_callback (graph_logger_callback missing callbacks).
Proof. intros H. unfold graph_logger_callback. returns_rules. Qed.

End BlockSpecs.

(** ** The normalization block *)

Section Normalization.
Variable missing : missing_key.

(** The block when [config.model.normalization_method] is there. *)
Lemma normalization_callback_present config callbacks method :
  model_key config "normalization_method" = Some method ->
  normalization_callback missing callbacks config =
  if is_missing method then (Raise (missing_value "normalization_method"), config)
  else if eq_str method "none" then (Ok callbacks, config)
  else if eq_str method "cdf" then cdf_normalization_callback missing callbacks config
  else if eq_str method "min_max"
       then (Ok (callbacks ++ [MinMaxNormalizationCallback])%list, config)
  else (Raise (ValueError ("Normalization method not recognized: " ++ py_str method)), config).
Proof.
  intros Hkey.
  destruct (model_key_present missing config _ _ Hkey) as [Hhas Hattr].
  unfold normalization_callback, bind. rewrite Hhas, Hattr. cbn [ret].
  destruct (is_missing method); [reflexivity|]. cbn [ret].
  destruct (eq_str method "none"); cbn [negb]; [reflexivity|].
  rewrite Hattr. destruct (eq_str method "cdf"); [reflexivity|].
  rewrite Hattr. destruct (eq_str method "min_max"); [reflexivity|].
  rewrite Hattr. reflexivity.
Qed.

(** The block when the key is not there and [config.model] is a section. *)
Lemma normalization_callback_absent config callbacks b :
  fst (has_key missing "normalization_method" ["model"] config) = Ok b ->
  model_key config "normalization_method" = None ->
  normalization_callback missing callbacks config = (Ok callbacks, config).
Proof.
  intros Hhas Hkey.
  pose proof (model_key_absent missing config _ b Hhas Hkey); subst b.
  pose proof (has_key_read_only missing "normalization_method" ["model"] config) as Hro.
  unfold normalization_callback, bind.
  destruct (has_key missing "normalization_method" ["model"] config) as [r s].
  cbn in Hhas, Hro; subst. reflexivity.
Qed.

Lemma cdf_normalization_callback_raises callbacks :
  raises_only (fun e => config_error e \/ exists msg, e = NotImplementedError msg)
    (cdf_normalization_callback missing callbacks).
Proof.
  unfold cdf_normalization_callback.
  apply raises_only_bind; [|intros name].
  - eapply raises_only_weaken; [|apply attr_raises]. auto.
  - destruct (eq_str name "padim" || eq_str name "stfpm").
    + apply raises_only_bind; [|intros nncf].
      * eapply raises_only_weaken; [|apply optimization_applies_raises]. auto.
      * destruct nncf; [apply raises_only_raise; eauto | apply raises_only_ret].
    + apply raises_only_raise; eauto.
Qed.

(** When the block raises a [ValueError], the method is there, is a
    value, and is none of the three known ones. *)
Lemma normalization_callback_value_error config callbacks msg :
  fst (normalization_callback missing callbacks config) = Raise (ValueError msg) ->
  exists method,
    model_key config "normalization_method" = Some method /\
    is_missing method = false /\
    eq_str method "none" = false /\ eq_str method "cdf" = false /\
    eq_str method "min_max" = false /\
    msg = "Normalization method not recognized: " ++ py_str method.
Proof.
  intros Hraise.
  destruct (fst (has_key missing "normalization_method" ["model"] config)) as [[|]|e] eqn:Hhas.
  - apply model_key_of_has_key in Hhas as [method Hkey].
    exists method. split; [assumption|].
    rewrite (normalization_callback_present _ _ _ Hkey) in Hraise.
    destruct (is_missing method); [discriminate|]. split; [reflexivity|].
    destruct (eq_str method "none"); [discriminate|].
    destruct (eq_str method "cdf").
    + apply cdf_normalization_callback_raises in Hraise as [He|[m He]];
        [contradiction | discriminate].
    + destruct (eq_str method "min_max"); [discriminate|].
      cbn in Hraise. inversion Hraise. auto.
  - exfalso. unfold normalization_callback, bind in Hraise.
    pose proof (has_key_read_only missing "normalization_method" ["model"] config) as Hro.
    destruct (has_key missing "normalization_method" ["model"] config) as [r s].
    cbn in Hhas, Hro; subst. discriminate.
  - exfalso. unfold normalization_callback, bind in Hraise.
    pose proof (has_key_raises missing "normalization_method" ["model"] config e Hhas) as He.
    destruct (has_key missing "normalization_method" ["model"] config) as [r s].
    cbn in Hhas; subst. cbn in Hraise. inversion Hraise; subst. contradiction.
Qed.

End Normalization.

(** ** The whole assembly *)

Section Assembly.
Variable missing : missing_key.

Lemma remaining_callbacks_raises callbacks :
  raises_only config_error (remaining_callbacks missing callbacks).
Proof.
  unfold remaining_callbacks.
  apply raises_only_bind; [apply add_visualizer_callback_raises | intros cbs].
  apply raises_only_bind; [apply optimization_callbacks_raises | intros cbs'].
  apply graph_logger_callback_raises.
Qed.

Lemma remaining_callbacks_returns callbacks :
  no_normalization_callback callbacks ->
  returns no_normalization_callback (remaining_callbacks missing callbacks).
Proof.
  intros H. unfold remaining_callbacks.
  eapply returns_bind_value; [now apply add_visualizer_callback_returns | intros cbs Hcbs].
  eapply returns_bind_value; [now apply optimization_callbacks_returns | intros cbs' Hcbs'].
  now apply graph_logger_callback_returns.
Qed.

(** Once the first block has returned, the call is the normalization
    block followed by the rest, on the configuration as it was passed. *)
Lemma get_callbacks_after_base config callbacks :
  fst (base_callbacks missing config) = Ok callbacks ->
  get_callbacks missing config
  = bind (normalization_callback missing callbacks) (remaining_callbacks missing) config.
Proof.
  intros Hbase. pose proof (base_callbacks_read_only missing config) as Hro.
  unfold get_callbacks. unfold bind at 1.
  destruct (base_callbacks missing config) as [r s]. cbn in Hbase, Hro; subst.
  reflexivity.
Qed.

(** The first block reads [config.model.keys()]: when it returns, so
    does every membership test on the [model] section. *)
Lemma base_callbacks_model config callbacks key :
  fst (base_callbacks missing config) = Ok callbacks ->
  exists b, fst (has_key missing key ["model"] config) = Ok b.
Proof.
  intros Hbase. rewrite has_key_run.
  unfold base_callbacks in Hbase. unfold bind at 1 2 in Hbase.
  rewrite has_key_run in Hbase.
  destruct (getattrs missing config ["model"]) as [n|e]; [|discriminate].
  destruct (keys n) as [ks|e]; [|discriminate].
  eexists; reflexivity.
Qed.

(** The normalization block of lines 98-109 on its own, once the first
    block has returned: it raises a [ValueError] exactly when
    [config.model.normalization_method] is there, is a value, and is
    none of "none", "cdf", "min_max", and the message ends with that
    value; when the key is not there or is "none", the block returns the
    list as it got it. *)
Lemma normalization_block_outcome config callbacks :
  fst (base_callbacks missing config) = Ok callbacks ->
  (forall msg,
     fst (normalization_callback missing callbacks config) = Raise (ValueError msg) <->
     exists method,
       model_key config "normalization_method" = Some method /\
       is_missing method = false /\
       eq_str method "none" = false /\ eq_str method "cdf" = false /\
       eq_str method "min_max" = false /\
       msg = "Normalization method not recognized: " ++ py_str method) /\
  (model_key config "normalization_method" = None \/
   model_key config "normalization_method" = Some (NStr "none") ->
   normalization_callback missing callbacks config = (Ok callbacks, config)).
Proof.
  intros Hbase. split.
  - intros msg. split.
    + apply normalization_callback_value_error.
    + intros [method [Hkey [Hvalue [Hnone [Hcdf [Hmm Hmsg]]]]]].
      rewrite (normalization_callback_present missing config callbacks method Hkey).
      rewrite Hvalue, Hnone, Hcdf, Hmm. cbn. now subst.
  - intros [Hnone|Hnone].
    + destruct (base_callbacks_model config callbacks "normalization_method" Hbase)
        as [b Hb].
      exact (normalization_callback_absent missing config callbacks b Hb Hnone).
    + now rewrite (normalization_callback_present missing config callbacks _ Hnone).
Qed.

(** The configuration object is written only under the deprecated-key
    test: when that test does not hold, the call leaves the object as it
    was passed. *)
Lemma add_visualizer_callback_frame callbacks config :
  fst (log_images_to_is_set missing config) <> Ok true ->
  snd (add_visualizer_callback missing callbacks config) = config.
Proof.
  intros Hunset.
  pose proof (log_images_to_is_set_read_only missing config) as Hro.
  unfold add_visualizer_callback. unfold bind at 1. unfold get at 1.
  unfold bind at 1.
  destruct config as [| | | | |top]; try reflexivity.
  cbn [ret]. unfold bind at 1.
  destruct (log_images_to_is_set missing (NDict top)) as [[[|]|e] s];
    cbn in Hunset, Hro; subst; [congruence| |reflexivity].
  unfold bind at 1. cbn [ret].
  apply visualizer_callback_read_only.
Qed.

Lemma get_callbacks_frame config :
  fst (log_images_to_is_set missing config) <> Ok true ->
  snd (get_callbacks missing config) = config.
Proof.
  intros Hunset. unfold get_callbacks.
  pose proof (base_callbacks_read_only missing config) as Hbase.
  unfold bind at 1.
  destruct (base_callbacks missing config) as [[cbs|e] s]; cbn in Hbase; subst;
    [|reflexivity].
  pose proof (normalization_callback_read_only missing cbs config) as Hnorm.
  unfold bind at 1.
  destruct (normalization_callback missing cbs config) as [[cbs'|e] s]; cbn in Hnorm; subst;
    [|reflexivity].
  unfold remaining_callbacks.
  pose proof (add_visualizer_callback_frame cbs' config Hunset) as Hvis.
  unfold bind at 1.
  destruct (add_visualizer_callback missing cbs' config) as [[cbs''|e] s]; cbn in Hvis; subst;
    [|reflexivity].
  pose proof (optimization_callbacks_read_only missing cbs'' config) as Hopt.
  unfold bind at 1.
  destruct (optimization_callbacks missing cbs'' config) as [[cbs3|e] s]; cbn in Hopt; subst;
    [|reflexivity].
  apply graph_logger_callback_read_only.
Qed.

End Assembly.

(** ** The migration of the deprecated key *)

Lemma assoc_set_same key value (entries : list (string * node)) :
  assoc key (assoc_set key value entries) = Some value.
Proof.
  induction entries as [|[k v] rest IH]; cbn.
  - now rewrite String.eqb_refl.
  - destruct (k =? key) eqn:Hk; cbn; now rewrite Hk.
Qed.

Lemma assoc_set_other key key' value (entries : list (string * node)) :
  key <> key' -> assoc key (assoc_set key' value entries) = assoc key entries.
Proof.
  intros Hne. induction entries as [|[k v] rest IH]; cbn.
  - destruct (String.eqb_spec key' key); [congruence | reflexivity].
  - destruct (String.eqb_spec k key') as [Hk|Hk]; cbn.
    + subst. destruct (String.eqb_spec key' key); [congruence | reflexivity].
    + destruct (k =? key); [reflexivity | assumption].
Qed.

Section Migration.
Variable missing : missing_key.

Lemma set_visualization_run top section key value :
  assoc "visualization" top = Some (NDict section) ->
  set_visualization missing key value (NDict top)
  = (Ok tt, NDict (assoc_set "visualization" (NDict (assoc_set key value section)) top)).
Proof.
  intros Hsection. unfold set_visualization, bind. rewrite attr_run. cbn.
  now rewrite Hsection.
Qed.

(** Lines 165-166 leave a configuration that has a [visualization]
    section, and touch nothing else. *)
Lemma create_visualization_section_run top :
  (assoc "visualization" top = None \/
   exists section, assoc "visualization" top = Some (NDict section)) ->
  exists top' section',
    create_visualization_section missing (NDict top) = (Ok tt, NDict top') /\
    assoc "visualization" top' = Some (NDict section') /\
    forall key, key <> "visualization" -> assoc key top' = assoc key top.
Proof.
  intros Hcase. unfold create_visualization_section, bind. rewrite has_key_run. cbn.
  destruct Hcase as [Hnone | [section Hsome]].
  - pose proof (proj2 (mem_string_assoc_none _ _) Hnone) as Hm. rewrite Hm. cbn.
    eexists; eexists. split; [reflexivity|]. split; [apply assoc_set_same|].
    intros key Hkey. now apply assoc_set_other.
  - assert (Hm : mem_string "visualization" (map fst top) = true)
      by (apply mem_string_assoc; eauto).
    rewrite Hm. cbn. exists top, section. auto.
Qed.

(** Lines 167-170 set at least one of the two flags when the deprecated
    value under [project] is a list. *)
Lemma set_visualization_flags_run top project items section :
  assoc "project" top = Some (NDict project) ->
  assoc "log_images_to" project = Some (NList items) ->
  assoc "visualization" top = Some (NDict section) ->
  exists top' section',
    set_visualization_flags missing (NDict top) = (Ok tt, NDict top') /\
    assoc "visualization" top' = Some (NDict section') /\
    (assoc "save_images" section' = Some (NBool true) \/
     assoc "log_images" section' = Some (NBool true)).
Proof.
  intros Hproject Hitems Hsection.
  assert (Hread : forall top0, assoc "project" top0 = Some (NDict project) ->
            attr missing ["project"; "log_images_to"] (NDict top0)
            = (Ok (NList items), NDict top0)).
  { intros top0 H0. rewrite attr_run. cbn. rewrite H0. cbn. now rewrite Hitems. }
  unfold set_visualization_flags. unfold bind at 1. rewrite (Hread top Hproject).
  unfold bind at 1. unfold lift at 1. cbn [contains].
  set (has_local := existsb (fun item => eq_str item "local") items).
  unfold bind at 1.
  destruct has_local eqn:Hlocal.
  - rewrite (set_visualization_run top section _ _ Hsection).
    set (top1 := assoc_set "visualization"
                   (NDict (assoc_set "save_images" (NBool true) section)) top).
    assert (Hproject1 : assoc "project" top1 = Some (NDict project))
      by (unfold top1; rewrite assoc_set_other by discriminate; assumption).
    assert (Hsection1 : assoc "visualization" top1
                        = Some (NDict (assoc_set "save_images" (NBool true) section)))
      by (unfold top1; apply assoc_set_same).
    unfold bind at 1. rewrite (Hread top1 Hproject1).
    unfold bind at 1. unfold lift at 1. cbn [contains]. fold has_local. rewrite Hlocal.
    cbn [negb]. unfold bind at 1. unfold bind at 1. rewrite (Hread top1 Hproject1).
    unfold bind at 1. unfold lift at 1. cbn [len ret].
    destruct (Nat.ltb 1 (length items)).
    + rewrite (set_visualization_run top1 _ _ _ Hsection1).
      eexists; eexists. split; [reflexivity|]. split; [apply assoc_set_same|].
      left. rewrite assoc_set_other by discriminate. apply assoc_set_same.
    + cbn [ret]. eexists; eexists. split; [reflexivity|]. split; [exact Hsection1|].
      left. apply assoc_set_same.
  - cbn [ret]. unfold bind at 1. rewrite (Hread top Hproject).
    unfold bind at 1. unfold lift at 1. cbn [contains]. fold has_local. rewrite Hlocal.
    cbn [negb]. unfold bind at 1. cbn [ret].
    rewrite (set_visualization_run top section _ _ Hsection).
    eexists; eexists. split; [reflexivity|]. split; [apply assoc_set_same|].
    right. apply assoc_set_same.
Qed.

(** With the deprecated key present and non-empty under [project], once
    the blocks before the visualizer have returned, the call leaves a
    configuration whose [visualization] section has [save_images] or
    [log_images] set, whether or not the later blocks return. *)
Lemma log_images_to_under_project_mutates top project items callbacks :
  assoc "project" top = Some (NDict project) ->
  assoc "log_images_to" project = Some (NList items) ->
  items <> [] ->
  (assoc "visualization" top = None \/
   exists section, assoc "visualization" top = Some (NDict section)) ->
  fst (bind (base_callbacks missing) (normalization_callback missing) (NDict top))
  = Ok callbacks ->
  exists top' section',
    snd (get_callbacks missing (NDict top)) = NDict top' /\
    assoc "visualization" top' = Some (NDict section') /\
    (assoc "save_images" section' = Some (NBool true) \/
     assoc "log_images" section' = Some (NBool true)).
Proof.
  intros Hproject Hitems Hne Hvis Hbefore.
  destruct (create_visualization_section_run top Hvis) as [top1 [section1 [Hc [Hs1 Hsame]]]].
  assert (Hproject1 : assoc "project" top1 = Some (NDict project))
    by (rewrite Hsame by discriminate; assumption).
  destruct (set_visualization_flags_run top1 project items section1 Hproject1 Hitems Hs1)
    as [top2 [section2 [Hf [Hs2 Hflags]]]].
  exists top2, section2. split; [|split; assumption].
  assert (Hset : log_images_to_is_set missing (NDict top) = (Ok true, NDict top)).
  { unfold log_images_to_is_set. unfold bind at 1. rewrite has_key_run.
    cbn -[Nat.ltb]. rewrite Hproject. cbn -[Nat.ltb].
    assert (Hm : mem_string "log_images_to" (map fst project) = true)
      by (apply mem_string_assoc; eauto).
    rewrite Hm. unfold bind at 1. unfold bind at 1. rewrite attr_run.
    cbn -[Nat.ltb]. rewrite Hproject. cbn -[Nat.ltb]. rewrite Hitems.
    unfold bind at 1. unfold lift. cbn -[Nat.ltb].
    destruct items; [contradiction | reflexivity]. }
  unfold get_callbacks.
  pose proof (base_callbacks_read_only missing (NDict top)) as Hbase.
  unfold bind at 1. unfold bind at 1 in Hbefore.
  destruct (base_callbacks missing (NDict top)) as [[cbs|e] s]; cbn in Hbase; subst;
    [|discriminate].
  pose proof (normalization_callback_read_only missing cbs (NDict top)) as Hnorm.
  unfold bind at 1.
  destruct (normalization_callback missing cbs (NDict top)) as [[cbs'|e] s];
    cbn in Hnorm; subst; [|discriminate].
  unfold remaining_callbacks. unfold bind at 1.
  assert (Hvisualizer : snd (add_visualizer_callback missing cbs' (NDict top)) = NDict top2).
  { unfold add_visualizer_callback. unfold bind at 1. unfold get at 1.
    unfold bind at 1. cbn [ret]. unfold bind at 1. rewrite Hset.
    unfold bind at 1. unfold bind at 1. rewrite Hc, Hf.
    apply visualizer_callback_read_only. }
  destruct (add_visualizer_callback missing cbs' (NDict top)) as [[cbs''|e] s];
    cbn in Hvisualizer; subst; [|reflexivity].
  pose proof (optimization_callbacks_read_only missing cbs'' (NDict top2)) as Hopt.
  unfold bind at 1.
  destruct (optimization_callbacks missing cbs'' (NDict top2)) as [[cbs3|e] s];
    cbn in Hopt; subst; [|reflexivity].
  apply graph_logger_callback_read_only.
Qed.

End Migration.

(** ** CDF normalization *)

Section Cdf.
Variable missing : missing_key.

(** An unsupported model with [normalization_method: cdf] is refused. *)
Lemma cdf_unsupported_model_raises config callbacks name :
  fst (base_callbacks missing config) = Ok callbacks ->
  model_key config "normalization_method" = Some (NStr "cdf") ->
  getattrs missing config ["model"; "name"] = Ok name ->
  eq_str name "padim" = false -> eq_str name "stfpm" = false ->
  get_callbacks missing config
  = (Raise (NotImplementedError
              "Score Normalization is currently supported for PADIM and STFPM only."),
     config).
Proof.
  intros Hbase Hkey Hname Hp Hs.
  rewrite (get_callbacks_after_base missing config callbacks Hbase). unfold bind.
  rewrite (normalization_callback_present missing config callbacks _ Hkey). cbn [eq_str].
  cbn [String.eqb Ascii.eqb Bool.eqb andb].
  unfold cdf_normalization_callback, bind. rewrite attr_run, Hname, Hp, Hs. reflexivity.
Qed.

(** PADIM or STFPM with [normalization_method: cdf] and NNCF applied is refused. *)
Lemma cdf_with_nncf_raises config callbacks name :
  fst (base_callbacks missing config) = Ok callbacks ->
  model_key config "normalization_method" = Some (NStr "cdf") ->
  getattrs missing config ["model"; "name"] = Ok name ->
  eq_str name "padim" || eq_str name "stfpm" = true ->
  fst (optimization_applies missing "nncf" config) = Ok true ->
  get_callbacks missing config
  = (Raise (NotImplementedError
              "CDF Score Normalization is currently not compatible with NNCF."),
     config).
Proof.
  intros Hbase Hkey Hname Hsupported Hnncf.
  pose proof (optimization_applies_read_only missing "nncf" config) as Hro.
  rewrite (get_callbacks_after_base missing config callbacks Hbase). unfold bind.
  rewrite (normalization_callback_present missing config callbacks _ Hkey). cbn [eq_str].
  cbn [String.eqb Ascii.eqb Bool.eqb andb].
  unfold cdf_normalization_callback, bind. rewrite attr_run, Hname, Hsupported.
  destruct (optimization_applies missing "nncf" config) as [r s].
  cbn in Hnncf, Hro; subst. reflexivity.
Qed.

(** PADIM or STFPM with [normalization_method: cdf], when the NNCF test
    of line 101 can be made and does not hold: the CDF hook is appended. *)
Lemma cdf_supported_adds_hook config callbacks name :
  model_key config "normalization_method" = Some (NStr "cdf") ->
  getattrs missing config ["model"; "name"] = Ok name ->
  eq_str name "padim" || eq_str name "stfpm" = true ->
  fst (optimization_applies missing "nncf" config) = Ok false ->
  normalization_callback missing callbacks config
  = (Ok (callbacks ++ [CdfNormalizationCallback])%list, config).
Proof.
  intros Hkey Hname Hsupported Hnncf.
  pose proof (optimization_applies_read_only missing "nncf" config) as Hro.
  rewrite (normalization_callback_present missing config callbacks _ Hkey). cbn [eq_str].
  cbn [String.eqb Ascii.eqb Bool.eqb andb].
  unfold cdf_normalization_callback, bind. rewrite attr_run, Hname, Hsupported.
  destruct (optimization_applies missing "nncf" config) as [r s].
  cbn in Hnncf, Hro; subst. reflexivity.
Qed.

(** Without an [optimization] section the NNCF test of line 101 cannot
    be made: the read of [config.optimization] fails, or gives [None],
    which is not a container. *)
Lemma optimization_applies_without_section top key :
  assoc "optimization" top = None ->
  exists e, optimization_applies missing key (NDict top) = (Raise e, NDict top) /\
            config_error e.
Proof.
  intros Habsent. unfold optimization_applies, bind. rewrite attr_run. cbn.
  rewrite Habsent. destruct missing; cbn; eexists; split; try reflexivity; exact I.
Qed.

End Cdf.

(** C7 (the code departs from it).  PADIM with [normalization_method: cdf]
    and no [optimization] section, a configuration that lines 113-114
    allow for, does not get its CDF hook: line 101 reads
    [config.optimization] without the guard of line 113 and the call
    ends in an error, under either behaviour of a missing key.  With an
    [optimization] section that does not apply NNCF the same
    configuration gets the hook; an unsupported model, and NNCF applied,
    are refused. *)
Theorem cdf_without_optimization_section_raises :
  get_callbacks MissingRaises cdf_padim_without_optimization
  = (Raise (AttributeError "Missing key optimization"), cdf_padim_without_optimization) /\
  get_callbacks MissingIsNone cdf_padim_without_optimization
  = (Raise (TypeError "argument is not iterable"), cdf_padim_without_optimization) /\
  (forall missing,
     exists callbacks,
       fst (get_callbacks missing cdf_padim_with_optimization) = Ok callbacks /\
       existsb is_cdf_callback callbacks = true) /\
  (forall missing,
     fst (get_callbacks missing cdf_resnet)
     = Raise (NotImplementedError
                "Score Normalization is currently supported for PADIM and STFPM only.")) /\
  (forall missing,
     fst (get_callbacks missing cdf_padim_with_nncf)
     = Raise (NotImplementedError
                "CDF Score Normalization is currently not compatible with NNCF.")).
Proof.
  split; [vm_compute; reflexivity|]. split; [vm_compute; reflexivity|].
  split; [|split]; intros []; try (eexists; split); vm_compute; reflexivity.
Qed.

(** C8 (the code departs from it).  With no [normalization_method]
    under [model] and the visualizer asked for, the normalization block
    of lines 98-109 returns the list as it got it, but line 182 then
    reads [config.model.normalization_method] without the membership
    test that line 98 puts before the same read: where a missing key
    raises, the call ends in an [AttributeError] and the configuration
    is as it was passed; where a missing key is [None], the call returns
    and the visualizer is told its inputs are normalized.  The other
    cases agree with the claim: an unknown value raises the [ValueError]
    that names it, and with the visualizer off an absent key or "none"
    gives a list with no normalization hook. *)
Theorem absent_normalization_method_raises :
  model_key visualizer_without_normalization_method "normalization_method" = None /\
  normalization_callback MissingRaises example_base_callbacks
    visualizer_without_normalization_method
  = (Ok example_base_callbacks, visualizer_without_normalization_method) /\
  get_callbacks MissingRaises visualizer_without_normalization_method
  = (Raise (AttributeError "Missing key normalization_method"),
     visualizer_without_normalization_method) /\
  (exists callbacks,
     fst (get_callbacks MissingIsNone visualizer_without_normalization_method)
     = Ok callbacks /\
     no_normalization_callback callbacks /\
     In (VisualizerCallback (NStr "segmentation") (NStr "full") (NStr "results/images")
           true (NBool false) (NBool true) (NBool false)) callbacks) /\
  (forall missing,
     fst (get_callbacks missing
            (model_config [("name", NStr "padim"); ("normalization_method", NStr "zscore")]))
     = Raise (ValueError "Normalization method not recognized: zscore")) /\
  (forall missing,
     exists callbacks,
       fst (get_callbacks missing
              (model_config [("name", NStr "padim"); ("normalization_method", NStr "none")]))
       = Ok callbacks /\
       no_normalization_callback callbacks) /\
  (forall missing,
     exists callbacks,
       fst (get_callbacks missing (model_config [("name", NStr "padim")])) = Ok callbacks /\
       no_normalization_callback callbacks).
Proof.
  split; [reflexivity|]. split; [vm_compute; reflexivity|].
  split; [vm_compute; reflexivity|]. split.
  { eexists. split; [vm_compute; reflexivity|]. split; [reflexivity|]. cbn. auto 10. }
  split; [intros []; vm_compute; reflexivity|].
  split; intros []; eexists; (split; [vm_compute; reflexivity | reflexivity]).
Qed.

(** ** The deprecated [log_images_to] key *)

(** With the deprecated key under [project], and no [visualization]
    section, the call creates the section and sets both flags, whether
    or not it then returns. *)
Lemma log_images_to_under_project_sets_flags missing :
  getattrs missing (snd (get_callbacks missing log_images_to_under_project))
    ["visualization"; "save_images"] = Ok (NBool true) /\
  getattrs missing (snd (get_callbacks missing log_images_to_under_project))
    ["visualization"; "log_images"] = Ok (NBool true) /\
  fst (has_key missing "visualization" [] log_images_to_under_project) = Ok false.
Proof. destruct missing; vm_compute; auto. Qed.

Lemma log_images_to_test_unset missing section top entries :
  assoc section top = Some (NDict entries) ->
  (assoc "log_images_to" entries = None \/
   exists v, assoc "log_images_to" entries = Some v /\ len v = Ok 0) ->
  (if mem_string "log_images_to" (map fst entries)
   then (v <- attr missing [section; "log_images_to"] ;;
         n <- lift (len v) ;; ret (Nat.ltb 0 n))%py
   else ret false) (NDict top) = (Ok false, NDict top).
Proof.
  intros Hsection [Hnone | [v [Hv Hlen]]].
  - apply mem_string_assoc_none in Hnone. now rewrite Hnone.
  - assert (Hm : mem_string "log_images_to" (map fst entries) = true)
      by (apply mem_string_assoc; eauto).
    assert (Hvalue : is_missing v = false).
    { destruct v as [| | |str| |]; try reflexivity.
      destruct str; [reflexivity | cbn in Hlen; discriminate]. }
    rewrite Hm. unfold bind. rewrite attr_run. cbn [getattrs getattr].
    rewrite Hsection. cbn [is_missing eq_str getattrs getattr].
    rewrite Hv, Hvalue. unfold lift. now rewrite Hlen.
Qed.

(** With the deprecated key missing, or empty, under both [project] and
    [logging], the test of lines 155-160 does not hold, and the call
    leaves the configuration object as it was passed. *)
Lemma log_images_to_unset_frame missing top project logging :
  assoc "project" top = Some (NDict project) ->
  assoc "logging" top = Some (NDict logging) ->
  (assoc "log_images_to" project = None \/
   exists v, assoc "log_images_to" project = Some v /\ len v = Ok 0) ->
  (assoc "log_images_to" logging = None \/
   exists v, assoc "log_images_to" logging = Some v /\ len v = Ok 0) ->
  log_images_to_is_set missing (NDict top) = (Ok false, NDict top) /\
  snd (get_callbacks missing (NDict top)) = NDict top.
Proof.
  intros Hproject Hlogging Hp Hl.
  assert (Hunset : log_images_to_is_set missing (NDict top) = (Ok false, NDict top)).
  { unfold log_images_to_is_set. unfold bind at 1. rewrite has_key_run.
    cbn -[Nat.ltb]. rewrite Hproject. cbn -[Nat.ltb].
    unfold bind at 1.
    rewrite (log_images_to_test_unset missing "project" top project Hproject Hp).
    unfold bind at 1. rewrite has_key_run.
    cbn -[Nat.ltb]. rewrite Hlogging. cbn -[Nat.ltb].
    apply (log_images_to_test_unset missing "logging" top logging Hlogging Hl). }
  split; [assumption|].
  apply get_callbacks_frame. rewrite Hunset. discriminate.
Qed.

(** C10 (the code departs from it).  With the deprecated key present and
    non-empty under [logging] only, the test of lines 155-160 holds, but
    lines 167-169 read [config.project.log_images_to]: the call ends in
    an error there, under either behaviour of a missing key, and the
    configuration object is as it was passed, neither flag set. *)
Theorem log_images_to_under_logging_raises :
  log_images_to_is_set MissingRaises log_images_to_under_logging
  = (Ok true, log_images_to_under_logging) /\
  log_images_to_is_set MissingIsNone log_images_to_under_logging
  = (Ok true, log_images_to_under_logging) /\
  get_callbacks MissingRaises log_images_to_under_logging
  = (Raise (AttributeError "Missing key log_images_to"), log_images_to_under_logging) /\
  get_callbacks MissingIsNone log_images_to_under_logging
  = (Raise (TypeError "argument is not iterable"), log_images_to_under_logging) /\
  getattrs MissingRaises log_images_to_under_logging ["visualization"; "save_images"]
  = Ok (NBool false) /\
  getattrs MissingRaises log_images_to_under_logging ["visualization"; "log_images"]
  = Ok (NBool false).
Proof. repeat split; vm_compute; reflexivity. Qed.

End CallbacksSpec.

(* ===================================================================== *)
(** * Further properties of the dataset indexer and the data module       *)
(* ===================================================================== *)

Module MvtecCoverage.
Import Mvtec MvtecSpec.

(** ** The mask file name *)

Lemma rstrip_kept chars (s t : string) :
  rstrip chars t <> "" -> rstrip chars (s ++ t) = s ++ rstrip chars t.
Proof.
  intros Hkept. induction s as [|c s IH]; cbn; [reflexivity|].
  rewrite IH. destruct (s ++ rstrip chars t) eqn:Hst; [|reflexivity].
  destruct s; cbn in Hst; [contradiction | discriminate].
Qed.

Lemma rstrip_dropped chars (s t : string) :
  rstrip chars t = "" -> rstrip chars (s ++ t) = rstrip chars s.
Proof.
  intros Hdropped. induction s as [|c s IH]; cbn; [assumption|].
  now rewrite IH.
Qed.

Lemma rstrip_unchanged chars (s : string) :
  (forall s' c, s = s' ++ String c "" -> mem_ascii c chars = false) ->
  rstrip chars s = s.
Proof.
  induction s as [|c s IH]; intros Hlast; [reflexivity|]. cbn.
  destruct s as [|d s].
  - cbn. now rewrite (Hlast "" c eq_refl).
  - rewrite IH; [reflexivity|].
    intros s' e He. apply (Hlast (String c s') e). cbn. now rewrite He.
Qed.

Lemma combine_seq_In {A} (l : list A) start i a :
  nth_error l i = Some a -> In (start + i, a) (combine (seq start (length l)) l).
Proof.
  revert start i. induction l as [|b l IH]; intros start i Hi; [destruct i; discriminate|].
  destruct i as [|i]; cbn in Hi |- *.
  - inversion Hi; subst. left. now rewrite Nat.add_0_r.
  - right. replace (start + S i) with (S start + i) by lia. now apply IH.
Qed.

(** For an image file [<stem>.png] outside [ground_truth], whose stem
    does not end in a dot, the table of lines 124-142 has a row whose
    mask path is [<path>/ground_truth/<label>/<stem>_mask.png] and whose
    image path is [<path>/<split>/<label>/<stem>.png]: the two [rstrip]
    calls of line 137 take off the extension and nothing of the stem. *)
Lemma samples_of_scan_stem path files split_dir label_dir stem :
  In (mkPng split_dir label_dir (stem ++ ".png")) files ->
  split_dir <> "ground_truth" ->
  (forall s', stem <> s' ++ ".") ->
  exists i,
    In (i, mkSample path split_dir label_dir
             (path ++ "/" ++ split_dir ++ "/" ++ label_dir ++ "/" ++ stem ++ ".png")
             (path ++ "/ground_truth/" ++ label_dir ++ "/" ++ stem ++ "_mask.png")
             None)
       (samples_of_scan path files).
Proof.
  intros Hin Hsplit Hstem.
  assert (Hname : rstrip "." (rstrip "png" (stem ++ ".png")) = stem).
  { rewrite rstrip_kept by (cbn; discriminate). cbn [rstrip mem_ascii].
    change (rstrip "png" ".png") with ".".
    rewrite rstrip_dropped by reflexivity.
    apply rstrip_unchanged. intros s' c Hs.
    cbn. destruct (Ascii.eqb_spec c "."%char) as [Hc|Hc]; [|reflexivity].
    subst c. exfalso. exact (Hstem s' Hs). }
  apply In_nth_error in Hin as [i Hi].
  exists i. unfold samples_of_scan.
  apply in_map_iff. exists (i, mkPng split_dir label_dir (stem ++ ".png")).
  cbn [fst snd png_split png_label png_name]. rewrite Hname. split; [reflexivity|].
  apply filter_In. split.
  - exact (combine_seq_In files 0 i _ Hi).
  - cbn. destruct (String.eqb_spec split_dir "ground_truth"); [contradiction | reflexivity].
Qed.

(** ** The table against the scan *)

Lemma filter_combine_seq {A} (keep : A -> bool) (l : list A) start :
  map snd (filter (fun ir => keep (snd ir)) (combine (seq start (length l)) l))
  = filter keep l.
Proof.
  revert start. induction l as [|a l IH]; intros start; cbn; [reflexivity|].
  destruct (keep a); cbn; now rewrite IH.
Qed.

(** The rows of the scan, each with the file it was built from. *)
Lemma samples_of_scan_rows path files :
  exists pairs : list (nat * PngFile),
    map snd pairs = image_files files /\
    samples_of_scan path files
    = map (fun ir => (fst ir,
                      mkSample path (png_split (snd ir)) (png_label (snd ir))
                        (image_path_of path (snd ir))
                        (path ++ "/ground_truth/" ++ png_label (snd ir) ++ "/"
                              ++ rstrip "." (rstrip "png" (png_name (snd ir))) ++ "_mask.png")
                        None)) pairs.
Proof.
  eexists. split; [|reflexivity].
  apply (filter_combine_seq (fun f => negb (png_split f =? "ground_truth")) files 0).
Qed.

Lemma finalize_image_path r : image_path (finalize r) = image_path r.
Proof. finalize_cases r. Qed.

Lemma finalize_path r : path (finalize r) = path r.
Proof. finalize_cases r. Qed.

Section WithGenerator.
Context {R : PyRandom}.

Lemma loc_indices_nil update (samples : DataFrame) :
  loc_indices [] update samples = samples.
Proof.
  unfold loc_indices. rewrite <- (map_id samples) at 2.
  apply map_ext. now intros [i r].
Qed.

(** A run of the reassignment that returns has drawn a count in range,
    and has only rewritten the split of the rows it selected. *)
Lemma split_normal_images_returns (samples : DataFrame) split_ratio seed g moved g' :
  split_normal_images_in_train_set samples split_ratio seed g = (Ok moved, g') ->
  exists k indices,
    num_normal_valid_images (count_rows is_normal_train samples) split_ratio = Ok k /\
    (0 <= k <= Z.of_nat (count_rows is_normal_train samples))%Z /\
    moved = loc_indices indices (set_split "test") samples /\
    (sample_without_replacement R ->
     length indices = Z.to_nat k /\ incl indices (index_where is_normal_train samples)).
Proof.
  unfold split_normal_images_in_train_set, bind, put, lift, ret.
  rewrite index_where_length.
  destruct (num_normal_valid_images _ split_ratio) as [k|e]; [|discriminate].
  unfold random_sample. rewrite index_where_length.
  destruct ((k <? 0)%Z || (Z.of_nat (count_rows is_normal_train samples) <? k)%Z) eqn:Hguard;
    [discriminate|].
  apply orb_false_iff in Hguard as [Hneg Hbig].
  apply Z.ltb_ge in Hneg, Hbig.
  destruct (rng_sample_positions (rng_seed seed) (count_rows is_normal_train samples)
              (Z.to_nat k)) as [js g''] eqn:Hjs.
  intros H; inversion H; subst. exists k. eexists.
  split; [reflexivity|]. split; [lia|]. split; [reflexivity|].
  intros Hc.
  destruct (Hc (rng_seed seed) (count_rows is_normal_train samples) (Z.to_nat k)
              ltac:(lia)) as [Hlen [_ Hlt]].
  rewrite Hjs in Hlen, Hlt. cbn in Hlen, Hlt.
  split; [now rewrite length_map|].
  intros i Hi. apply in_map_iff in Hi as [j [Heq Hj]]; subst.
  rewrite Forall_forall in Hlt. apply nth_In. rewrite index_where_length. auto.
Qed.

(** The table that [make_mvtec_samples] returns, from the scan. *)
Lemma make_mvtec_samples_returns path files split_ratio seed g samples g' :
  make_mvtec_samples path files split_ratio seed g = (Ok samples, g') ->
  files <> [] /\
  exists indices,
    samples = finalize_rows (loc_indices indices (set_split "test") (samples_of_scan path files)) /\
    (0 < count_rows is_normal_test (samples_of_scan path files) -> indices = [] /\ g' = g) /\
    (sample_without_replacement R ->
     forall i r, In (i, r) (samples_of_scan path files) -> In i indices ->
                 is_normal_train r = true).
Proof.
  intros Hrun. pose proof (make_mvtec_samples_scan _ _ _ _ _ _ _ Hrun) as Hscan.
  destruct files as [|f files]; [discriminate|].
  split; [discriminate|].
  rewrite make_mvtec_samples_eq in Hrun by assumption.
  set (scan := samples_of_scan path (f :: files)) in *.
  destruct (Nat.eqb (count_rows is_normal_test scan) 0) eqn:Hzero.
  - destruct (split_normal_images_in_train_set scan split_ratio seed g)
      as [[moved|e] g''] eqn:Hstep; [|discriminate].
    inversion Hrun; subst; clear Hrun.
    apply Nat.eqb_eq in Hzero.
    destruct (split_normal_images_returns _ _ _ _ _ _ Hstep)
      as [k [indices [Hk [Hrange [Hmoved Hsel]]]]].
    exists indices. subst moved. split; [reflexivity|]. split; [lia|].
    intros Hc i r Hin Hi.
    destruct (Hsel Hc) as [_ Hincl].
    apply Hincl, index_where_In in Hi as [r' [Hin' Hm]].
    now rewrite (index_unique scan i r r' (samples_of_scan_index path (f :: files)) Hin Hin').
  - unfold ret in Hrun. inversion Hrun; subst; clear Hrun.
    apply Nat.eqb_neq in Hzero.
    exists []. split.
    + now rewrite loc_indices_nil.
    + split; [auto|]. intros _ i r _ [].
Qed.

Lemma column_kept {A} (column : Sample -> A) indices v (samples : DataFrame) :
  (forall r, column (finalize r) = column r) ->
  (forall r, column (set_split v r) = column r) ->
  map column (rows (finalize_rows (loc_indices indices (set_split v) samples)))
  = map column (rows samples).
Proof.
  intros Hfinal Hsplit. unfold rows, finalize_rows, loc_indices.
  rewrite !map_map. apply map_ext. intros [i r]. cbn.
  destruct (mem_index i indices); cbn; now rewrite Hfinal, ?Hsplit.
Qed.

Lemma Forall2_map_In {A B C} (rel : B -> C -> Prop) (f : A -> B) (h : A -> C) (l : list A) :
  (forall x, In x l -> rel (f x) (h x)) -> Forall2 rel (map f l) (map h l).
Proof.
  induction l as [|x l IH]; intros Hrel; cbn; constructor.
  - apply Hrel. now left.
  - apply IH. intros y Hy. apply Hrel. now right.
Qed.

Lemma split_column_filter name (l : list Sample) :
  map split (filter (in_split name) l) = filter (fun s => s =? name) (map split l).
Proof.
  induction l as [|r l IH]; [reflexivity|].
  cbn. unfold in_split at 1. destruct (split r =? name); cbn; now rewrite IH.
Qed.

(** The columns of the full table that the reassignment and the final
    columns leave alone. *)
Lemma make_mvtec_samples_columns path files split_ratio seed g samples g' :
  make_mvtec_samples path files split_ratio seed g = (Ok samples, g') ->
  map image_path (rows samples) = map (image_path_of path) (image_files files) /\
  map label (rows samples) = map png_label (image_files files) /\
  map Mvtec.path (rows samples) = map (fun _ => path) (image_files files).
Proof.
  intros Hrun.
  destruct (make_mvtec_samples_returns _ _ _ _ _ _ _ Hrun) as [_ [indices [Htable _]]].
  destruct (samples_of_scan_rows path files) as [pairs [Hfiles Hscan]].
  assert (Hcolumn : forall {A} (column : Sample -> A),
             (forall r, column (finalize r) = column r) ->
             (forall r, column (set_split "test" r) = column r) ->
             map column (rows samples) = map column (rows (samples_of_scan path files))).
  { intros A column H1 H2. rewrite Htable. now apply column_kept. }
  rewrite <- Hfiles.
  split; [|split].
  - rewrite (Hcolumn _ image_path finalize_image_path (fun r => eq_refl)).
    rewrite Hscan. unfold rows. rewrite !map_map. reflexivity.
  - rewrite (Hcolumn _ label finalize_label (fun r => eq_refl)).
    rewrite Hscan. unfold rows. rewrite !map_map. reflexivity.
  - rewrite (Hcolumn _ Mvtec.path finalize_path (fun r => eq_refl)).
    rewrite Hscan. unfold rows. rewrite !map_map. reflexivity.
Qed.

(** X1.  For an image file [<stem>.png] outside [ground_truth], whose
    stem does not end in a dot, every full table that is built has a row
    for it, with image path [<path>/<split>/<label>/<stem>.png] and the
    label of its directory; the row's mask path is empty when the row is
    a normal test row (a [test/good] file, or a [train/good] file that
    was reassigned), and is [<path>/ground_truth/<label>/<stem>_mask.png]
    otherwise: the two [rstrip] calls of line 137 take off the extension
    and nothing of the stem.  The row is in the index returned for its
    split. *)
Theorem mask_path_of_stem path files split_ratio seed g samples g'
    split_dir label_dir stem :
  make_mvtec_samples path files split_ratio seed g = (Ok samples, g') ->
  In (mkPng split_dir label_dir (stem ++ ".png")) files ->
  split_dir <> "ground_truth" ->
  (forall s', stem <> s' ++ ".") ->
  exists i r,
    In (i, r) samples /\
    image_path r = path ++ "/" ++ split_dir ++ "/" ++ label_dir ++ "/" ++ stem ++ ".png" /\
    label r = label_dir /\
    mask_path r
    = (if is_normal_test r then ""
       else path ++ "/ground_truth/" ++ label_dir ++ "/" ++ stem ++ "_mask.png") /\
    exists returned,
      make_mvtec_dataset path files (split r) split_ratio seed g = (Ok returned, g') /\
      In r (rows returned).
Proof.
  intros Hrun Hfile Hsplit Hstem.
  destruct (samples_of_scan_stem path files split_dir label_dir stem Hfile Hsplit Hstem)
    as [i Hscan].
  destruct (make_mvtec_samples_returns _ _ _ _ _ _ _ Hrun) as [_ [indices [Htable _]]].
  set (row0 := mkSample path split_dir label_dir
                 (path ++ "/" ++ split_dir ++ "/" ++ label_dir ++ "/" ++ stem ++ ".png")
                 (path ++ "/ground_truth/" ++ label_dir ++ "/" ++ stem ++ "_mask.png")
                 None) in *.
  set (row1 := if mem_index i indices then set_split "test" row0 else row0).
  assert (Hin : In (i, finalize row1) samples).
  { rewrite Htable. unfold finalize_rows, loc_indices. rewrite map_map.
    apply in_map_iff. exists (i, row0). split; [|assumption].
    cbn [fst snd]. unfold row1. now destruct (mem_index i indices). }
  assert (Hfields : image_path row1 = image_path row0 /\ label row1 = label row0 /\
                    mask_path row1 = mask_path row0)
    by (unfold row1; destruct (mem_index i indices); cbn; auto).
  destruct Hfields as [Himage [Hlabel Hmask]].
  exists i, (finalize row1).
  split; [assumption|].
  split; [now rewrite finalize_image_path, Himage|].
  split; [now rewrite finalize_label, Hlabel|].
  split; [now rewrite finalize_mask_path, is_normal_test_finalize, Hmask|].
  eexists. rewrite make_mvtec_dataset_eq, Hrun. split; [reflexivity|].
  unfold rows. rewrite reset_index_rows.
  apply in_map_iff. exists (i, finalize row1). split; [reflexivity|].
  apply filter_In. split; [assumption|]. unfold in_split. cbn. apply String.eqb_refl.
Qed.

(** X2.  The full table lists the scanned image files (those outside
    [ground_truth]) one row per file, in scan order: its [image_path],
    [label] and [path] columns are those of the files, whatever the
    reassignment did; and the table returned for a split holds, in the
    same order, the rows of the full table that are in that split. *)
Theorem table_follows_scan path files name split_ratio seed g samples g' :
  make_mvtec_samples path files split_ratio seed g = (Ok samples, g') ->
  map image_path (rows samples) = map (image_path_of path) (image_files files) /\
  map label (rows samples) = map png_label (image_files files) /\
  map Mvtec.path (rows samples) = map (fun _ => path) (image_files files) /\
  length samples = length (image_files files) /\
  exists returned,
    make_mvtec_dataset path files name split_ratio seed g = (Ok returned, g') /\
    rows returned = filter (in_split name) (rows samples).
Proof.
  intros Hrun.
  destruct (make_mvtec_samples_columns _ _ _ _ _ _ _ Hrun) as [Himage [Hlabel Hpath]].
  split; [assumption|]. split; [assumption|]. split; [assumption|]. split.
  - transitivity (length (map label (rows samples)));
      [unfold rows; now rewrite !length_map|].
    rewrite Hlabel. apply length_map.
  - eexists. rewrite make_mvtec_dataset_eq, Hrun. split; [reflexivity|].
    unfold rows. rewrite reset_index_rows.
    clear. induction samples as [|[i r] rest IH]; [reflexivity|].
    cbn. destruct (in_split name r); cbn; now rewrite IH.
Qed.

(** X3.  The reassignment only ever moves normal training images to the
    test split: every row of the full table has the split of its file's
    directory, or is a row of a [train/good] file put in the test split.
    Anomalous rows and rows of other directories never change split. *)
Theorem only_normal_train_rows_move path files split_ratio seed g samples g' :
  sample_without_replacement R ->
  make_mvtec_samples path files split_ratio seed g = (Ok samples, g') ->
  Forall2 split_of_file (rows samples) (image_files files).
Proof.
  intros Hc Hrun.
  destruct (make_mvtec_samples_returns _ _ _ _ _ _ _ Hrun)
    as [_ [indices [Htable [_ Htrain]]]].
  specialize (Htrain Hc).
  destruct (samples_of_scan_rows path files) as [pairs [Hfiles Hscan]].
  rewrite <- Hfiles, Htable. unfold rows, finalize_rows, loc_indices.
  rewrite Hscan in Htrain |- *. rewrite !map_map.
  apply Forall2_map_In. intros [i f] Hin. cbn [fst snd].
  unfold split_of_file.
  destruct (mem_index i indices) eqn:Hm; cbn [fst snd]; rewrite finalize_split.
  - right. apply mem_index_In in Hm.
    assert (Hrow : is_normal_train
                     (mkSample path (png_split f) (png_label f) (image_path_of path f)
                        (path ++ "/ground_truth/" ++ png_label f ++ "/"
                              ++ rstrip "." (rstrip "png" (png_name f)) ++ "_mask.png")
                        None) = true).
    { apply (Htrain i); [|assumption].
      apply in_map_iff. exists (i, f). auto. }
    unfold is_normal_train in Hrow. cbn in Hrow.
    apply andb_true_iff in Hrow as [Hs Hl].
    apply String.eqb_eq in Hs, Hl. auto.
  - left. reflexivity.
Qed.

(** X4.  When the scan already has a normal test image, nothing is
    reassigned: the global generator is not reseeded, the ratio and the
    seed play no part, and every row has the split of its directory. *)
Theorem no_reassignment_with_normal_test path files name split_ratio seed g :
  0 < count_rows is_normal_test (samples_of_scan path files) ->
  exists samples,
    make_mvtec_dataset path files name split_ratio seed g = (Ok samples, g) /\
    (forall split_ratio' seed',
       make_mvtec_dataset path files name split_ratio' seed' g = (Ok samples, g)) /\
    rows samples
    = filter (in_split name) (map finalize (rows (samples_of_scan path files))) /\
    map split (rows samples)
    = filter (fun s => s =? name) (map png_split (image_files files)).
Proof.
  intros Hpos.
  assert (Hne : samples_of_scan path files <> [])
    by now apply (count_rows_nonempty is_normal_test).
  assert (Hrun : forall ratio' seed',
             make_mvtec_samples path files ratio' seed' g
             = (Ok (finalize_rows (samples_of_scan path files)), g)).
  { intros ratio' seed'. rewrite make_mvtec_samples_eq by assumption.
    destruct (count_rows is_normal_test (samples_of_scan path files)); [lia|reflexivity]. }
  assert (Hrows : rows (reset_index (filter (fun ir => in_split name (snd ir))
                                      (finalize_rows (samples_of_scan path files))))
                  = filter (in_split name) (map finalize (rows (samples_of_scan path files)))).
  { unfold rows, finalize_rows. rewrite reset_index_rows.
    generalize (samples_of_scan path files). clear.
    induction d as [|[i r] rest IH]; [reflexivity|].
    cbn. destruct (in_split name (finalize r)); cbn; now rewrite IH. }
  eexists. split; [|split; [|split]].
  - rewrite make_mvtec_dataset_eq, Hrun. reflexivity.
  - intros ratio' seed'. rewrite make_mvtec_dataset_eq, Hrun. reflexivity.
  - exact Hrows.
  - rewrite Hrows, split_column_filter, map_map.
    destruct (samples_of_scan_rows path files) as [pairs [Hfiles Hscan]].
    rewrite <- Hfiles, Hscan. unfold rows. rewrite !map_map. f_equal.
    apply map_ext. intros [i f]. cbn. now rewrite finalize_split.
Qed.

(** X5.  With no normal test image in the scan, a ratio whose count
    [int(n * split_ratio)] is negative or exceeds the number [n] of
    normal training images makes index construction fail with the
    [ValueError] of [random.sample], after the global generator has been
    reseeded. *)
Theorem out_of_range_ratio_raises path files name split_ratio seed g k :
  files <> [] ->
  count_rows is_normal_test (samples_of_scan path files) = 0 ->
  num_normal_valid_images (count_rows is_normal_train (samples_of_scan path files)) split_ratio
    = Ok k ->
  (k < 0 \/ Z.of_nat (count_rows is_normal_train (samples_of_scan path files)) < k)%Z ->
  make_mvtec_dataset path files name split_ratio seed g
  = (Raise (ValueError "Sample larger than population or is negative"), rng_seed seed).
Proof.
  intros Hne Hzero Hk Hrange.
  rewrite make_mvtec_dataset_eq, make_mvtec_samples_step by assumption.
  rewrite Hzero. cbn [Nat.eqb].
  unfold split_normal_images_in_train_set, bind, put, lift.
  rewrite index_where_length, Hk. unfold random_sample. rewrite index_where_length.
  assert (Hguard : ((k <? 0)%Z
                    || (Z.of_nat (count_rows is_normal_train (samples_of_scan path files))
                        <? k)%Z) = true).
  { apply orb_true_iff. destruct Hrange; [left | right]; now apply Z.ltb_lt. }
  now rewrite Hguard.
Qed.

(** X6.  When the scan has an image outside [ground_truth] and no
    normal test image, and the count [int(n * split_ratio)] is zero (a
    ratio of zero, or too few normal training images for the ratio), the
    full table is built and no row is reassigned: every row keeps the
    split of its directory and the test split has no normal row. *)
Theorem zero_count_moves_nothing path files split_ratio seed g :
  sample_without_replacement R -> image_files files <> [] ->
  count_rows is_normal_test (samples_of_scan path files) = 0 ->
  num_normal_valid_images (count_rows is_normal_train (samples_of_scan path files)) split_ratio
    = Ok 0%Z ->
  fst (make_mvtec_samples path files split_ratio seed g)
  = Ok (finalize_rows (samples_of_scan path files)) /\
  map split (rows (finalize_rows (samples_of_scan path files)))
  = map png_split (image_files files) /\
  count_rows is_normal_test (finalize_rows (samples_of_scan path files)) = 0.
Proof.
  intros Hc Hne Hzero Hk.
  apply (samples_of_scan_nonempty path) in Hne.
  split; [|split].
  - rewrite make_mvtec_samples_eq by assumption. rewrite Hzero. cbn [Nat.eqb].
    destruct (split_normal_images_in_train_set (samples_of_scan path files) split_ratio seed g)
      as [[moved|e] g'] eqn:Hstep.
    + destruct (split_normal_images_returns _ _ _ _ _ _ Hstep)
        as [k [indices [Hk' [_ [Hmoved Hsel]]]]].
      rewrite Hk in Hk'. inversion Hk'; subst k.
      destruct (Hsel Hc) as [Hlen _]. destruct indices; [|discriminate].
      cbn. now rewrite Hmoved, loc_indices_nil.
    + exfalso.
      destruct (split_normal_images_moves (samples_of_scan path files) split_ratio seed g 0
                  Hc (samples_of_scan_index path files) Hk ltac:(lia))
        as [indices [g'' [Hrun _]]].
      rewrite Hstep in Hrun. discriminate.
  - destruct (samples_of_scan_rows path files) as [pairs [Hfiles Hscan]].
    rewrite <- Hfiles, Hscan. unfold rows, finalize_rows. rewrite !map_map.
    apply map_ext. intros [i f]. cbn. now rewrite finalize_split.
  - rewrite count_rows_finalize by apply is_normal_test_finalize. assumption.
Qed.

(** ** Valid indices *)

Lemma samples_at_combine_seq (l : list Sample) start index :
  samples_at (combine (seq start (length l)) l) (start + index)
  = match nth_error l index with
    | Some r => Ok r
    | None => Raise (KeyError "index")
    end.
Proof.
  revert start index. induction l as [|r l IH]; intros start index.
  - destruct index; reflexivity.
  - cbn [length seq combine samples_at]. destruct index as [|index].
    + rewrite Nat.add_0_r, Nat.eqb_refl. reflexivity.
    + destruct (Nat.eqb_spec start (start + S index)) as [Heq|_]; [lia|].
      replace (start + S index) with (S start + index) by lia. apply IH.
Qed.

Lemma samples_at_In (samples : DataFrame) index row :
  samples_at samples index = Ok row -> In (index, row) samples.
Proof.
  induction samples as [|[i r] rest IH]; cbn; [discriminate|].
  destruct (Nat.eqb_spec i index) as [Heq|Hne].
  - intros H; inversion H; subst. now left.
  - intros H. right. auto.
Qed.

(** X7.  In a table that [make_mvtec_dataset] returns the index labels
    are the positions: [samples.<column>[index]] finds the row at
    position [index] for every [index] below the length, and raises
    [KeyError] from the length on. *)
Theorem index_labels_are_positions path files name split_ratio seed g samples g' :
  make_mvtec_dataset path files name split_ratio seed g = (Ok samples, g') ->
  forall index,
    samples_at samples index
    = match nth_error (rows samples) index with
      | Some r => Ok r
      | None => Raise (KeyError "index")
      end /\
    (index < len_dataset (mkDataset name "segmentation" samples) <->
     exists row, samples_at samples index = Ok row).
Proof.
  rewrite make_mvtec_dataset_eq.
  destruct (make_mvtec_samples path files split_ratio seed g) as [[full|e] g''];
    [|discriminate].
  intros H; inversion H; subst; clear H. intros index.
  set (kept := filter (fun ir => in_split name (snd ir)) full).
  assert (Hat : samples_at (reset_index kept) index
                = match nth_error (rows (reset_index kept)) index with
                  | Some r => Ok r
                  | None => Raise (KeyError "index")
                  end).
  { unfold rows. rewrite reset_index_rows. unfold reset_index.
    rewrite <- (length_map snd kept).
    exact (samples_at_combine_seq (map snd kept) 0 index). }
  split; [exact Hat|].
  rewrite Hat. unfold len_dataset. cbn [self_samples].
  rewrite <- (length_map snd (reset_index kept)). fold (rows (reset_index kept)).
  split.
  - intros Hlt. apply nth_error_Some in Hlt.
    destruct (nth_error (rows (reset_index kept)) index) as [r|]; [eauto | contradiction].
  - intros [row Hrow]. apply nth_error_Some.
    destruct (nth_error (rows (reset_index kept)) index); [discriminate | discriminate].
Qed.

End WithGenerator.

(** ** Items of a test dataset *)

Section TestItems.
Context {R : PyRandom}.
Variables Image Mask Tensor : Type.
Variable read_image : string -> result Image.
Variable imread_mask : string -> result Mask.
Variable zeros_mask : Image -> Mask.
Variable pre_process_image : Image -> Tensor.
Variable pre_process_image_mask : Image -> Mask -> Tensor * Tensor.

(** X8.  On a test dataset built by the constructor with the
    segmentation task, the item of a normal row is made without reading
    any mask file: its label is 0, its mask path is empty and its mask
    is the preprocessed all-zero mask.  The item of an anomalous row has
    label 1 and a non-empty mask path, and the accessor returns exactly
    when the mask at that path can be read. *)
Theorem test_items path files g self g' index row image :
  init_dataset path files "segmentation" false g = (Ok self, g') ->
  samples_at (self_samples self) index = Ok row ->
  read_image (image_path row) = Ok image ->
  (label row = "good" ->
   getitem read_image imread_mask zeros_mask pre_process_image pre_process_image_mask
     self index
   = Ok [("image_path", IStr (image_path row));
         ("label", IInt 0);
         ("mask_path", IStr "");
         ("image", ITensor (fst (pre_process_image_mask image (zeros_mask image))));
         ("mask", ITensor (snd (pre_process_image_mask image (zeros_mask image))))]) /\
  (label row <> "good" ->
   mask_path row <> "" /\
   getitem read_image imread_mask zeros_mask pre_process_image pre_process_image_mask
     self index
   = match imread_mask (mask_path row) with
     | Ok mask =>
         Ok [("image_path", IStr (image_path row));
             ("label", IInt 1);
             ("mask_path", IStr (mask_path row));
             ("image", ITensor (fst (pre_process_image_mask image mask)));
             ("mask", ITensor (snd (pre_process_image_mask image mask)))]
     | Raise e => Raise e
     end).
Proof.
  intros Hinit Hrow Himage.
  unfold init_dataset, bind, ret in Hinit.
  destruct (make_mvtec_dataset path files "test" ratio_0_1 0%Z g) as [[samples|e] g'']
    eqn:Hrun; [|discriminate].
  inversion Hinit; subst; clear Hinit. cbn [self_samples] in Hrow.
  pose proof (samples_at_In _ _ _ Hrow) as Hin.
  destruct (make_mvtec_dataset_rows _ _ _ _ _ _ _ _ Hrun index row Hin)
    as [Hsplit [Hli Hmask]].
  unfold getitem, rbind. cbn [self_samples self_split self_task].
  rewrite Hrow, Himage. cbn [String.eqb Ascii.eqb Bool.eqb orb andb].
  split.
  - intros Hgood. rewrite Hgood in Hli. cbn in Hli. rewrite Hli.
    assert (Hempty : mask_path row = "").
    { apply Hmask. unfold is_normal_test. rewrite Hsplit, Hgood. reflexivity. }
    rewrite Hempty. reflexivity.
  - intros Hbad.
    assert (Hl : (label row =? "good") = false) by now apply String.eqb_neq.
    rewrite Hl in Hli. rewrite Hli. split.
    + intros Hempty. apply Hmask in Hempty. unfold is_normal_test in Hempty.
      rewrite Hl, andb_false_r in Hempty. discriminate.
    + destruct (imread_mask (mask_path row)); reflexivity.
Qed.

End TestItems.

(** ** The data module *)

Lemma NoDup_map_eq {A B} (f : A -> B) (l : list A) a b :
  NoDup (map f l) -> In a l -> In b l -> f a = f b -> a = b.
Proof.
  induction l as [|x l IH]; cbn; intros Hnd Ha Hb Heq; [contradiction|].
  inversion Hnd as [|? ? Hnotin Hnd']; subst.
  destruct Ha as [Ha|Ha], Hb as [Hb|Hb]; subst; auto.
  - exfalso. apply Hnotin. rewrite Heq. now apply in_map.
  - exfalso. apply Hnotin. rewrite <- Heq. now apply in_map.
Qed.

Section Setup.
Context {R : PyRandom}.

(** The full table does not depend on the state the generator is in
    before the call. *)
Lemma make_mvtec_samples_any_state path files split_ratio seed g1 g2 :
  fst (make_mvtec_samples path files split_ratio seed g1)
  = fst (make_mvtec_samples path files split_ratio seed g2).
Proof.
  destruct files as [|f files]; [reflexivity|].
  rewrite !make_mvtec_samples_step by discriminate.
  set (scan := samples_of_scan path (f :: files)).
  destruct (Nat.eqb (count_rows is_normal_test scan) 0).
  - assert (Hstep : split_normal_images_in_train_set scan split_ratio seed g1
                    = split_normal_images_in_train_set scan split_ratio seed g2)
      by (unfold split_normal_images_in_train_set, bind, put; reflexivity).
    rewrite Hstep.
    destruct (split_normal_images_in_train_set scan split_ratio seed g2)
      as [[[|row moved]|e] g']; reflexivity.
  - unfold ret. destruct scan; reflexivity.
Qed.

(** [setup], run: the test dataset is built and assigned first, then,
    for the fit stage, the training dataset, from the same full table. *)
Lemma setup_run files stage g self :
  setup files stage (g, self) =
  match make_mvtec_samples (dataset_path self) files ratio_0_1 0%Z g with
  | (Raise e, g1) => (Raise e, (g1, self))
  | (Ok full, g1) =>
      let val := mkDataset "test" "segmentation"
                   (reset_index (filter (fun ir => in_split "test" (snd ir)) full)) in
      if stage_is_fit stage then
        (Ok tt,
         (snd (make_mvtec_samples (dataset_path self) files ratio_0_1 0%Z g1),
          set_train_data
            (mkDataset "train" "segmentation"
               (reset_index (filter (fun ir => in_split "train" (snd ir)) full)))
            (set_val_data val self)))
      else (Ok tt, (g1, set_val_data val self))
  end.
Proof.
  unfold setup, this, with_generator, assign, init_dataset. unfold bind, ret.
  cbn [fst snd]. rewrite make_mvtec_dataset_eq.
  destruct (make_mvtec_samples (dataset_path self) files ratio_0_1 0%Z g)
    as [[full|e] g1] eqn:Hval; [|reflexivity].
  cbn [fst snd]. destruct (stage_is_fit stage); [|reflexivity].
  cbn [fst snd dataset_path set_val_data]. rewrite make_mvtec_dataset_eq.
  pose proof (make_mvtec_samples_any_state (dataset_path self) files ratio_0_1 0%Z g1 g)
    as Hsame.
  rewrite Hval in Hsame. cbn [fst] in Hsame.
  destruct (make_mvtec_samples (dataset_path self) files ratio_0_1 0%Z g1) as [r g2].
  cbn [fst] in Hsame. subst r. reflexivity.
Qed.

(** X9.  After [setup] for the fit stage, the training and the
    validation dataset are cut from one and the same full table: the
    training dataset holds its train rows and the validation dataset its
    test rows, so that, the image paths of the scan being distinct, no
    image is in both. *)
Theorem setup_keeps_train_and_validation_apart files stage g self g' self' :
  stage_is_fit stage = true ->
  NoDup (map (image_path_of (dataset_path self)) (image_files files)) ->
  setup files stage (g, self) = (Ok tt, (g', self')) ->
  exists full g1 train val,
    make_mvtec_samples (dataset_path self) files ratio_0_1 0%Z g = (Ok full, g1) /\
    train_data self' = Some train /\ val_data self' = Some val /\
    self_split train = "train" /\ self_split val = "test" /\
    rows (self_samples train) = filter (in_split "train") (rows full) /\
    rows (self_samples val) = filter (in_split "test") (rows full) /\
    forall r1 r2,
      In r1 (rows (self_samples train)) -> In r2 (rows (self_samples val)) ->
      image_path r1 <> image_path r2.
Proof.
  intros Hfit Hpaths Hsetup. rewrite setup_run, Hfit in Hsetup.
  destruct (make_mvtec_samples (dataset_path self) files ratio_0_1 0%Z g)
    as [[full|e] g1] eqn:Hfull; [|discriminate].
  cbv zeta in Hsetup. inversion Hsetup; subst; clear Hsetup.
  assert (Hrows : forall name,
             rows (reset_index (filter (fun ir => in_split name (snd ir)) full))
             = filter (in_split name) (rows full)).
  { intros name. unfold rows. rewrite reset_index_rows. clear.
    induction full as [|[i r] rest IH]; [reflexivity|].
    cbn. destruct (in_split name r); cbn; now rewrite IH. }
  eexists full, g1, _, _. split; [reflexivity|].
  split; [reflexivity|]. split; [reflexivity|]. split; [reflexivity|].
  split; [reflexivity|]. cbn [self_samples].
  split; [apply Hrows|]. split; [apply Hrows|].
  rewrite !Hrows. intros r1 r2 H1 H2 Heq.
  apply filter_In in H1 as [H1 Hs1]. apply filter_In in H2 as [H2 Hs2].
  destruct (make_mvtec_samples_columns _ _ _ _ _ _ _ Hfull) as [Hcolumn _].
  rewrite <- Hcolumn in Hpaths.
  pose proof (NoDup_map_eq image_path (rows full) r1 r2 Hpaths H1 H2 Heq); subst r2.
  unfold in_split in Hs1, Hs2. apply String.eqb_eq in Hs1, Hs2. congruence.
Qed.

(** X10.  After [setup] for any other stage, only the validation
    dataset is assigned: the validation and the test loader are the same
    unshuffled loader over the test split, and on a module that had no
    training dataset the training loader raises [AttributeError]. *)
Theorem setup_for_test_stage files stage g self g' self' :
  stage_is_fit stage = false ->
  setup files stage (g, self) = (Ok tt, (g', self')) ->
  train_data self' = train_data self /\
  (exists val,
     val_data self' = Some val /\ self_split val = "test" /\
     fst (val_dataloader (g', self'))
     = Ok (mkLoader val false (test_batch_size self) (num_workers self)) /\
     fst (test_dataloader (g', self')) = fst (val_dataloader (g', self'))) /\
  (train_data self = None ->
   fst (train_dataloader (g', self'))
   = Raise (AttributeError "'Mvtec' object has no attribute 'train_data'")).
Proof.
  intros Hstage Hsetup. rewrite setup_run, Hstage in Hsetup.
  destruct (make_mvtec_samples (dataset_path self) files ratio_0_1 0%Z g)
    as [[full|e] g1]; [|discriminate].
  cbv zeta in Hsetup. inversion Hsetup; subst; clear Hsetup.
  split; [reflexivity|]. split.
  - eexists. split; [reflexivity|]. split; [reflexivity|]. split; reflexivity.
  - intros Hnone. unfold train_dataloader, bind, this. cbn. now rewrite Hnone.
Qed.

(** X11.  [setup] fails exactly when the test index cannot be built,
    with that error and with no dataset assigned; once the validation
    dataset is built, building the training dataset cannot fail. *)
Theorem setup_fails_with_the_index files stage g self :
  (forall e, fst (setup files stage (g, self)) = Raise e <->
             fst (make_mvtec_dataset (dataset_path self) files "test" ratio_0_1 0%Z g)
             = Raise e) /\
  (forall e, fst (setup files stage (g, self)) = Raise e ->
             snd (snd (setup files stage (g, self))) = self) /\
  (files = [] ->
   fst (setup files stage (g, self))
   = Raise (RuntimeError ("Found 0 images in " ++ dataset_path self))).
Proof.
  rewrite setup_run, make_mvtec_dataset_eq.
  split; [|split].
  - intros e.
    destruct (make_mvtec_samples (dataset_path self) files ratio_0_1 0%Z g)
      as [[full|e'] g1]; cbn [fst]; [|split; intros H; inversion H; reflexivity].
    cbv zeta. destruct (stage_is_fit stage); cbn; split; discriminate.
  - intros e.
    destruct (make_mvtec_samples (dataset_path self) files ratio_0_1 0%Z g)
      as [[full|e'] g1]; cbn [fst snd]; [|reflexivity].
    cbv zeta. destruct (stage_is_fit stage); cbn; discriminate.
  - intros ->. reflexivity.
Qed.

End Setup.

(** ** The constructor's default ratio *)

Section DefaultRatio.
Context {R : PyRandom}.

(** [int(n * 0.1)] is zero below ten. *)
Lemma default_ratio_below_ten n :
  n < 10 -> num_normal_valid_images n ratio_0_1 = Ok 0%Z.
Proof.
  intros Hn. do 10 (destruct n as [|n]; [vm_compute; reflexivity|]). lia.
Qed.

Lemma count_rows_zero mask (samples : DataFrame) r :
  count_rows mask samples = 0 -> In r (rows samples) -> mask r = false.
Proof.
  rewrite count_rows_rows. unfold rows. intros Hzero Hin.
  destruct (mask r) eqn:Hm; [|reflexivity].
  assert (Hf : In r (filter mask (map snd samples))) by (apply filter_In; auto).
  destruct (filter mask (map snd samples)); [contradiction | discriminate].
Qed.

(** With a count of zero the full table is the scan, finalized. *)
Lemma make_mvtec_samples_zero_count path files split_ratio seed g :
  sample_without_replacement R -> samples_of_scan path files <> [] ->
  count_rows is_normal_test (samples_of_scan path files) = 0 ->
  num_normal_valid_images (count_rows is_normal_train (samples_of_scan path files)) split_ratio
    = Ok 0%Z ->
  fst (make_mvtec_samples path files split_ratio seed g)
  = Ok (finalize_rows (samples_of_scan path files)).
Proof.
  intros Hc Hne Hzero Hk.
  rewrite make_mvtec_samples_eq by assumption. rewrite Hzero. cbn [Nat.eqb].
  destruct (split_normal_images_in_train_set (samples_of_scan path files) split_ratio seed g)
    as [[moved|e] g'] eqn:Hstep.
  - destruct (split_normal_images_returns _ _ _ _ _ _ Hstep)
      as [k [indices [Hk' [_ [Hmoved Hsel]]]]].
    rewrite Hk in Hk'. inversion Hk'; subst k.
    destruct (Hsel Hc) as [Hlen _]. destruct indices; [|discriminate].
    cbn. now rewrite Hmoved, loc_indices_nil.
  - exfalso.
    destruct (split_normal_images_moves (samples_of_scan path files) split_ratio seed g 0
                Hc (samples_of_scan_index path files) Hk ltac:(lia))
      as [indices [g'' [Hrun _]]].
    rewrite Hstep in Hrun. discriminate.
Qed.

(** X21.  The dataset constructor always uses the default ratio 0.1, and
    [int(n * 0.1)] is zero below ten: for a category with an image
    outside [ground_truth], no normal test image and fewer than ten
    normal training images, the test dataset is built, holds the test
    rows of the scan as they are, and has no normal row at all: every
    row is anomalous with label index 1. *)
Theorem default_ratio_needs_ten_images path files task g :
  sample_without_replacement R -> image_files files <> [] ->
  count_rows is_normal_test (samples_of_scan path files) = 0 ->
  count_rows is_normal_train (samples_of_scan path files) < 10 ->
  exists self g',
    init_dataset path files task false g = (Ok self, g') /\
    self_split self = "test" /\
    rows (self_samples self)
    = filter (in_split "test") (map finalize (rows (samples_of_scan path files))) /\
    Forall (fun r => label r <> "good" /\ label_index r = Some 1%Z)
      (rows (self_samples self)).
Proof.
  intros Hc Hne Hzero Hten.
  apply (samples_of_scan_nonempty path) in Hne.
  pose proof (make_mvtec_samples_zero_count path files ratio_0_1 0%Z g Hc Hne Hzero
                (default_ratio_below_ten _ Hten)) as Hrun.
  unfold init_dataset, bind, ret. rewrite make_mvtec_dataset_eq.
  destruct (make_mvtec_samples path files ratio_0_1 0%Z g) as [r g'].
  cbn [fst] in Hrun. subst r.
  eexists; eexists. split; [reflexivity|]. cbn [self_split self_samples].
  split; [reflexivity|].
  assert (Hrows : rows (reset_index
                          (filter (fun ir => in_split "test" (snd ir))
                             (finalize_rows (samples_of_scan path files))))
                  = filter (in_split "test")
                      (map finalize (rows (samples_of_scan path files)))).
  { unfold rows. rewrite reset_index_rows. unfold finalize_rows.
    generalize (samples_of_scan path files). intros samples.
    induction samples as [|[i r] rest IH]; [reflexivity|].
    cbn. destruct (in_split "test" (finalize r)); cbn; now rewrite IH. }
  split; [assumption|]. rewrite Hrows.
  apply Forall_forall. intros r Hin. apply filter_In in Hin as [Hin Hsplit].
  apply in_map_iff in Hin as [r0 [<- Hin0]].
  pose proof (count_rows_zero is_normal_test _ r0 Hzero Hin0) as Hnormal.
  rewrite in_split_finalize in Hsplit. unfold in_split in Hsplit.
  unfold is_normal_test in Hnormal. rewrite Hsplit in Hnormal. cbn in Hnormal.
  rewrite finalize_label, finalize_label_index, Hnormal.
  split; [|reflexivity]. intros Hgood. rewrite Hgood in Hnormal. discriminate.
Qed.

End DefaultRatio.

(** ** The global generator *)

Section GlobalGenerator.
Context {R : PyRandom}.

(** X24.  Building a dataset for a category whose scan has no normal
    test image reseeds Python's global generator with the seed 0: the
    state the constructor leaves it in, and the dataset it builds, do
    not depend on the state the generator was in before the call. *)
Theorem constructor_reseeds_global_generator path files task is_train g1 g2 :
  files <> [] ->
  count_rows is_normal_test (samples_of_scan path files) = 0 ->
  init_dataset path files task is_train g1 = init_dataset path files task is_train g2.
Proof.
  intros Hne Hzero.
  unfold init_dataset, bind. rewrite !make_mvtec_dataset_eq.
  rewrite !make_mvtec_samples_step by assumption. rewrite Hzero. cbn [Nat.eqb].
  reflexivity.
Qed.

End GlobalGenerator.

(** ** A scan with mask files only *)

Section GroundTruthOnly.
Context {R : PyRandom}.

(** [int(0 * split_ratio)] is zero, or the product is NaN. *)
Lemma num_normal_valid_images_zero split_ratio :
  num_normal_valid_images 0 split_ratio = Ok 0%Z \/
  num_normal_valid_images 0 split_ratio
  = Raise (ValueError "cannot convert float NaN to integer").
Proof.
  unfold num_normal_valid_images.
  change (float_of_int (Z.of_nat 0)) with (@Ok float (S754_zero false)).
  destruct split_ratio as [s|s| |s m e]; cbn; auto.
Qed.

(** X25.  A category directory whose PNG files are all under
    [ground_truth] passes the "Found 0 images" guard of line 125, leaves
    an empty table at line 129, and index construction ends in a
    [ValueError], for every split, ratio and seed: it never returns an
    empty index and never raises the [RuntimeError]. *)
Theorem ground_truth_only_scan_raises path files name split_ratio seed g :
  files <> [] -> image_files files = [] ->
  exists msg,
    fst (make_mvtec_dataset path files name split_ratio seed g) = Raise (ValueError msg) /\
    (num_normal_valid_images 0 split_ratio = Ok 0%Z ->
     msg = "cannot set a frame with no defined index and a scalar").
Proof.
  intros Hne Himages.
  assert (Hscan : samples_of_scan path files = []).
  { pose proof (samples_of_scan_length path files) as Hlen. rewrite Himages in Hlen.
    now destruct (samples_of_scan path files). }
  rewrite make_mvtec_dataset_eq, make_mvtec_samples_step by assumption.
  rewrite Hscan. cbn [count_rows filter length Nat.eqb].
  unfold split_normal_images_in_train_set, bind, put, lift.
  cbn [index_where filter map length].
  destruct (num_normal_valid_images_zero split_ratio) as [Hk | Hk]; rewrite Hk.
  - unfold random_sample. cbn [length Z.of_nat Z.ltb Z.compare orb].
    destruct (rng_sample_positions (rng_seed seed) 0 (Z.to_nat 0)) as [js g'].
    eexists. split; [reflexivity|]. reflexivity.
  - eexists. split; [reflexivity|]. discriminate.
Qed.

End GroundTruthOnly.

(** ** Concrete runs *)

Lemma mask_path_of_stem_witness :
  exists samples g',
    make_mvtec_samples (R := window_random) "MVTec/bottle" scan_three_train ratio_0_5 0%Z 7%Z
    = (Ok samples, g') /\
    exists i r,
      In (i, r) samples /\
      image_path r
      = "MVTec/bottle" ++ "/" ++ "train" ++ "/" ++ "good" ++ "/" ++ "000" ++ ".png" /\
      label r = "good" /\
      mask_path r
      = (if is_normal_test r then ""
         else "MVTec/bottle" ++ "/ground_truth/" ++ "good" ++ "/" ++ "000" ++ "_mask.png") /\
      exists returned,
        make_mvtec_dataset (R := window_random) "MVTec/bottle" scan_three_train (split r)
          ratio_0_5 0%Z 7%Z = (Ok returned, g') /\
        In r (rows returned).
Proof.
  eexists; eexists. split; [vm_compute; reflexivity|].
  apply (@mask_path_of_stem window_random "MVTec/bottle" scan_three_train ratio_0_5 0%Z
           7%Z _ 1%Z "train" "good" "000").
  - vm_compute; reflexivity.
  - cbn. auto.
  - discriminate.
  - intros s' H. destruct s' as [|a [|b [|c [|d s']]]]; cbn in H; discriminate H.
Defined.

Lemma table_follows_scan_witness :
  exists samples g',
    make_mvtec_samples (R := window_random) "MVTec/bottle" scan_three_train ratio_0_5 0%Z 7%Z
    = (Ok samples, g') /\
    map image_path (rows samples)
    = map (image_path_of "MVTec/bottle") (image_files scan_three_train) /\
    map label (rows samples) = map png_label (image_files scan_three_train) /\
    map Mvtec.path (rows samples)
    = map (fun _ => "MVTec/bottle") (image_files scan_three_train) /\
    length samples = length (image_files scan_three_train) /\
    exists returned,
      make_mvtec_dataset (R := window_random) "MVTec/bottle" scan_three_train "test"
        ratio_0_5 0%Z 7%Z = (Ok returned, g') /\
      rows returned = filter (in_split "test") (rows samples).
Proof.
  eexists; eexists. split; [vm_compute; reflexivity|].
  apply (@table_follows_scan window_random "MVTec/bottle" scan_three_train "test"
           ratio_0_5 0%Z 7%Z).
  vm_compute; reflexivity.
Defined.

Lemma only_normal_train_rows_move_witness :
  exists samples g',
    make_mvtec_samples (R := window_random) "MVTec/bottle" scan_three_train ratio_0_5 0%Z 7%Z
    = (Ok samples, g') /\
    Forall2 split_of_file (rows samples) (image_files scan_three_train).
Proof.
  eexists; eexists. split; [vm_compute; reflexivity|].
  apply (@only_normal_train_rows_move window_random "MVTec/bottle" scan_three_train
           ratio_0_5 0%Z 7%Z _ 1%Z).
  - exact window_random_without_replacement.
  - vm_compute; reflexivity.
Defined.

Lemma no_reassignment_with_normal_test_witness :
  exists samples,
    make_mvtec_dataset (R := window_random) "MVTec/bottle" scan_with_normal_test "test"
      ratio_0_1 0%Z 7%Z = (Ok samples, 7%Z) /\
    (forall split_ratio' seed',
       make_mvtec_dataset (R := window_random) "MVTec/bottle" scan_with_normal_test "test"
         split_ratio' seed' 7%Z = (Ok samples, 7%Z)) /\
    rows samples
    = filter (in_split "test")
        (map finalize (rows (samples_of_scan "MVTec/bottle" scan_with_normal_test))) /\
    map split (rows samples)
    = filter (fun s => s =? "test") (map png_split (image_files scan_with_normal_test)).
Proof.
  apply (@no_reassignment_with_normal_test window_random "MVTec/bottle"
           scan_with_normal_test "test" ratio_0_1 0%Z 7%Z).
  vm_compute. lia.
Defined.

Lemma out_of_range_ratio_raises_witness :
  make_mvtec_dataset (R := window_random) "MVTec/bottle" scan_three_train "test"
    ratio_1_5 0%Z 7%Z
  = (Raise (ValueError "Sample larger than population or is negative"),
     rng_seed (PyRandom := window_random) 0%Z).
Proof.
  apply (@out_of_range_ratio_raises window_random "MVTec/bottle" scan_three_train "test"
           ratio_1_5 0%Z 7%Z 4%Z).
  - discriminate.
  - reflexivity.
  - vm_compute; reflexivity.
  - right. vm_compute; reflexivity.
Defined.

Lemma zero_count_moves_nothing_witness :
  fst (make_mvtec_samples (R := window_random) "MVTec/bottle" scan_one_train ratio_0_1
         0%Z 7%Z)
  = Ok (finalize_rows (samples_of_scan "MVTec/bottle" scan_one_train)) /\
  map split (rows (finalize_rows (samples_of_scan "MVTec/bottle" scan_one_train)))
  = map png_split (image_files scan_one_train) /\
  count_rows is_normal_test (finalize_rows (samples_of_scan "MVTec/bottle" scan_one_train))
  = 0.
Proof.
  apply (@zero_count_moves_nothing window_random "MVTec/bottle" scan_one_train ratio_0_1
           0%Z 7%Z).
  - exact window_random_without_replacement.
  - discriminate.
  - reflexivity.
  - vm_compute; reflexivity.
Defined.

Lemma index_labels_are_positions_witness :
  samples_at [(0, reassigned_row); (1, broken_row)] 2
  = match nth_error (rows [(0, reassigned_row); (1, broken_row)]) 2 with
    | Some r => Ok r
    | None => Raise (KeyError "index")
    end /\
  (2 < len_dataset (mkDataset "test" "segmentation" [(0, reassigned_row); (1, broken_row)])
   <-> exists row, samples_at [(0, reassigned_row); (1, broken_row)] 2 = Ok row).
Proof.
  apply (@index_labels_are_positions window_random "MVTec/bottle" scan_three_train "test"
           ratio_0_5 0%Z 7%Z [(0, reassigned_row); (1, broken_row)] 1%Z).
  vm_compute; reflexivity.
Defined.

Lemma test_items_witness :
  exists self g' row,
    init_dataset (R := window_random) "MVTec/bottle" scan_with_normal_test "segmentation"
      false 7%Z = (Ok self, g') /\
    samples_at (self_samples self) 1 = Ok row /\
    (label row = "good" ->
     example_getitem self 1
     = Ok [("image_path", IStr (image_path row));
           ("label", IInt 0);
           ("mask_path", IStr "");
           ("image", ITensor tt);
           ("mask", ITensor tt)]) /\
    (label row <> "good" ->
     mask_path row <> "" /\
     example_getitem self 1
     = Ok [("image_path", IStr (image_path row));
           ("label", IInt 1);
           ("mask_path", IStr (mask_path row));
           ("image", ITensor tt);
           ("mask", ITensor tt)]).
Proof.
  eexists; eexists; eexists.
  split; [vm_compute; reflexivity|]. split; [vm_compute; reflexivity|].
  apply (@test_items window_random unit unit unit (fun _ => Ok tt) (fun _ => Ok tt)
           (fun _ => tt) (fun _ => tt) (fun _ _ => (tt, tt))
           "MVTec/bottle" scan_with_normal_test 7%Z _ 7%Z 1 _ tt);
    vm_compute; reflexivity.
Defined.

Lemma setup_keeps_train_and_validation_apart_witness :
  exists g' self',
    setup (R := window_random) scan_three_train None (7%Z, fresh_module "MVTec/bottle")
    = (Ok tt, (g', self')) /\
    exists full g1 train val,
      make_mvtec_samples (R := window_random) "MVTec/bottle" scan_three_train ratio_0_1
        0%Z 7%Z = (Ok full, g1) /\
      train_data self' = Some train /\ val_data self' = Some val /\
      self_split train = "train" /\ self_split val = "test" /\
      rows (self_samples train) = filter (in_split "train") (rows full) /\
      rows (self_samples val) = filter (in_split "test") (rows full) /\
      forall r1 r2,
        In r1 (rows (self_samples train)) -> In r2 (rows (self_samples val)) ->
        image_path r1 <> image_path r2.
Proof.
  eexists; eexists. split; [vm_compute; reflexivity|].
  eapply (@setup_keeps_train_and_validation_apart window_random scan_three_train None 7%Z
            (fresh_module "MVTec/bottle")).
  - reflexivity.
  - vm_compute. repeat (constructor; [cbn; intuition discriminate|]). constructor.
  - vm_compute; reflexivity.
Defined.

Lemma setup_for_test_stage_witness :
  exists g' self',
    setup (R := window_random) scan_three_train (Some "test")
      (7%Z, fresh_module "MVTec/bottle") = (Ok tt, (g', self')) /\
    train_data self' = train_data (fresh_module "MVTec/bottle") /\
    (exists val,
       val_data self' = Some val /\ self_split val = "test" /\
       fst (val_dataloader (g', self'))
       = Ok (mkLoader val false (test_batch_size (fresh_module "MVTec/bottle"))
               (num_workers (fresh_module "MVTec/bottle"))) /\
       fst (test_dataloader (g', self')) = fst (val_dataloader (g', self'))) /\
    (train_data (fresh_module "MVTec/bottle") = None ->
     fst (train_dataloader (g', self'))
     = Raise (AttributeError "'Mvtec' object has no attribute 'train_data'")).
Proof.
  eexists; eexists. split; [vm_compute; reflexivity|].
  match goal with
  | |- context [val_dataloader (?g', ?self')] =>
      apply (@setup_for_test_stage window_random scan_three_train (Some "test") 7%Z
               (fresh_module "MVTec/bottle") g' self')
  end.
  - reflexivity.
  - vm_compute; reflexivity.
Defined.

Lemma default_ratio_needs_ten_images_witness :
  exists self g',
    init_dataset (R := window_random) "MVTec/bottle" scan_three_train "segmentation" false
      7%Z = (Ok self, g') /\
    self_split self = "test" /\
    rows (self_samples self)
    = filter (in_split "test")
        (map finalize (rows (samples_of_scan "MVTec/bottle" scan_three_train))) /\
    Forall (fun r => label r <> "good" /\ label_index r = Some 1%Z)
      (rows (self_samples self)).
Proof.
  apply (@default_ratio_needs_ten_images window_random "MVTec/bottle" scan_three_train
           "segmentation" 7%Z).
  - exact window_random_without_replacement.
  - discriminate.
  - reflexivity.
  - vm_compute. lia.
Defined.

Lemma constructor_reseeds_global_generator_witness :
  init_dataset (R := window_random) "MVTec/bottle" scan_three_train "segmentation" false 7%Z
  = init_dataset (R := window_random) "MVTec/bottle" scan_three_train "segmentation" false
      42%Z.
Proof.
  apply (@constructor_reseeds_global_generator window_random "MVTec/bottle"
           scan_three_train "segmentation" false 7%Z 42%Z).
  - discriminate.
  - reflexivity.
Defined.

Lemma ground_truth_only_scan_raises_witness :
  exists msg,
    fst (make_mvtec_dataset (R := window_random) "MVTec/bottle" scan_only_ground_truth
           "test" ratio_0_1 0%Z 7%Z) = Raise (ValueError msg) /\
    (num_normal_valid_images 0 ratio_0_1 = Ok 0%Z ->
     msg = "cannot set a frame with no defined index and a scalar").
Proof.
  apply (@ground_truth_only_scan_raises window_random "MVTec/bottle"
           scan_only_ground_truth "test" ratio_0_1 0%Z 7%Z).
  - discriminate.
  - reflexivity.
Defined.

End MvtecCoverage.

(* ===================================================================== *)
(** * Further properties of the callback assembler                        *)
(* ===================================================================== *)

Module CallbacksCoverage.
Import Callbacks CallbacksSpec.

(** ** What the call writes *)

Lemma same_but_visualization_refl config : same_but_visualization config config.
Proof. now left. Qed.

Lemma same_but_visualization_trans a b c :
  same_but_visualization a b -> same_but_visualization b c -> same_but_visualization a c.
Proof.
  intros [Hab | [ta [tb [Ha [Hb Hab]]]]] [Hbc | [tb' [tc [Hb' [Hc Hbc]]]]]; subst.
  - now left.
  - right. eauto.
  - right. eauto 6.
  - inversion Hb'; subst. right. exists ta, tc. repeat split; try reflexivity.
    intros key Hkey. now rewrite Hbc, Hab.
Qed.

Lemma writes_visualization_only_read_only {A} (m : M node A) :
  read_only m -> writes_visualization_only m.
Proof. intros Hm config. left. symmetry. apply Hm. Qed.

Lemma writes_visualization_only_bind {A B} (m : M node A) (k : A -> M node B) :
  writes_visualization_only m -> (forall a, writes_visualization_only (k a)) ->
  writes_visualization_only (bind m k).
Proof.
  intros Hm Hk config. unfold bind. specialize (Hm config).
  destruct (m config) as [[a|e] s]; cbn [snd] in *; [|assumption].
  eapply same_but_visualization_trans; [exact Hm | apply Hk].
Qed.

Lemma put_visualization top section :
  same_but_visualization (NDict top) (NDict (assoc_set "visualization" section top)).
Proof.
  right. exists top. eexists. repeat split.
  intros key Hkey. now apply assoc_set_other.
Qed.

Section Writes.
Variable missing : missing_key.

Lemma set_visualization_writes key value :
  writes_visualization_only (set_visualization missing key value).
Proof.
  intros config. unfold set_visualization, bind. rewrite attr_run.
  destruct (getattrs missing config ["visualization"]) as [section|e];
    [|apply same_but_visualization_refl].
  unfold lift at 1. destruct (setitem section key value) as [section'|e];
    [|apply same_but_visualization_refl].
  unfold get, lift. destruct config; cbn; try apply same_but_visualization_refl.
  apply put_visualization.
Qed.

Lemma create_visualization_section_writes :
  writes_visualization_only (create_visualization_section missing).
Proof.
  intros config. unfold create_visualization_section, bind. rewrite has_key_run.
  destruct (getattrs missing config []) as [n|e]; [|apply same_but_visualization_refl].
  destruct (keys n) as [ks|e]; [|apply same_but_visualization_refl].
  destruct (negb (mem_string "visualization" ks)); [|apply same_but_visualization_refl].
  unfold get, lift. destruct config; cbn; try apply same_but_visualization_refl.
  apply put_visualization.
Qed.

Lemma set_visualization_flags_writes :
  writes_visualization_only (set_visualization_flags missing).
Proof.
  pose proof (attr_read_only missing) as Hattr.
  pose proof set_visualization_writes as Hset.
  unfold set_visualization_flags.
  repeat first
    [ apply Hset
    | apply writes_visualization_only_read_only;
      first [ apply Hattr | apply read_only_lift | apply read_only_ret ]
    | apply writes_visualization_only_bind; [|intros ?]
    | match goal with
      | |- writes_visualization_only (if ?b then _ else _) => destruct b
      end ].
Qed.

Lemma add_visualizer_callback_writes callbacks :
  writes_visualization_only (add_visualizer_callback missing callbacks).
Proof.
  unfold add_visualizer_callback.
  apply writes_visualization_only_bind;
    [apply writes_visualization_only_read_only, read_only_get | intros config].
  apply writes_visualization_only_bind.
  { apply writes_visualization_only_read_only.
    destruct config; first [apply read_only_ret | apply read_only_raise]. }
  intros _. apply writes_visualization_only_bind;
    [apply writes_visualization_only_read_only, log_images_to_is_set_read_only
    | intros deprecated].
  apply writes_visualization_only_bind.
  - destruct deprecated.
    + apply writes_visualization_only_bind;
        [apply create_visualization_section_writes | intros _].
      apply set_visualization_flags_writes.
    + apply writes_visualization_only_read_only, read_only_ret.
  - intros _. apply writes_visualization_only_read_only, visualizer_callback_read_only.
Qed.

(** X12.  Whatever the configuration, and whether the call returns or
    raises, [get_callbacks] writes nothing but the [visualization]
    section of the configuration object: every other top-level section
    is after the call what it was before. *)
Theorem get_callbacks_writes_visualization_only config :
  same_but_visualization config (snd (get_callbacks missing config)).
Proof.
  revert config. change (writes_visualization_only (get_callbacks missing)).
  unfold get_callbacks, remaining_callbacks.
  apply writes_visualization_only_bind;
    [apply writes_visualization_only_read_only, base_callbacks_read_only | intros c0].
  apply writes_visualization_only_bind;
    [apply writes_visualization_only_read_only, normalization_callback_read_only
    | intros c1].
  apply writes_visualization_only_bind; [apply add_visualizer_callback_writes | intros c2].
  apply writes_visualization_only_bind;
    [apply writes_visualization_only_read_only, optimization_callbacks_read_only
    | intros c3].
  apply writes_visualization_only_read_only, graph_logger_callback_read_only.
Qed.

End Writes.

(** ** The order of the hooks *)

Lemma sorted_app (a b : list nat) mid :
  StronglySorted lt a -> StronglySorted lt b ->
  Forall (fun x => x < mid) a -> Forall (fun y => mid <= y) b ->
  StronglySorted lt (a ++ b).
Proof.
  intros Ha Hb Hlt Hge. induction a as [|x a IH]; cbn; [assumption|].
  inversion Ha as [|? ? Hsa Hxa]; subst. inversion Hlt as [|? ? Hx Hla]; subst.
  constructor; [now apply IH|].
  apply Forall_app. split; [assumption|].
  eapply Forall_impl; [|exact Hge]. cbn. intros y Hy. lia.
Qed.

Lemma in_order_between_nil lo hi : in_order_between lo hi [].
Proof. split; constructor. Qed.

Lemma in_order_between_one lo hi c :
  lo <= stage_of c -> stage_of c < hi -> in_order_between lo hi [c].
Proof. intros Hlo Hhi. split; repeat constructor; assumption. Qed.

Lemma in_order_between_app lo mid hi a b :
  in_order_between lo mid a -> in_order_between mid hi b -> lo <= mid -> mid <= hi ->
  in_order_between lo hi (a ++ b).
Proof.
  intros [Hsa Hfa] [Hsb Hfb] Hlo Hhi. split.
  - rewrite map_app. apply sorted_app with (mid := mid); try assumption.
    + apply Forall_forall. intros n Hn. apply in_map_iff in Hn as [c [Hc Hin]]; subst.
      rewrite Forall_forall in Hfa. now apply Hfa.
    + apply Forall_forall. intros n Hn. apply in_map_iff in Hn as [c [Hc Hin]]; subst.
      rewrite Forall_forall in Hfb. now apply Hfb.
  - apply Forall_app. split.
    + eapply Forall_impl; [|exact Hfa]. cbn. intros c [H1 H2]. lia.
    + eapply Forall_impl; [|exact Hfb]. cbn. intros c [H1 H2]. lia.
Qed.

Lemma appends_none lo hi callbacks : appends lo hi callbacks callbacks.
Proof. exists []. split; [now rewrite app_nil_r | apply in_order_between_nil]. Qed.

Lemma appends_one lo hi callbacks c :
  lo <= stage_of c -> stage_of c < hi -> appends lo hi callbacks (callbacks ++ [c]).
Proof. intros Hlo Hhi. exists [c]. split; [reflexivity | now apply in_order_between_one]. Qed.

Lemma appends_trans lo mid hi a b c :
  appends lo mid a b -> appends mid hi b c -> lo <= mid -> mid <= hi -> appends lo hi a c.
Proof.
  intros [m1 [H1 Ho1]] [m2 [H2 Ho2]] Hlo Hhi. subst.
  exists (m1 ++ m2)%list. split; [now rewrite app_assoc|].
  now apply in_order_between_app with (mid := mid).
Qed.

Section Order.
Variable missing : missing_key.

Ltac appends_rules :=
  repeat (monad_rules;
          try (apply returns_ret;
               first [ apply appends_none
                     | apply appends_one; cbn; lia ])).

Lemma normalization_callback_appends callbacks :
  returns (appends 4 5 callbacks) (normalization_callback missing callbacks).
Proof. unfold normalization_callback, cdf_normalization_callback. appends_rules. Qed.

Lemma add_visualizer_callback_appends callbacks :
  returns (appends 5 6 callbacks) (add_visualizer_callback missing callbacks).
Proof. unfold add_visualizer_callback, visualizer_callback. appends_rules. Qed.

Lemma optimization_callbacks_appends callbacks :
  returns (appends 6 8 callbacks) (optimization_callbacks missing callbacks).
Proof.
  unfold optimization_callbacks.
  apply returns_bind; intros has_optimization.
  destruct has_optimization; [|apply returns_ret, appends_none].
  apply returns_bind; intros nncf.
  apply returns_bind_value with (P := appends 6 7 callbacks).
  - destruct nncf; appends_rules.
  - intros cbs Hcbs. apply returns_bind; intros openvino.
    destruct openvino.
    + repeat (apply returns_bind; intros ?). apply returns_ret.
      apply appends_trans with (mid := 7) (b := cbs); [assumption| |lia|lia].
      apply appends_one; cbn; lia.
    + apply returns_ret.
      apply appends_trans with (mid := 7) (b := cbs); [assumption| |lia|lia].
      apply appends_none.
Qed.

Lemma graph_logger_callback_appends callbacks :
  returns (appends 8 9 callbacks) (graph_logger_callback missing callbacks).
Proof. unfold graph_logger_callback. appends_rules. Qed.

(** The first block: checkpoint, timer and metrics hooks, then the
    weight loader when asked for. *)
Lemma base_callbacks_shape :
  returns (fun l => exists dirpath monitor mode adaptive it pt im pm,
             appends 3 4
               [ModelCheckpoint dirpath "model" monitor mode false;
                TimerCallback;
                MetricsConfigurationCallback adaptive it pt im pm] l)
    (base_callbacks missing).
Proof.
  unfold base_callbacks.
  repeat (monad_rules;
          try (apply returns_ret; do 8 eexists;
               first [ apply appends_none
                     | apply appends_one; cbn; lia ])).
Qed.

(** A call that returns has run its five blocks one after the other,
    the last three on the configuration the visualizer block left. *)
Lemma get_callbacks_returns config l :
  fst (get_callbacks missing config) = Ok l ->
  exists c0 c1 c2 c3 config',
    fst (base_callbacks missing config) = Ok c0 /\
    normalization_callback missing c0 config = (Ok c1, config) /\
    add_visualizer_callback missing c1 config = (Ok c2, config') /\
    optimization_callbacks missing c2 config' = (Ok c3, config') /\
    fst (graph_logger_callback missing c3 config') = Ok l.
Proof.
  unfold get_callbacks, remaining_callbacks. intros Hrun.
  pose proof (base_callbacks_read_only missing config) as Hbase.
  unfold bind at 1 in Hrun.
  destruct (base_callbacks missing config) as [[c0|e] s] eqn:H0; cbn in Hbase; subst;
    [|discriminate].
  pose proof (normalization_callback_read_only missing c0 config) as Hnorm.
  unfold bind at 1 in Hrun.
  destruct (normalization_callback missing c0 config) as [[c1|e] s] eqn:H1;
    cbn in Hnorm; subst; [|discriminate].
  unfold bind at 1 in Hrun.
  destruct (add_visualizer_callback missing c1 config) as [[c2|e] config'] eqn:Hvis;
    [|discriminate].
  pose proof (optimization_callbacks_read_only missing c2 config') as Hopt.
  unfold bind at 1 in Hrun.
  destruct (optimization_callbacks missing c2 config') as [[c3|e] s] eqn:H3;
    cbn in Hopt; subst; [|discriminate].
  exists c0, c1, c2, c3, config'. repeat split; auto.
Qed.

(** X13.  A list that [get_callbacks] returns starts with the
    checkpoint hook (file name "model"), the timer hook and the metrics
    hook, and goes on in the fixed order weight loader, normalization,
    visualizer, NNCF, OpenVINO, graph logger, each of these at most
    once. *)
Theorem hooks_come_in_order config l :
  fst (get_callbacks missing config) = Ok l ->
  (exists dirpath monitor mode adaptive it pt im pm rest,
     l = ModelCheckpoint dirpath "model" monitor mode false
         :: TimerCallback
         :: MetricsConfigurationCallback adaptive it pt im pm
         :: rest) /\
  StronglySorted lt (map stage_of l).
Proof.
  intros Hrun.
  destruct (get_callbacks_returns config l Hrun)
    as [c0 [c1 [c2 [c3 [config' [H0 [H1 [H2 [H3 H4]]]]]]]]].
  destruct (base_callbacks_shape config c0 H0)
    as [dirpath [monitor [mode [adaptive [it [pt [im [pm Hbase]]]]]]]].
  pose proof (normalization_callback_appends c0 config c1) as A1.
  rewrite H1 in A1. specialize (A1 eq_refl).
  pose proof (add_visualizer_callback_appends c1 config c2) as A2.
  rewrite H2 in A2. specialize (A2 eq_refl).
  pose proof (optimization_callbacks_appends c2 config' c3) as A3.
  rewrite H3 in A3. specialize (A3 eq_refl).
  pose proof (graph_logger_callback_appends c3 config' l H4) as A4.
  assert (Hall : appends 3 9
                   [ModelCheckpoint dirpath "model" monitor mode false;
                    TimerCallback;
                    MetricsConfigurationCallback adaptive it pt im pm] l).
  { eapply appends_trans with (mid := 8); [|exact A4|lia|lia].
    eapply appends_trans with (mid := 6); [|exact A3|lia|lia].
    eapply appends_trans with (mid := 5); [|exact A2|lia|lia].
    eapply appends_trans with (mid := 4); [exact Hbase|exact A1|lia|lia]. }
  destruct Hall as [more [Hl [Hsorted Hbound]]]. subst l. split.
  - do 8 eexists. exists more. reflexivity.
  - cbn [app map stage_of].
    repeat constructor; try assumption;
      try (apply Forall_forall; intros n Hn; apply in_map_iff in Hn as [c [Hc Hin]];
           subst; rewrite Forall_forall in Hbound; specialize (Hbound c Hin); lia).
Qed.

End Order.

(** ** CDF normalization and NNCF *)

Lemma getattrs_same missing a b key rest :
  same_but_visualization a b -> key <> "visualization" ->
  getattrs missing b (key :: rest) = getattrs missing a (key :: rest).
Proof.
  intros [Heq | [ta [tb [Ha [Hb Hsame]]]]] Hkey; subst; [reflexivity|].
  cbn. now rewrite (Hsame key Hkey).
Qed.

Lemma existsb_outside (p : Callback -> bool) stage lo hi more :
  (forall c, p c = true -> stage_of c = stage) ->
  stage < lo \/ hi <= stage ->
  in_order_between lo hi more -> existsb p more = false.
Proof.
  intros Hp Hout [_ Hbound].
  induction Hbound as [|c more [Hlo Hhi] _ IH]; [reflexivity|].
  cbn. rewrite IH, orb_false_r.
  destruct (p c) eqn:Hc; [|reflexivity].
  apply Hp in Hc. lia.
Qed.

Lemma is_cdf_stage c : is_cdf_callback c = true -> stage_of c = 4.
Proof. destruct c; cbn; congruence. Qed.

Lemma is_nncf_stage c : is_nncf_callback c = true -> stage_of c = 6.
Proof. destruct c; cbn; congruence. Qed.


Lemma existsb_appends (p : Callback -> bool) stage lo hi callbacks l :
  (forall c, p c = true -> stage_of c = stage) ->
  stage < lo \/ hi <= stage ->
  appends lo hi callbacks l -> existsb p l = existsb p callbacks.
Proof.
  intros Hp Hout [more [Hl Hmore]]. subst.
  rewrite existsb_app, (existsb_outside p stage lo hi more Hp Hout Hmore).
  apply orb_false_r.
Qed.

Section CdfAndNncf.
Variable missing : missing_key.

Lemma optimization_applies_same key a b :
  same_but_visualization a b ->
  fst (optimization_applies missing key b) = fst (optimization_applies missing key a).
Proof.
  intros Hsame. unfold optimization_applies, bind. rewrite !attr_run.
  rewrite (getattrs_same missing a b "optimization" [] Hsame) by discriminate.
  destruct (getattrs missing a ["optimization"]) as [optimization|e]; [|reflexivity].
  unfold lift. destruct (contains key optimization) as [[|]|e]; try reflexivity.
  rewrite !attr_run.
  rewrite (getattrs_same missing a b "optimization" [key; "apply"] Hsame) by discriminate.
  destruct (getattrs missing a ["optimization"; key; "apply"]); reflexivity.
Qed.

(** The CDF hook is appended only when the NNCF test of line 101 was
    made and did not hold. *)
Lemma normalization_callback_cdf callbacks config c1 :
  normalization_callback missing callbacks config = (Ok c1, config) ->
  existsb is_cdf_callback callbacks = false ->
  existsb is_cdf_callback c1 = true ->
  fst (optimization_applies missing "nncf" config) = Ok false.
Proof.
  intros Hrun Hbefore Hafter.
  destruct (fst (has_key missing "normalization_method" ["model"] config))
    as [[|]|e] eqn:Hhas.
  - apply model_key_of_has_key in Hhas as [method Hkey].
    rewrite (normalization_callback_present missing config callbacks method Hkey) in Hrun.
    destruct (is_missing method); [discriminate|].
    destruct (eq_str method "none"); [inversion Hrun; subst; congruence|].
    destruct (eq_str method "cdf").
    + unfold cdf_normalization_callback, bind in Hrun. rewrite attr_run in Hrun.
      destruct (getattrs missing config ["model"; "name"]) as [name|e]; [|discriminate].
      destruct (eq_str name "padim" || eq_str name "stfpm"); [|discriminate].
      destruct (optimization_applies missing "nncf" config) as [[[|]|e] s];
        try discriminate. reflexivity.
    + destruct (eq_str method "min_max"); [|discriminate].
      inversion Hrun; subst. rewrite existsb_app, Hbefore in Hafter. discriminate.
  - unfold normalization_callback, bind in Hrun.
    pose proof (has_key_read_only missing "normalization_method" ["model"] config) as Hro.
    destruct (has_key missing "normalization_method" ["model"] config) as [r s].
    cbn in Hhas, Hro; subst. cbn in Hrun. inversion Hrun; subst. congruence.
  - unfold normalization_callback, bind in Hrun.
    destruct (has_key missing "normalization_method" ["model"] config) as [r s].
    cbn in Hhas; subst. discriminate.
Qed.

(** When the NNCF test does not hold, the optimization block appends no
    NNCF hook. *)
Lemma optimization_callbacks_without_nncf callbacks config c3 :
  fst (optimization_applies missing "nncf" config) = Ok false ->
  fst (optimization_callbacks missing callbacks config) = Ok c3 ->
  existsb is_nncf_callback c3 = existsb is_nncf_callback callbacks.
Proof.
  intros Hnncf Hrun.
  pose proof (optimization_applies_read_only missing "nncf" config) as Hro.
  unfold optimization_callbacks in Hrun. unfold bind at 1 in Hrun.
  rewrite has_key_run in Hrun.
  destruct (getattrs missing config []) as [n|e]; [|discriminate].
  destruct (keys n) as [ks|e]; [|discriminate].
  destruct (mem_string "optimization" ks); [|inversion Hrun; reflexivity].
  unfold bind at 1 in Hrun.
  destruct (optimization_applies missing "nncf" config) as [r s].
  cbn in Hnncf, Hro; subst. unfold bind at 1 in Hrun. cbn [ret] in Hrun.
  assert (Hrest : returns (appends 7 8 callbacks)
                    (bind (optimization_applies missing "openvino")
                       (fun openvino =>
                          if openvino
                          then (input_size <- attr missing ["model"; "input_size"] ;;
                                project_path <- attr missing ["project"; "path"] ;;
                                dirpath <- lift (path_join project_path (NStr "openvino")) ;;
                                ret (callbacks
                                       ++ [OpenVINOCallback input_size dirpath
                                             "openvino_model"])%list)%py
                          else ret callbacks))).
  { apply returns_bind; intros openvino. destruct openvino.
    - repeat (apply returns_bind; intros ?). apply returns_ret.
      apply appends_one; cbn; lia.
    - apply returns_ret, appends_none. }
  apply Hrest in Hrun.
  apply (existsb_appends is_nncf_callback 6 7 8 callbacks c3 is_nncf_stage); [lia | assumption].
Qed.

(** X14.  [get_callbacks] never returns the CDF normalization hook
    together with the NNCF hook, although the configuration object is
    written between the two tests of the NNCF flag. *)
Theorem cdf_and_nncf_never_together config l :
  fst (get_callbacks missing config) = Ok l ->
  existsb is_cdf_callback l = true ->
  existsb is_nncf_callback l = false.
Proof.
  intros Hrun Hcdf.
  destruct (get_callbacks_returns missing config l Hrun)
    as [c0 [c1 [c2 [c3 [config' [H0 [H1 [H2 [H3 H4]]]]]]]]].
  destruct (base_callbacks_shape missing config c0 H0)
    as [dirpath [monitor [mode [adaptive [it [pt [im [pm Hbase]]]]]]]].
  pose proof (normalization_callback_appends missing c0 config c1) as A1.
  rewrite H1 in A1. specialize (A1 eq_refl).
  pose proof (add_visualizer_callback_appends missing c1 config c2) as A2.
  rewrite H2 in A2. specialize (A2 eq_refl).
  pose proof (optimization_callbacks_appends missing c2 config' c3) as A3.
  rewrite H3 in A3. specialize (A3 eq_refl).
  pose proof (graph_logger_callback_appends missing c3 config' l H4) as A4.
  (* the CDF hook comes from the normalization block *)
  assert (Hc0 : existsb is_cdf_callback c0 = false).
  { rewrite (existsb_appends is_cdf_callback 4 3 4 _ c0 is_cdf_stage ltac:(lia) Hbase).
    reflexivity. }
  assert (Hc1 : existsb is_cdf_callback c1 = true).
  { rewrite <- (existsb_appends is_cdf_callback 4 5 6 c1 c2 is_cdf_stage ltac:(lia) A2).
    rewrite <- (existsb_appends is_cdf_callback 4 6 8 c2 c3 is_cdf_stage ltac:(lia) A3).
    rewrite <- (existsb_appends is_cdf_callback 4 8 9 c3 l is_cdf_stage ltac:(lia) A4).
    assumption. }
  pose proof (normalization_callback_cdf c0 config c1 H1 Hc0 Hc1) as Hnncf.
  (* the visualizer block leaves the [optimization] section alone *)
  pose proof (add_visualizer_callback_writes missing c1 config) as Hsame.
  rewrite H2 in Hsame. cbn [snd] in Hsame.
  rewrite <- (optimization_applies_same "nncf" config config' Hsame) in Hnncf.
  (* so the optimization block appends no NNCF hook *)
  rewrite (existsb_appends is_nncf_callback 6 8 9 c3 l is_nncf_stage ltac:(lia) A4).
  rewrite (optimization_callbacks_without_nncf c2 config' c3 Hnncf
             ltac:(now rewrite H3)).
  rewrite (existsb_appends is_nncf_callback 6 5 6 c1 c2 is_nncf_stage ltac:(lia) A2).
  rewrite (existsb_appends is_nncf_callback 6 4 5 c0 c1 is_nncf_stage ltac:(lia) A1).
  rewrite (existsb_appends is_nncf_callback 6 3 4 _ c0 is_nncf_stage ltac:(lia) Hbase).
  reflexivity.
Qed.

End CdfAndNncf.

(** ** Which methods are refused *)

Section Refusals.
Variable missing : missing_key.

Lemma eq_str_true n literal : eq_str n literal = true -> n = NStr literal.
Proof.
  destruct n; cbn; try discriminate. intros H. apply String.eqb_eq in H. now subst.
Qed.

(** The normalization block raises [NotImplementedError] only in its
    CDF branch. *)
Lemma normalization_callback_not_implemented config callbacks msg :
  fst (normalization_callback missing callbacks config) = Raise (NotImplementedError msg) ->
  model_key config "normalization_method" = Some (NStr "cdf") /\
  exists name,
    getattrs missing config ["model"; "name"] = Ok name /\
    ((eq_str name "padim" || eq_str name "stfpm" = false /\
      msg = "Score Normalization is currently supported for PADIM and STFPM only.") \/
     (eq_str name "padim" || eq_str name "stfpm" = true /\
      fst (optimization_applies missing "nncf" config) = Ok true /\
      msg = "CDF Score Normalization is currently not compatible with NNCF.")).
Proof.
  intros Hraise.
  destruct (fst (has_key missing "normalization_method" ["model"] config))
    as [[|]|e] eqn:Hhas.
  - apply model_key_of_has_key in Hhas as [method Hkey].
    rewrite (normalization_callback_present missing config callbacks method Hkey) in Hraise.
    destruct (is_missing method); [discriminate|].
    destruct (eq_str method "none"); [discriminate|].
    destruct (eq_str method "cdf") eqn:Hcdf.
    + apply eq_str_true in Hcdf. subst method. split; [assumption|].
      unfold cdf_normalization_callback, bind in Hraise. rewrite attr_run in Hraise.
      destruct (getattrs missing config ["model"; "name"]) as [name|e] eqn:Hname.
      * exists name. split; [reflexivity|].
        destruct (eq_str name "padim" || eq_str name "stfpm").
        -- right.
           pose proof (optimization_applies_raises missing "nncf" config) as Hce.
           destruct (optimization_applies missing "nncf" config) as [[[|]|e] s];
             cbn in Hraise.
           ++ inversion Hraise. auto.
           ++ discriminate.
           ++ inversion Hraise; subst. exfalso. exact (Hce _ eq_refl).
        -- left. cbn in Hraise. inversion Hraise. auto.
      * cbn in Hraise. inversion Hraise; subst.
        apply getattrs_raises in Hname. contradiction.
    + destruct (eq_str method "min_max"); discriminate.
  - exfalso. unfold normalization_callback, bind in Hraise.
    pose proof (has_key_read_only missing "normalization_method" ["model"] config) as Hro.
    destruct (has_key missing "normalization_method" ["model"] config) as [r s].
    cbn in Hhas, Hro; subst. discriminate.
  - exfalso. unfold normalization_callback, bind in Hraise.
    pose proof (has_key_raises missing "normalization_method" ["model"] config e Hhas) as He.
    destruct (has_key missing "normalization_method" ["model"] config) as [r s].
    cbn in Hhas; subst. cbn in Hraise. inversion Hraise; subst. contradiction.
Qed.

(** X15.  Once the blocks before it have returned, [get_callbacks]
    raises [NotImplementedError] exactly when the normalization method is
    "cdf" and either the model name is neither "padim" nor "stfpm", or it
    is one of them and the NNCF flag of the [optimization] section is
    set; the message tells which. *)
Theorem not_implemented_exactly_for_cdf config callbacks :
  fst (base_callbacks missing config) = Ok callbacks ->
  forall msg,
    fst (get_callbacks missing config) = Raise (NotImplementedError msg) <->
    model_key config "normalization_method" = Some (NStr "cdf") /\
    exists name,
      getattrs missing config ["model"; "name"] = Ok name /\
      ((eq_str name "padim" || eq_str name "stfpm" = false /\
        msg = "Score Normalization is currently supported for PADIM and STFPM only.") \/
       (eq_str name "padim" || eq_str name "stfpm" = true /\
        fst (optimization_applies missing "nncf" config) = Ok true /\
        msg = "CDF Score Normalization is currently not compatible with NNCF.")).
Proof.
  intros Hbase msg. split.
  - rewrite (get_callbacks_after_base missing config callbacks Hbase). unfold bind.
    intros Hraise.
    destruct (normalization_callback missing callbacks config) as [[cbs|e] s] eqn:Hnorm.
    + apply remaining_callbacks_raises in Hraise. contradiction.
    + cbn in Hraise. inversion Hraise; subst.
      apply (normalization_callback_not_implemented config callbacks msg).
      now rewrite Hnorm.
  - intros [Hkey [name [Hname [[Hunsupported Hmsg] | [Hsupported [Hnncf Hmsg]]]]]]; subst msg.
    + apply orb_false_iff in Hunsupported as [Hp Hs].
      now rewrite (cdf_unsupported_model_raises missing config callbacks name
                     Hbase Hkey Hname Hp Hs).
    + now rewrite (cdf_with_nncf_raises missing config callbacks name
                     Hbase Hkey Hname Hsupported Hnncf).
Qed.


End Refusals.

(** ** The flags the deprecated key sets *)

Section Flags.
Variable missing : missing_key.

Lemma create_visualization_section_exact top :
  (assoc "visualization" top = None \/
   exists section, assoc "visualization" top = Some (NDict section)) ->
  exists top',
    create_visualization_section missing (NDict top) = (Ok tt, NDict top') /\
    assoc "visualization" top' = Some (NDict (visualization_before top)) /\
    forall key, key <> "visualization" -> assoc key top' = assoc key top.
Proof.
  intros Hcase. unfold create_visualization_section, bind. rewrite has_key_run. cbn.
  unfold visualization_before.
  destruct Hcase as [Hnone | [section Hsome]].
  - pose proof (proj2 (mem_string_assoc_none _ _) Hnone) as Hm. rewrite Hm, Hnone. cbn.
    eexists. split; [reflexivity|]. split; [apply assoc_set_same|].
    intros key Hkey. now apply assoc_set_other.
  - assert (Hm : mem_string "visualization" (map fst top) = true)
      by (apply mem_string_assoc; eauto).
    rewrite Hm, Hsome. cbn. exists top. auto.
Qed.

Lemma set_visualization_flags_exact top project items section :
  assoc "project" top = Some (NDict project) ->
  assoc "log_images_to" project = Some (NList items) ->
  assoc "visualization" top = Some (NDict section) ->
  exists top',
    set_visualization_flags missing (NDict top) = (Ok tt, NDict top') /\
    assoc "visualization" top' = Some (NDict (migrated_section items section)) /\
    forall key, key <> "visualization" -> assoc key top' = assoc key top.
Proof.
  intros Hproject Hitems Hsection.
  assert (Hread : forall top0, assoc "project" top0 = Some (NDict project) ->
            attr missing ["project"; "log_images_to"] (NDict top0)
            = (Ok (NList items), NDict top0)).
  { intros top0 H0. rewrite attr_run. cbn. rewrite H0. cbn. now rewrite Hitems. }
  unfold set_visualization_flags, migrated_section.
  unfold bind at 1. rewrite (Hread top Hproject).
  unfold bind at 1. unfold lift at 1. cbn [contains].
  set (has_local := existsb (fun item => eq_str item "local") items).
  unfold bind at 1.
  destruct has_local eqn:Hlocal.
  - rewrite (set_visualization_run missing top section _ _ Hsection).
    set (top1 := assoc_set "visualization"
                   (NDict (assoc_set "save_images" (NBool true) section)) top).
    assert (Hproject1 : assoc "project" top1 = Some (NDict project))
      by (unfold top1; rewrite assoc_set_other by discriminate; assumption).
    assert (Hsection1 : assoc "visualization" top1
                        = Some (NDict (assoc_set "save_images" (NBool true) section)))
      by (unfold top1; apply assoc_set_same).
    assert (Hframe1 : forall key, key <> "visualization" -> assoc key top1 = assoc key top)
      by (intros key Hkey; unfold top1; now apply assoc_set_other).
    unfold bind at 1. rewrite (Hread top1 Hproject1).
    unfold bind at 1. unfold lift at 1. cbn [contains]. fold has_local. rewrite Hlocal.
    cbn [negb orb]. unfold bind at 1. unfold bind at 1. rewrite (Hread top1 Hproject1).
    unfold bind at 1. unfold lift at 1. cbn [len ret].
    destruct (Nat.ltb 1 (length items)).
    + rewrite (set_visualization_run missing top1 _ _ _ Hsection1).
      eexists. split; [reflexivity|]. split; [apply assoc_set_same|].
      intros key Hkey. rewrite assoc_set_other by assumption. now apply Hframe1.
    + cbn [ret]. exists top1. auto.
  - cbn [ret]. unfold bind at 1. rewrite (Hread top Hproject).
    unfold bind at 1. unfold lift at 1. cbn [contains]. fold has_local. rewrite Hlocal.
    cbn [negb orb]. unfold bind at 1. cbn [ret].
    rewrite (set_visualization_run missing top section _ _ Hsection).
    eexists. split; [reflexivity|]. split; [apply assoc_set_same|].
    intros key Hkey. now apply assoc_set_other.
Qed.

(** With the deprecated key a non-empty list under [project], lines
    155-170 leave a configuration on which the rest of
    [add_visualizer_callback] runs. *)
Lemma deprecated_key_run top project items :
  assoc "project" top = Some (NDict project) ->
  assoc "log_images_to" project = Some (NList items) ->
  items <> [] ->
  (assoc "visualization" top = None \/
   exists section, assoc "visualization" top = Some (NDict section)) ->
  exists top',
    (forall callbacks,
       add_visualizer_callback missing callbacks (NDict top)
       = visualizer_callback missing callbacks (NDict top')) /\
    assoc "visualization" top'
    = Some (NDict (migrated_section items (visualization_before top))) /\
    forall key, key <> "visualization" -> assoc key top' = assoc key top.
Proof.
  intros Hproject Hitems Hne Hvis.
  destruct (create_visualization_section_exact top Hvis) as [top1 [Hc [Hs1 Hsame1]]].
  assert (Hproject1 : assoc "project" top1 = Some (NDict project))
    by (rewrite Hsame1 by discriminate; assumption).
  destruct (set_visualization_flags_exact top1 project items _ Hproject1 Hitems Hs1)
    as [top2 [Hf [Hs2 Hsame2]]].
  exists top2. split; [|split; [assumption|]].
  2:{ intros key Hkey. now rewrite Hsame2, Hsame1. }
  assert (Hset : log_images_to_is_set missing (NDict top) = (Ok true, NDict top)).
  { unfold log_images_to_is_set. unfold bind at 1. rewrite has_key_run.
    cbn -[Nat.ltb]. rewrite Hproject. cbn -[Nat.ltb].
    assert (Hm : mem_string "log_images_to" (map fst project) = true)
      by (apply mem_string_assoc; eauto).
    rewrite Hm. unfold bind at 1. unfold bind at 1. rewrite attr_run.
    cbn -[Nat.ltb]. rewrite Hproject. cbn -[Nat.ltb]. rewrite Hitems.
    unfold bind at 1. unfold lift. cbn -[Nat.ltb].
    destruct items; [contradiction | reflexivity]. }
  intros callbacks.
  unfold add_visualizer_callback. unfold bind at 1. unfold get at 1.
  unfold bind at 1. cbn [ret]. unfold bind at 1. rewrite Hset.
  unfold bind at 1. unfold bind at 1. now rewrite Hc, Hf.
Qed.

(** Once the first two blocks have returned, the call is the rest of
    the assembly on the same configuration. *)
Lemma get_callbacks_after_normalization config callbacks :
  fst (bind (base_callbacks missing) (normalization_callback missing) config)
  = Ok callbacks ->
  get_callbacks missing config = remaining_callbacks missing callbacks config.
Proof.
  intros Hbefore. unfold get_callbacks.
  pose proof (base_callbacks_read_only missing config) as Hbase.
  unfold bind at 1. unfold bind at 1 in Hbefore.
  destruct (base_callbacks missing config) as [[cbs|e] s]; cbn in Hbase; subst;
    [|discriminate].
  pose proof (normalization_callback_read_only missing cbs config) as Hnorm.
  unfold bind at 1.
  destruct (normalization_callback missing cbs config) as [[cbs'|e] s];
    cbn in Hnorm, Hbefore; subst; [|discriminate].
  now inversion Hbefore.
Qed.

(** X17.  With the deprecated key a non-empty list under [project],
    once the blocks before the visualizer have returned, the call leaves
    the configuration with a [visualization] section that is the one it
    had (or the default one of line 166 when it had none) with
    [save_images] set when "local" is listed and [log_images] set when
    "local" is not listed or is not the only entry; nothing else in the
    configuration is written, whether or not the later blocks return. *)
Theorem deprecated_key_sets_the_flags top project items callbacks :
  assoc "project" top = Some (NDict project) ->
  assoc "log_images_to" project = Some (NList items) ->
  items <> [] ->
  (assoc "visualization" top = None \/
   exists section, assoc "visualization" top = Some (NDict section)) ->
  fst (bind (base_callbacks missing) (normalization_callback missing) (NDict top))
  = Ok callbacks ->
  exists top',
    snd (get_callbacks missing (NDict top)) = NDict top' /\
    assoc "visualization" top'
    = Some (NDict (migrated_section items (visualization_before top))) /\
    forall key, key <> "visualization" -> assoc key top' = assoc key top.
Proof.
  intros Hproject Hitems Hne Hvis Hbefore.
  destruct (deprecated_key_run top project items Hproject Hitems Hne Hvis)
    as [top' [Hadd [Hsection Hsame]]].
  exists top'. split; [|split; assumption].
  rewrite (get_callbacks_after_normalization _ _ Hbefore).
  unfold remaining_callbacks. unfold bind at 1. rewrite Hadd.
  pose proof (visualizer_callback_read_only missing callbacks (NDict top')) as Hvisualizer.
  destruct (visualizer_callback missing callbacks (NDict top')) as [[cbs|e] s];
    cbn in Hvisualizer; subst; [|reflexivity].
  pose proof (optimization_callbacks_read_only missing cbs (NDict top')) as Hopt.
  unfold bind at 1.
  destruct (optimization_callbacks missing cbs (NDict top')) as [[cbs3|e] s];
    cbn in Hopt; subst; [|reflexivity].
  apply graph_logger_callback_read_only.
Qed.

End Flags.

(** ** Which optional hooks are there *)

Lemma is_load_model_stage c : is_load_model_callback c = true -> stage_of c = 3.
Proof. destruct c; cbn; congruence. Qed.

Lemma is_visualizer_stage c : is_visualizer_callback c = true -> stage_of c = 5.
Proof. destruct c; cbn; congruence. Qed.

Lemma is_openvino_stage c : is_openvino_callback c = true -> stage_of c = 7.
Proof. destruct c; cbn; congruence. Qed.

Lemma is_graph_logger_stage c : is_graph_logger c = true -> stage_of c = 8.
Proof. destruct c; cbn; congruence. Qed.

Lemma returns_at_ret {A} config (Q : A -> Prop) a :
  Q a -> returns_at config Q (ret a).
Proof. intros H b Hb. cbn in Hb. inversion Hb; subst. assumption. Qed.

Lemma returns_at_bind_value {A B} (m : M node A) (k : A -> M node B) config
    (P : A -> Prop) (Q : B -> Prop) :
  read_only m -> returns_at config P m ->
  (forall x, fst (m config) = Ok x -> P x -> returns_at config Q (k x)) ->
  returns_at config Q (bind m k).
Proof.
  intros Hro Hm Hk b Hb. unfold bind in Hb.
  specialize (Hro config). unfold returns_at in Hm, Hk.
  destruct (m config) as [[x|e] s]; cbn in Hro; subst; [|discriminate].
  apply (Hk x); [reflexivity | apply Hm; reflexivity | assumption].
Qed.

Lemma returns_at_bind {A B} (m : M node A) (k : A -> M node B) config (Q : B -> Prop) :
  read_only m ->
  (forall x, fst (m config) = Ok x -> returns_at config Q (k x)) ->
  returns_at config Q (bind m k).
Proof.
  intros Hro Hk.
  apply returns_at_bind_value with (P := fun _ => True); [assumption| |auto].
  intros a _. exact I.
Qed.

Ltac read_only_rules := repeat (monad_rules; auto with config).

Section OptionalHooks.
Variable missing : missing_key.

#[local] Hint Resolve attr_read_only has_key_read_only optimization_applies_read_only
  : config.

(** The weight loader is appended by the first block exactly when the
    membership test of line 94 holds. *)
Lemma base_callbacks_weight_loader config :
  returns_at config
    (fun l => existsb is_load_model_callback l = true <->
              fst (has_key missing "weight_file" ["model"] config) = Ok true)
    (base_callbacks missing).
Proof.
  unfold base_callbacks. cbv zeta.
  repeat (apply returns_at_bind; [read_only_rules | intros ? ?]).
  match goal with
  | H : fst (has_key missing "weight_file" ["model"] config) = Ok ?b |- _ =>
      rewrite H; destruct b
  end.
  - repeat (apply returns_at_bind; [read_only_rules | intros ? ?]).
    apply returns_at_ret. rewrite existsb_app. cbn. tauto.
  - apply returns_at_ret. cbn. split; discriminate.
Qed.

(** The optimization block appends each of its two hooks exactly when
    the [optimization] section is there and that hook's test holds. *)
Lemma optimization_callbacks_hooks config callbacks :
  existsb is_nncf_callback callbacks = false ->
  existsb is_openvino_callback callbacks = false ->
  returns_at config
    (fun l =>
       (existsb is_nncf_callback l = true <->
        fst (has_key missing "optimization" [] config) = Ok true /\
        fst (optimization_applies missing "nncf" config) = Ok true) /\
       (existsb is_openvino_callback l = true <->
        fst (has_key missing "optimization" [] config) = Ok true /\
        fst (optimization_applies missing "openvino" config) = Ok true))
    (optimization_callbacks missing callbacks).
Proof.
  intros Hn Ho. unfold optimization_callbacks.
  apply returns_at_bind; [read_only_rules | intros has Hhas]. rewrite Hhas.
  destruct has.
  2:{ apply returns_at_ret. rewrite Hn, Ho. split; split; try discriminate;
        intros [Habs _]; discriminate. }
  apply returns_at_bind; [read_only_rules | intros nncf Hnncf]. rewrite Hnncf.
  apply returns_at_bind_value
    with (P := fun l => existsb is_nncf_callback l = nncf /\
                        existsb is_openvino_callback l = false).
  - read_only_rules.
  - destruct nncf.
    + repeat (apply returns_at_bind; [read_only_rules | intros ? ?]).
      apply returns_at_ret. rewrite !existsb_app, Ho. cbn. split; [apply orb_true_r|reflexivity].
    + apply returns_at_ret. auto.
  - intros cbs _ [Hcn Hco].
    apply returns_at_bind; [read_only_rules | intros openvino Hopenvino]. rewrite Hopenvino.
    destruct openvino.
    + repeat (apply returns_at_bind; [read_only_rules | intros ? ?]).
      apply returns_at_ret. rewrite !existsb_app, Hcn, Hco. cbn. rewrite orb_false_r.
      split; split; try tauto.
      * intros ->. auto.
      * intros [_ Habs]. now inversion Habs.
    + apply returns_at_ret. rewrite Hcn, Hco.
      split; split; try tauto; try discriminate.
      * intros ->. auto.
      * intros [_ Habs]. now inversion Habs.
      * intros [_ Habs]. discriminate.
Qed.

(** The graph logger is appended exactly when [config.logging.log_graph]
    is neither [None] nor [False]. *)
Lemma graph_logger_callback_hook config callbacks :
  existsb is_graph_logger callbacks = false ->
  returns_at config
    (fun l => existsb is_graph_logger l = true <->
              exists v, getattrs missing config ["logging"; "log_graph"] = Ok v /\
                        in_none_false v = false)
    (graph_logger_callback missing callbacks).
Proof.
  intros Hg l. unfold graph_logger_callback, bind. rewrite attr_run.
  destruct (getattrs missing config ["logging"; "log_graph"]) as [v|e]; [|discriminate].
  destruct (in_none_false v) eqn:Hv; cbn; intros H; inversion H; subst.
  - rewrite Hg. split; [discriminate|]. intros [v' [Hv' Hf]]. inversion Hv'; subst. congruence.
  - rewrite existsb_app. cbn. rewrite orb_true_r. split; eauto.
Qed.

Lemma has_key_top_same key a b :
  same_but_visualization a b -> key <> "visualization" ->
  fst (has_key missing key [] b) = fst (has_key missing key [] a).
Proof.
  intros [Heq | [ta [tb [Ha [Hb Hsame]]]]] Hkey; subst; [reflexivity|].
  rewrite !has_key_run. cbn. f_equal.
  specialize (Hsame key Hkey).
  destruct (mem_string key (map fst ta)) eqn:Hta.
  - apply mem_string_assoc in Hta as [v Hv]. apply mem_string_assoc.
    exists v. congruence.
  - apply mem_string_assoc_none in Hta. apply mem_string_assoc_none. congruence.
Qed.

(** X19.  In a list that [get_callbacks] returns, each optional hook
    outside the normalization and visualizer blocks is there exactly
    when the passed configuration asks for it: the weight loader when
    [model] has a [weight_file], the NNCF and OpenVINO hooks when the
    [optimization] section is there and the hook's [apply] test holds,
    the graph logger when [logging.log_graph] is neither [None] nor
    [False]. *)
Theorem optional_hooks_as_configured config l :
  fst (get_callbacks missing config) = Ok l ->
  (existsb is_load_model_callback l = true <->
   fst (has_key missing "weight_file" ["model"] config) = Ok true) /\
  (existsb is_nncf_callback l = true <->
   fst (has_key missing "optimization" [] config) = Ok true /\
   fst (optimization_applies missing "nncf" config) = Ok true) /\
  (existsb is_openvino_callback l = true <->
   fst (has_key missing "optimization" [] config) = Ok true /\
   fst (optimization_applies missing "openvino" config) = Ok true) /\
  (existsb is_graph_logger l = true <->
   exists v, getattrs missing config ["logging"; "log_graph"] = Ok v /\
             in_none_false v = false).
Proof.
  intros Hrun.
  destruct (get_callbacks_returns missing config l Hrun)
    as [c0 [c1 [c2 [c3 [config' [H0 [H1 [H2 [H3 H4]]]]]]]]].
  destruct (base_callbacks_shape missing config c0 H0)
    as [dirpath [monitor [mode [adaptive [it [pt [im [pm Hbase]]]]]]]].
  pose proof (normalization_callback_appends missing c0 config c1) as A1.
  rewrite H1 in A1. specialize (A1 eq_refl).
  pose proof (add_visualizer_callback_appends missing c1 config c2) as A2.
  rewrite H2 in A2. specialize (A2 eq_refl).
  pose proof (optimization_callbacks_appends missing c2 config' c3) as A3.
  rewrite H3 in A3. specialize (A3 eq_refl).
  pose proof (graph_logger_callback_appends missing c3 config' l H4) as A4.
  pose proof (add_visualizer_callback_writes missing c1 config) as Hsame.
  rewrite H2 in Hsame. cbn [snd] in Hsame.
  assert (Hbefore : forall p stage,
             (forall c, p c = true -> stage_of c = stage) -> 6 <= stage ->
             existsb p c2 = false).
  { intros p stage Hp Hstage.
    rewrite (existsb_appends p stage 5 6 c1 c2 Hp ltac:(lia) A2).
    rewrite (existsb_appends p stage 4 5 c0 c1 Hp ltac:(lia) A1).
    rewrite (existsb_appends p stage 3 4 _ c0 Hp ltac:(lia) Hbase).
    cbn. rewrite !orb_false_r.
    destruct (p (ModelCheckpoint dirpath "model" monitor mode false)) eqn:E1;
      [apply Hp in E1; cbn in E1; lia|].
    destruct (p TimerCallback) eqn:E2; [apply Hp in E2; cbn in E2; lia|].
    destruct (p (MetricsConfigurationCallback adaptive it pt im pm)) eqn:E3;
      [apply Hp in E3; cbn in E3; lia|].
    reflexivity. }
  split; [|split; [|split]].
  - rewrite (existsb_appends _ 3 8 9 c3 l is_load_model_stage ltac:(lia) A4).
    rewrite (existsb_appends _ 3 6 8 c2 c3 is_load_model_stage ltac:(lia) A3).
    rewrite (existsb_appends _ 3 5 6 c1 c2 is_load_model_stage ltac:(lia) A2).
    rewrite (existsb_appends _ 3 4 5 c0 c1 is_load_model_stage ltac:(lia) A1).
    apply (base_callbacks_weight_loader config c0 H0).
  - rewrite (existsb_appends _ 6 8 9 c3 l is_nncf_stage ltac:(lia) A4).
    rewrite <- (has_key_top_same "optimization" config config' Hsame) by discriminate.
    rewrite <- (optimization_applies_same missing "nncf" config config' Hsame).
    apply (optimization_callbacks_hooks config' c2
             (Hbefore _ 6 is_nncf_stage ltac:(lia))
             (Hbefore _ 7 is_openvino_stage ltac:(lia)) c3).
    now rewrite H3.
  - rewrite (existsb_appends _ 7 8 9 c3 l is_openvino_stage ltac:(lia) A4).
    rewrite <- (has_key_top_same "optimization" config config' Hsame) by discriminate.
    rewrite <- (optimization_applies_same missing "openvino" config config' Hsame).
    apply (optimization_callbacks_hooks config' c2
             (Hbefore _ 6 is_nncf_stage ltac:(lia))
             (Hbefore _ 7 is_openvino_stage ltac:(lia)) c3).
    now rewrite H3.
  - rewrite <- (getattrs_same missing config config' "logging" ["log_graph"] Hsame)
      by discriminate.
    apply (graph_logger_callback_hook config' c3); [|assumption].
    rewrite (existsb_appends _ 8 6 8 c2 c3 is_graph_logger_stage ltac:(lia) A3).
    apply (Hbefore _ 8 is_graph_logger_stage). lia.
Qed.

End OptionalHooks.

(** ** What the visualizer hook is built from *)

Section Visualizer.
Variable missing : missing_key.

#[local] Hint Resolve attr_read_only has_key_read_only optimization_applies_read_only
  : config.

Lemma attr_returns path config v :
  fst (attr missing path config) = Ok v -> getattrs missing config path = Ok v.
Proof. now rewrite attr_run. Qed.

Lemma existsb_false_In {A} (p : A -> bool) l x :
  existsb p l = false -> In x l -> p x = false.
Proof.
  intros Hl Hin. destruct (p x) eqn:Hp; [|reflexivity].
  assert (existsb p l = true) by (apply existsb_exists; eauto). congruence.
Qed.

(** The visualizer block, on the configuration it runs on. *)
Lemma visualizer_callback_hook config callbacks :
  existsb is_visualizer_callback callbacks = false ->
  returns_at config
    (fun l =>
       (existsb is_visualizer_callback l = true <->
        fst (visualization_enabled missing config) = Ok true) /\
       forall c, In c l -> is_visualizer_callback c = true ->
                 visualizer_built_from missing config c)
    (visualizer_callback missing callbacks).
Proof.
  intros Hnone. unfold visualizer_callback.
  apply returns_at_bind; [read_only_rules | intros log_images Hlog].
  apply returns_at_bind; [read_only_rules | intros enabled Henabled].
  assert (Htest : fst (visualization_enabled missing config) = Ok enabled).
  { unfold visualization_enabled. unfold bind at 1.
    rewrite attr_run in Hlog |- *. cbn [fst] in Hlog. now rewrite Hlog. }
  rewrite Htest. destruct enabled.
  2:{ apply returns_at_ret. rewrite Hnone. split; [split; discriminate|].
      intros c Hin Hc. rewrite (existsb_false_In _ _ _ Hnone Hin) in Hc. discriminate. }
  apply returns_at_bind; [read_only_rules | intros configured Hconfigured].
  apply returns_at_bind; [read_only_rules | intros image_save_path Hpath].
  apply returns_at_bind; [read_only_rules | intros task Htask].
  apply returns_at_bind; [read_only_rules | intros mode Hmode].
  apply returns_at_bind; [read_only_rules | intros method Hmethod].
  apply returns_at_bind; [read_only_rules | intros show Hshow].
  apply returns_at_bind; [read_only_rules | intros log Hlog'].
  apply returns_at_bind; [read_only_rules | intros save Hsave].
  apply returns_at_ret. split.
  - rewrite existsb_app. cbn. rewrite orb_true_r. tauto.
  - intros c Hin Hc. apply in_app_or in Hin as [Hin | [<- | []]].
    + rewrite (existsb_false_In _ _ _ Hnone Hin) in Hc. discriminate.
    + cbn [visualizer_built_from].
      apply attr_returns in Htask, Hmode, Hmethod, Hshow, Hlog', Hsave, Hconfigured.
      repeat (split; [assumption|]); try assumption.
      split; [|split; [eauto|auto]].
      exists configured. split; [assumption|].
      destruct (truthy configured).
      * apply attr_returns in Hpath. congruence.
      * unfold bind in Hpath. rewrite attr_run in Hpath.
        destruct (getattrs missing config ["project"; "path"]) as [[| | |p| |]|e] eqn:Hroot;
          cbn in Hpath; try discriminate.
        inversion Hpath; subst. exists p. split; reflexivity.
Qed.

(** When [add_visualizer_callback] returns, its last block ran on the
    configuration it leaves. *)
Lemma add_visualizer_callback_last callbacks config l config' :
  add_visualizer_callback missing callbacks config = (Ok l, config') ->
  visualizer_callback missing callbacks config' = (Ok l, config').
Proof.
  unfold add_visualizer_callback. unfold bind at 1. unfold get at 1.
  unfold bind at 1.
  destruct (match config with NDict _ => ret tt | _ => raise (AssertionError "") end config)
    as [[[]|e] s1] eqn:Hassert; [|discriminate].
  unfold bind at 1.
  destruct (log_images_to_is_set missing s1) as [[deprecated|e] s2]; [|discriminate].
  unfold bind at 1.
  destruct ((if deprecated
             then (create_visualization_section missing ;;;
                   set_visualization_flags missing)%py
             else ret tt) s2) as [[[]|e] s3]; [|discriminate].
  intros Hrun.
  pose proof (visualizer_callback_read_only missing callbacks s3) as Hro.
  rewrite Hrun in Hro. cbn in Hro. now subst.
Qed.

Lemma get_callbacks_final config l c0 c1 c2 c3 config' :
  fst (base_callbacks missing config) = Ok c0 ->
  normalization_callback missing c0 config = (Ok c1, config) ->
  add_visualizer_callback missing c1 config = (Ok c2, config') ->
  optimization_callbacks missing c2 config' = (Ok c3, config') ->
  fst (graph_logger_callback missing c3 config') = Ok l ->
  snd (get_callbacks missing config) = config'.
Proof.
  intros H0 H1 H2 H3 H4.
  rewrite (get_callbacks_after_base missing config c0 H0).
  unfold bind at 1. rewrite H1. unfold remaining_callbacks.
  unfold bind at 1. rewrite H2. unfold bind at 1. rewrite H3.
  apply graph_logger_callback_read_only.
Qed.

(** X20.  In a list that [get_callbacks] returns, the visualizer hook is
    there exactly when the test of line 171 holds on the configuration
    as the call leaves it, that is with the flags the deprecated key may
    have set; and the hook's arguments are read from that configuration,
    its image path being [<project.path>/images] when none is
    configured. *)
Theorem visualizer_follows_final_configuration config l :
  fst (get_callbacks missing config) = Ok l ->
  (existsb is_visualizer_callback l = true <->
   fst (visualization_enabled missing (snd (get_callbacks missing config))) = Ok true) /\
  Forall (visualizer_built_from missing (snd (get_callbacks missing config))) l.
Proof.
  intros Hrun.
  destruct (get_callbacks_returns missing config l Hrun)
    as [c0 [c1 [c2 [c3 [config' [H0 [H1 [H2 [H3 H4]]]]]]]]].
  rewrite (get_callbacks_final config l c0 c1 c2 c3 config' H0 H1 H2 H3 H4).
  destruct (base_callbacks_shape missing config c0 H0)
    as [dirpath [monitor [mode [adaptive [it [pt [im [pm Hbase]]]]]]]].
  pose proof (normalization_callback_appends missing c0 config c1) as A1.
  rewrite H1 in A1. specialize (A1 eq_refl).
  pose proof (optimization_callbacks_appends missing c2 config' c3) as A3.
  rewrite H3 in A3. specialize (A3 eq_refl).
  pose proof (graph_logger_callback_appends missing c3 config' l H4) as A4.
  assert (Hc1 : existsb is_visualizer_callback c1 = false).
  { rewrite (existsb_appends _ 5 4 5 c0 c1 is_visualizer_stage ltac:(lia) A1).
    rewrite (existsb_appends _ 5 3 4 _ c0 is_visualizer_stage ltac:(lia) Hbase).
    reflexivity. }
  pose proof (add_visualizer_callback_last c1 config c2 config' H2) as Hlast.
  destruct (visualizer_callback_hook config' c1 Hc1 c2) as [Hpresent Hbuilt];
    [now rewrite Hlast|].
  split.
  - rewrite (existsb_appends _ 5 8 9 c3 l is_visualizer_stage ltac:(lia) A4).
    rewrite (existsb_appends _ 5 6 8 c2 c3 is_visualizer_stage ltac:(lia) A3).
    exact Hpresent.
  - destruct A4 as [more4 [-> [_ Hmore4]]]. destruct A3 as [more3 [-> [_ Hmore3]]].
    apply Forall_forall. intros c Hin.
    destruct (is_visualizer_callback c) eqn:Hc; [|destruct c; try exact I; discriminate].
    apply in_app_or in Hin as [Hin | Hin].
    + apply in_app_or in Hin as [Hin | Hin]; [now apply Hbuilt|].
      rewrite Forall_forall in Hmore3. apply Hmore3 in Hin.
      apply is_visualizer_stage in Hc. lia.
    + rewrite Forall_forall in Hmore4. apply Hmore4 in Hin.
      apply is_visualizer_stage in Hc. lia.
Qed.

End Visualizer.

(** ** What the first three hooks are built from *)

Section FirstHooks.
Variable missing : missing_key.

#[local] Hint Resolve attr_read_only has_key_read_only optimization_applies_read_only
  : config.

Lemma read_if_present config key section path default present value :
  fst (has_key missing key section config) = Ok present ->
  fst ((if present then attr missing path else ret default) config) = Ok value ->
  read_or_default missing config key section path default value.
Proof.
  intros Hpresent Hvalue. exists present. split; [assumption|].
  destruct present; [now rewrite attr_run in Hvalue|].
  cbn in Hvalue. now inversion Hvalue.
Qed.

Lemma read_unless_absent config key section path default absent value :
  fst ((b <- has_key missing key section ;; ret (negb b))%py config) = Ok absent ->
  fst ((if absent then ret default else attr missing path) config) = Ok value ->
  read_or_default missing config key section path default value.
Proof.
  intros Habsent Hvalue. exists (negb absent). split.
  - unfold bind in Habsent.
    destruct (has_key missing key section config) as [[b|e] s]; [|discriminate].
    cbn in Habsent |- *. inversion Habsent; subst. now rewrite negb_involutive.
  - destruct absent; cbn [negb]; [|now rewrite attr_run in Hvalue].
    cbn in Hvalue. now inversion Hvalue.
Qed.

(** The first block, on the configuration it runs on. *)
Lemma base_callbacks_built config :
  returns_at config
    (fun l =>
       exists dirpath monitor mode adaptive it pt im pm more,
         l = ([ModelCheckpoint dirpath "model" monitor mode false;
               TimerCallback;
               MetricsConfigurationCallback adaptive it pt im pm] ++ more)%list /\
         read_or_default missing config "early_stopping" ["model"]
           ["model"; "early_stopping"; "metric"] NNone monitor /\
         read_or_default missing config "early_stopping" ["model"]
           ["model"; "early_stopping"; "mode"] (NStr "max") mode /\
         (exists project_path,
            getattrs missing config ["project"; "path"] = Ok project_path /\
            path_join project_path (NStr "weights") = Ok dirpath) /\
         getattrs missing config ["metrics"; "threshold"; "adaptive"] = Ok adaptive /\
         read_or_default missing config "image_default" ["metrics"; "threshold"]
           ["metrics"; "threshold"; "image_default"] NNone it /\
         read_or_default missing config "pixel_default" ["metrics"; "threshold"]
           ["metrics"; "threshold"; "pixel_default"] NNone pt /\
         read_or_default missing config "image" ["metrics"] ["metrics"; "image"] NNone im /\
         read_or_default missing config "pixel" ["metrics"] ["metrics"; "pixel"] NNone pm)
    (base_callbacks missing).
Proof.
  unfold base_callbacks. cbv zeta.
  apply returns_at_bind; [read_only_rules | intros absent1 Habsent1].
  apply returns_at_bind; [read_only_rules | intros monitor Hmonitor].
  apply returns_at_bind; [read_only_rules | intros absent2 Habsent2].
  apply returns_at_bind; [read_only_rules | intros mode Hmode].
  apply returns_at_bind; [read_only_rules | intros project_path Hproject].
  apply returns_at_bind; [read_only_rules | intros dirpath Hdirpath].
  apply returns_at_bind; [read_only_rules | intros [] _].
  apply returns_at_bind; [read_only_rules | intros has_image Hhas_image].
  apply returns_at_bind; [read_only_rules | intros im Him].
  apply returns_at_bind; [read_only_rules | intros has_pixel Hhas_pixel].
  apply returns_at_bind; [read_only_rules | intros pm Hpm].
  apply returns_at_bind; [read_only_rules | intros has_it Hhas_it].
  apply returns_at_bind; [read_only_rules | intros it Hit].
  apply returns_at_bind; [read_only_rules | intros has_pt Hhas_pt].
  apply returns_at_bind; [read_only_rules | intros pt Hpt].
  apply returns_at_bind; [read_only_rules | intros adaptive Hadaptive].
  apply returns_at_bind; [read_only_rules | intros has_weight_file _].
  assert (Hfacts :
            forall more,
            exists dirpath' monitor' mode' adaptive' it' pt' im' pm' more',
              ([ModelCheckpoint dirpath "model" monitor mode false; TimerCallback]
                 ++ [MetricsConfigurationCallback adaptive it pt im pm] ++ more)%list
              = ([ModelCheckpoint dirpath' "model" monitor' mode' false;
                  TimerCallback;
                  MetricsConfigurationCallback adaptive' it' pt' im' pm'] ++ more')%list /\
              read_or_default missing config "early_stopping" ["model"]
                ["model"; "early_stopping"; "metric"] NNone monitor' /\
              read_or_default missing config "early_stopping" ["model"]
                ["model"; "early_stopping"; "mode"] (NStr "max") mode' /\
              (exists project_path,
                 getattrs missing config ["project"; "path"] = Ok project_path /\
                 path_join project_path (NStr "weights") = Ok dirpath') /\
              getattrs missing config ["metrics"; "threshold"; "adaptive"] = Ok adaptive' /\
              read_or_default missing config "image_default" ["metrics"; "threshold"]
                ["metrics"; "threshold"; "image_default"] NNone it' /\
              read_or_default missing config "pixel_default" ["metrics"; "threshold"]
                ["metrics"; "threshold"; "pixel_default"] NNone pt' /\
              read_or_default missing config "image" ["metrics"] ["metrics"; "image"]
                NNone im' /\
              read_or_default missing config "pixel" ["metrics"] ["metrics"; "pixel"]
                NNone pm').
  { intros more.
    exists dirpath, monitor, mode, adaptive, it, pt, im, pm, more.
    split; [reflexivity|].
    split; [exact (read_unless_absent _ _ _ _ _ _ _ Habsent1 Hmonitor)|].
    split; [exact (read_unless_absent _ _ _ _ _ _ _ Habsent2 Hmode)|].
    split.
    { exists project_path. rewrite attr_run in Hproject. split; [exact Hproject|].
      exact Hdirpath. }
    split; [now rewrite attr_run in Hadaptive|].
    split; [exact (read_if_present _ _ _ _ _ _ _ Hhas_it Hit)|].
    split; [exact (read_if_present _ _ _ _ _ _ _ Hhas_pt Hpt)|].
    split; [exact (read_if_present _ _ _ _ _ _ _ Hhas_image Him)|].
    exact (read_if_present _ _ _ _ _ _ _ Hhas_pixel Hpm). }
  destruct has_weight_file.
  - apply returns_at_bind; [read_only_rules | intros ? _].
    apply returns_at_bind; [read_only_rules | intros ? _].
    apply returns_at_bind; [read_only_rules | intros weights_path _].
    apply returns_at_ret. rewrite <- app_assoc. apply Hfacts.
  - apply returns_at_ret. rewrite <- (app_nil_r (_ ++ [_])), <- app_assoc. apply Hfacts.
Qed.

(** X22.  The three hooks every returned list starts with are built
    from the passed configuration, with a default for each optional
    key: the checkpoint monitors [model.early_stopping.metric] in mode
    [model.early_stopping.mode], or nothing in mode "max" when [model]
    has no [early_stopping]; its directory is [project.path] joined with
    "weights"; the metrics hook gets [metrics.threshold.adaptive] and,
    each [None] when its key is absent, the two default thresholds and
    the two lists of metric names. *)
Theorem first_hooks_follow_configuration config l :
  fst (get_callbacks missing config) = Ok l ->
  exists dirpath monitor mode adaptive it pt im pm rest,
    l = ModelCheckpoint dirpath "model" monitor mode false
        :: TimerCallback
        :: MetricsConfigurationCallback adaptive it pt im pm
        :: rest /\
    read_or_default missing config "early_stopping" ["model"]
      ["model"; "early_stopping"; "metric"] NNone monitor /\
    read_or_default missing config "early_stopping" ["model"]
      ["model"; "early_stopping"; "mode"] (NStr "max") mode /\
    (exists project_path,
       getattrs missing config ["project"; "path"] = Ok project_path /\
       path_join project_path (NStr "weights") = Ok dirpath) /\
    getattrs missing config ["metrics"; "threshold"; "adaptive"] = Ok adaptive /\
    read_or_default missing config "image_default" ["metrics"; "threshold"]
      ["metrics"; "threshold"; "image_default"] NNone it /\
    read_or_default missing config "pixel_default" ["metrics"; "threshold"]
      ["metrics"; "threshold"; "pixel_default"] NNone pt /\
    read_or_default missing config "image" ["metrics"] ["metrics"; "image"] NNone im /\
    read_or_default missing config "pixel" ["metrics"] ["metrics"; "pixel"] NNone pm.
Proof.
  intros Hrun.
  destruct (get_callbacks_returns missing config l Hrun)
    as [c0 [c1 [c2 [c3 [config' [H0 [H1 [H2 [H3 H4]]]]]]]]].
  destruct (base_callbacks_built config c0 H0)
    as [dirpath [monitor [mode [adaptive [it [pt [im [pm [more [Hc0 Hfacts]]]]]]]]]].
  pose proof (normalization_callback_appends missing c0 config c1) as A1.
  rewrite H1 in A1. destruct (A1 eq_refl) as [m1 [-> _]].
  pose proof (add_visualizer_callback_appends missing (c0 ++ m1)%list config c2) as A2.
  rewrite H2 in A2. destruct (A2 eq_refl) as [m2 [-> _]].
  pose proof (optimization_callbacks_appends missing ((c0 ++ m1) ++ m2)%list config' c3)
    as A3.
  rewrite H3 in A3. destruct (A3 eq_refl) as [m3 [-> _]].
  destruct (graph_logger_callback_appends missing _ config' l H4) as [m4 [-> _]].
  exists dirpath, monitor, mode, adaptive, it, pt, im, pm,
    ((((more ++ m1) ++ m2) ++ m3) ++ m4)%list.
  split; [|exact Hfacts].
  subst c0. rewrite <- !app_assoc. reflexivity.
Qed.

End FirstHooks.

(** ** The section that the migration creates *)

Lemma migrated_default_section items :
  exists log save,
    assoc "log_images" (migrated_section items default_visualization) = Some (NBool log) /\
    assoc "save_images" (migrated_section items default_visualization) = Some (NBool save) /\
    log || save = true /\
    assoc "image_save_path" (migrated_section items default_visualization) = Some NNone /\
    assoc "mode" (migrated_section items default_visualization) = None /\
    assoc "show_images" (migrated_section items default_visualization) = None.
Proof.
  unfold migrated_section.
  destruct (existsb (fun item => eq_str item "local") items);
    destruct (Nat.ltb 1 (length items)); cbn;
    eexists; eexists; repeat split; reflexivity.
Qed.

Lemma read_visualization missing top section key :
  assoc "visualization" top = Some (NDict section) ->
  attr missing ["visualization"; key] (NDict top)
  = (getattr missing (NDict section) key, NDict top).
Proof.
  intros Hsection. rewrite attr_run.
  assert (Hread : getattr missing (NDict top) "visualization" = Ok (NDict section))
    by (cbn; now rewrite Hsection).
  cbn [getattrs]. rewrite Hread.
  now destruct (getattr missing (NDict section) key).
Qed.

(** The visualizer block on a section that has the two flags, one of
    them set, no image path, and neither [mode] nor [show_images]. *)
Lemma visualizer_callback_without_mode missing top section path task log save
    callbacks :
  assoc "visualization" top = Some (NDict section) ->
  assoc "log_images" section = Some (NBool log) ->
  assoc "save_images" section = Some (NBool save) ->
  log || save = true ->
  assoc "image_save_path" section = Some NNone ->
  assoc "mode" section = None ->
  assoc "show_images" section = None ->
  getattrs missing (NDict top) ["project"; "path"] = Ok (NStr path) ->
  getattrs missing (NDict top) ["dataset"; "task"] = Ok task ->
  visualizer_callback missing callbacks (NDict top)
  = (match missing with
     | MissingRaises => Raise (AttributeError "Missing key mode")
     | MissingIsNone =>
         match getattrs missing (NDict top) ["model"; "normalization_method"] with
         | Ok method =>
             Ok (callbacks ++ [VisualizerCallback task NNone (NStr (path ++ "/images"))
                                 (negb (eq_str method "none"))
                                 NNone (NBool log) (NBool save)])%list
         | Raise e => Raise e
         end
     end, NDict top).
Proof.
  intros Hsection Hlog Hsave Hone Hpath Hmode Hshow Hroot Htask.
  remember (getattrs missing (NDict top) ["model"; "normalization_method"])
    as method_read eqn:Hmethod.
  assert (Henabled :
            (if truthy (NBool log) then ret true
             else (save_images <- attr missing ["visualization"; "save_images"] ;;
                   if truthy save_images then ret true
                   else (show_images <- attr missing ["visualization"; "show_images"] ;;
                         ret (truthy show_images)))%py) (NDict top)
            = (Ok true, NDict top)).
  { destruct log; [reflexivity|]. cbn in Hone. subst save.
    cbn [truthy]. unfold bind at 1.
    rewrite (read_visualization missing top section _ Hsection).
    cbn [getattr]. rewrite Hsave. reflexivity. }
  unfold visualizer_callback.
  unfold bind at 1. rewrite (read_visualization missing top section _ Hsection).
  cbn [getattr]. rewrite Hlog. cbn [is_missing eq_str].
  unfold bind at 1. rewrite Henabled.
  unfold bind at 1. rewrite (read_visualization missing top section _ Hsection).
  cbn [getattr]. rewrite Hpath. cbn [is_missing eq_str truthy].
  unfold bind at 1. unfold bind at 1. rewrite attr_run, Hroot.
  unfold bind at 1. unfold lift at 1. cbn [str_add ret].
  unfold bind at 1. rewrite attr_run, Htask.
  unfold bind at 1. rewrite (read_visualization missing top section _ Hsection).
  cbn [getattr]. rewrite Hmode.
  destruct missing; [|reflexivity].
  unfold bind at 1. rewrite attr_run, <- Hmethod.
  destruct method_read as [method|e]; [|reflexivity].
  unfold bind at 1. rewrite (read_visualization MissingIsNone top section _ Hsection).
  cbn [getattr]. rewrite Hshow.
  unfold bind at 1. rewrite (read_visualization MissingIsNone top section _ Hsection).
  cbn [getattr]. rewrite Hlog. cbn [is_missing eq_str].
  unfold bind at 1. rewrite (read_visualization MissingIsNone top section _ Hsection).
  cbn [getattr]. rewrite Hsave. reflexivity.
Qed.

(** X18.  The section that line 166 creates has [show_image] for
    [show_images] and no [mode].  So with the deprecated key a non-empty
    list under [project] and no [visualization] section, once the blocks
    before the visualizer have returned: where a missing key raises, the
    call never returns and fails on [config.visualization.mode]; where a
    missing key reads as [None], a list it returns holds a visualizer
    hook whose mode and [show_images] are [None]. *)
Theorem created_section_has_no_mode missing top project items path task callbacks :
  assoc "visualization" top = None ->
  assoc "project" top = Some (NDict project) ->
  assoc "log_images_to" project = Some (NList items) ->
  items <> [] ->
  assoc "path" project = Some (NStr path) ->
  getattrs missing (NDict top) ["dataset"; "task"] = Ok task ->
  fst (bind (base_callbacks missing) (normalization_callback missing) (NDict top))
  = Ok callbacks ->
  match missing with
  | MissingRaises =>
      fst (get_callbacks missing (NDict top)) = Raise (AttributeError "Missing key mode")
  | MissingIsNone =>
      forall l, fst (get_callbacks missing (NDict top)) = Ok l ->
        exists inputs_are_normalized log save,
          In (VisualizerCallback task NNone (NStr (path ++ "/images"))
                inputs_are_normalized NNone (NBool log) (NBool save)) l
  end.
Proof.
  intros Hnone Hproject Hitems Hne Hroot Htask Hbefore.
  destruct (deprecated_key_run missing top project items Hproject Hitems Hne
              (or_introl Hnone)) as [top' [Hadd [Hsection Hsame]]].
  assert (Hdefault : visualization_before top = default_visualization)
    by (unfold visualization_before; now rewrite Hnone).
  rewrite Hdefault in Hsection.
  destruct (migrated_default_section items)
    as [log [save [Hlog [Hsave [Hone [Hpath [Hmode Hshow]]]]]]].
  assert (Hproject' : assoc "project" top' = Some (NDict project))
    by (rewrite Hsame by discriminate; assumption).
  assert (Htask' : getattrs missing (NDict top') ["dataset"; "task"] = Ok task)
    by (cbn in Htask |- *; rewrite Hsame by discriminate; assumption).
  assert (Hroot' : getattrs missing (NDict top') ["project"; "path"] = Ok (NStr path)).
  { assert (Hread : exists project_path,
              getattrs missing (NDict top) ["project"; "path"] = Ok project_path).
    { unfold bind in Hbefore.
      destruct (base_callbacks missing (NDict top)) as [[c0|e] s] eqn:H0; [|discriminate].
      destruct (base_callbacks_built missing (NDict top) c0 ltac:(now rewrite H0))
        as [? [? [? [? [? [? [? [? [? [_ [_ [_ [[project_path [Hp _]] _]]]]]]]]]]]]].
      eauto. }
    destruct Hread as [project_path Hread].
    cbn [getattrs getattr] in Hread. rewrite Hproject in Hread.
    cbn [is_missing eq_str getattrs getattr] in Hread. rewrite Hroot in Hread.
    cbn [getattrs getattr]. rewrite Hproject'.
    cbn [is_missing eq_str getattrs getattr]. rewrite Hroot.
    destruct (is_missing (NStr path)); [discriminate | reflexivity]. }
  pose proof (visualizer_callback_without_mode missing top' _ path task log save
                callbacks Hsection Hlog Hsave Hone Hpath Hmode Hshow Hroot' Htask')
    as Hvisualizer.
  destruct missing.
  2:{ rewrite (get_callbacks_after_normalization _ _ _ Hbefore).
      unfold remaining_callbacks. unfold bind at 1. now rewrite Hadd, Hvisualizer. }
  intros l Hrun.
  rewrite (get_callbacks_after_normalization _ _ _ Hbefore) in Hrun.
  unfold remaining_callbacks in Hrun. unfold bind at 1 in Hrun.
  rewrite Hadd, Hvisualizer in Hrun.
  destruct (getattrs MissingIsNone (NDict top') ["model"; "normalization_method"])
    as [method|e]; [|discriminate].
  exists (negb (eq_str method "none")), log, save.
  set (hook := VisualizerCallback _ _ _ _ _ _ _) in *.
  unfold bind at 1 in Hrun.
  destruct (optimization_callbacks MissingIsNone (callbacks ++ [hook]) (NDict top'))
    as [[c3|e] s] eqn:Hopt; [|discriminate].
  destruct (optimization_callbacks_appends MissingIsNone (callbacks ++ [hook])%list
              (NDict top') c3) as [more [-> _]]; [now rewrite Hopt|].
  destruct (graph_logger_callback_appends MissingIsNone _ s l Hrun) as [more' [-> _]].
  rewrite !in_app_iff. left. left. right. now left.
Qed.

(** ** Concrete runs *)

Lemma hooks_come_in_order_witness :
  exists l,
    fst (get_callbacks MissingRaises full_config) = Ok l /\
    (exists dirpath monitor mode adaptive it pt im pm rest,
       l = ModelCheckpoint dirpath "model" monitor mode false
           :: TimerCallback
           :: MetricsConfigurationCallback adaptive it pt im pm
           :: rest) /\
    StronglySorted lt (map stage_of l).
Proof.
  eexists. split; [vm_compute; reflexivity|].
  apply (hooks_come_in_order MissingRaises full_config).
  vm_compute; reflexivity.
Defined.

Lemma cdf_and_nncf_never_together_witness :
  exists l,
    fst (get_callbacks MissingRaises cdf_padim_with_optimization) = Ok l /\
    existsb is_cdf_callback l = true /\
    existsb is_nncf_callback l = false.
Proof.
  eexists. split; [vm_compute; reflexivity|]. split; [vm_compute; reflexivity|].
  apply (cdf_and_nncf_never_together MissingRaises cdf_padim_with_optimization);
    vm_compute; reflexivity.
Defined.

Lemma not_implemented_exactly_for_cdf_witness :
  fst (get_callbacks MissingRaises cdf_resnet)
  = Raise (NotImplementedError
             "Score Normalization is currently supported for PADIM and STFPM only.") <->
  model_key cdf_resnet "normalization_method" = Some (NStr "cdf") /\
  exists name,
    getattrs MissingRaises cdf_resnet ["model"; "name"] = Ok name /\
    ((eq_str name "padim" || eq_str name "stfpm" = false /\
      "Score Normalization is currently supported for PADIM and STFPM only."
      = "Score Normalization is currently supported for PADIM and STFPM only.") \/
     (eq_str name "padim" || eq_str name "stfpm" = true /\
      fst (optimization_applies MissingRaises "nncf" cdf_resnet) = Ok true /\
      "Score Normalization is currently supported for PADIM and STFPM only."
      = "CDF Score Normalization is currently not compatible with NNCF.")).
Proof.
  apply (not_implemented_exactly_for_cdf MissingRaises cdf_resnet example_base_callbacks).
  reflexivity.
Defined.


Lemma deprecated_key_sets_the_flags_witness :
  exists top',
    snd (get_callbacks MissingIsNone (NDict (top_of log_images_to_under_project)))
    = NDict top' /\
    assoc "visualization" top'
    = Some (NDict (migrated_section [NStr "local"; NStr "wandb"]
                     (visualization_before (top_of log_images_to_under_project)))) /\
    forall key, key <> "visualization" ->
                assoc key top' = assoc key (top_of log_images_to_under_project).
Proof.
  apply (deprecated_key_sets_the_flags MissingIsNone (top_of log_images_to_under_project)
           [("path", NStr "results"); ("log_images_to", NList [NStr "local"; NStr "wandb"])]
           [NStr "local"; NStr "wandb"]
           (example_base_callbacks ++ [MinMaxNormalizationCallback])%list).
  - reflexivity.
  - reflexivity.
  - discriminate.
  - left. reflexivity.
  - reflexivity.
Defined.

Lemma created_section_has_no_mode_witness :
  fst (get_callbacks MissingRaises (NDict (top_of log_images_to_under_project)))
  = Raise (AttributeError "Missing key mode").
Proof.
  apply (created_section_has_no_mode MissingRaises (top_of log_images_to_under_project)
           [("path", NStr "results"); ("log_images_to", NList [NStr "local"; NStr "wandb"])]
           [NStr "local"; NStr "wandb"] "results" (NStr "segmentation")
           (example_base_callbacks ++ [MinMaxNormalizationCallback])%list).
  - reflexivity.
  - reflexivity.
  - reflexivity.
  - discriminate.
  - reflexivity.
  - reflexivity.
  - reflexivity.
Defined.

Lemma optional_hooks_as_configured_witness :
  exists l,
    fst (get_callbacks MissingRaises full_config) = Ok l /\
    (existsb is_load_model_callback l = true <->
     fst (has_key MissingRaises "weight_file" ["model"] full_config) = Ok true) /\
    (existsb is_nncf_callback l = true <->
     fst (has_key MissingRaises "optimization" [] full_config) = Ok true /\
     fst (optimization_applies MissingRaises "nncf" full_config) = Ok true) /\
    (existsb is_openvino_callback l = true <->
     fst (has_key MissingRaises "optimization" [] full_config) = Ok true /\
     fst (optimization_applies MissingRaises "openvino" full_config) = Ok true) /\
    (existsb is_graph_logger l = true <->
     exists v, getattrs MissingRaises full_config ["logging"; "log_graph"] = Ok v /\
               in_none_false v = false).
Proof.
  eexists. split; [vm_compute; reflexivity|].
  apply (optional_hooks_as_configured MissingRaises full_config).
  vm_compute; reflexivity.
Defined.

Lemma visualizer_follows_final_configuration_witness :
  exists l,
    fst (get_callbacks MissingIsNone log_images_to_under_project) = Ok l /\
    (existsb is_visualizer_callback l = true <->
     fst (visualization_enabled MissingIsNone
            (snd (get_callbacks MissingIsNone log_images_to_under_project))) = Ok true) /\
    Forall (visualizer_built_from MissingIsNone
              (snd (get_callbacks MissingIsNone log_images_to_under_project))) l.
Proof.
  eexists. split; [vm_compute; reflexivity|].
  apply (visualizer_follows_final_configuration MissingIsNone log_images_to_under_project).
  vm_compute; reflexivity.
Defined.

Lemma first_hooks_follow_configuration_witness :
  exists dirpath monitor mode adaptive it pt im pm rest,
    [ModelCheckpoint "results/weights" "model" (NStr "image_AUROC") (NStr "max") false;
     TimerCallback;
     MetricsConfigurationCallback (NBool true) (NInt 3) (NInt 3)
       (NList [NStr "F1Score"; NStr "AUROC"]) (NList [NStr "F1Score"; NStr "AUROC"]);
     LoadModelCallback "results/weights/model.ckpt";
     MinMaxNormalizationCallback;
     VisualizerCallback (NStr "segmentation") (NStr "full") (NStr "results/images") true
       (NBool false) (NBool false) (NBool true);
     NNCFCallback (NDict [("apply", NBool true)]) "results/compressed";
     OpenVINOCallback (NList [NInt 256; NInt 256]) "results/openvino" "openvino_model";
     GraphLogger]
    = ModelCheckpoint dirpath "model" monitor mode false
      :: TimerCallback
      :: MetricsConfigurationCallback adaptive it pt im pm
      :: rest /\
    read_or_default MissingRaises full_config "early_stopping" ["model"]
      ["model"; "early_stopping"; "metric"] NNone monitor /\
    read_or_default MissingRaises full_config "early_stopping" ["model"]
      ["model"; "early_stopping"; "mode"] (NStr "max") mode /\
    (exists project_path,
       getattrs MissingRaises full_config ["project"; "path"] = Ok project_path /\
       path_join project_path (NStr "weights") = Ok dirpath) /\
    getattrs MissingRaises full_config ["metrics"; "threshold"; "adaptive"] = Ok adaptive /\
    read_or_default MissingRaises full_config "image_default" ["metrics"; "threshold"]
      ["metrics"; "threshold"; "image_default"] NNone it /\
    read_or_default MissingRaises full_config "pixel_default" ["metrics"; "threshold"]
      ["metrics"; "threshold"; "pixel_default"] NNone pt /\
    read_or_default MissingRaises full_config "image" ["metrics"] ["metrics"; "image"]
      NNone im /\
    read_or_default MissingRaises full_config "pixel" ["metrics"] ["metrics"; "pixel"]
      NNone pm.
Proof.
  apply (first_hooks_follow_configuration MissingRaises full_config).
  vm_compute; reflexivity.
Defined.

End CallbacksCoverage.
